(** * shohan cache: a shallow embedding of the fetch-through cache

    The development follows the TypeScript modules of [src/cache]:
    [config], [memory], [traffic], [redis], [metrics] and the orchestrator
    [ProductionEZCache].  Times are whole milliseconds and TTLs whole seconds
    ([Z]); the eviction score, which divides, is a rational ([Q]).
    Synchronous methods read the clock once ([now]); the clock advances
    only while an asynchronous call (the fetcher, a remote command) is
    awaited.  Logging has no effect on the state and is left out. *)

From Stdlib Require Import ZArith QArith Lqa String List Bool Lia.
From Stdlib Require Import DecimalString.
From stdpp Require Import gmap strings.
Import ListNotations.

#[local] Open Scope Z_scope.

(** ** JavaScript values

    The cache stores values it never inspects ([unknown]).  The code only
    uses four built-in observations of them, which are the interface
    below. *)

Class JsValue (Value : Type) := {
  (** [if (v)]: JavaScript truthiness. *)
  truthy : Value -> bool;
  (** [JSON.stringify(v).length]; [None] when the expression throws. *)
  stringifyLength : Value -> option Z;
  (** [typeof v === 'number'], with the number. *)
  asNumber : Value -> option Z;
  (** [Array.isArray(v)], with the elements (typed [string[]]). *)
  asKeys : Value -> option (list string)
}.

(** ** config: CACHE_CONFIG *)

Inductive NodeEnv := Development | Production | Test | OtherEnv.

Inductive CacheStrategy := aggressive | balanced | conservative | memory_only | custom.

Inductive CacheMode := HYBRID | MEMORY_ONLY | REDIS_ONLY | DISABLED.

Definition CacheMode_eqb (a b : CacheMode) : bool :=
  match a, b with
  | HYBRID, HYBRID | MEMORY_ONLY, MEMORY_ONLY
  | REDIS_ONLY, REDIS_ONLY | DISABLED, DISABLED => true
  | _, _ => false
  end.

(** What [process.env] contributes.  A flag is [true] unless the variable
    is the string ['false']; a number is [None] when the variable is not
    set. *)
Record ProcessEnv := {
  NODE_ENV : NodeEnv;
  CACHE_STRATEGY_VAR : option CacheStrategy;
  redisDependencyAvailable : bool;      (* checkRedisAvailability() *)
  CACHE_ENABLE_REDIS : bool;
  CACHE_ENABLE_MEMORY : bool;
  CACHE_ENABLE_METRICS : bool;
  CACHE_ENABLE_TRAFFIC : bool;
  CACHE_ENABLE_CIRCUIT_BREAKER : bool;
  CACHE_REDIS_TIMEOUT : option Z;
  CACHE_CIRCUIT_THRESHOLD : option Z;
  CACHE_CIRCUIT_RESET : option Z;
  CACHE_MAX_VALUE_SIZE : option Z;
  CACHE_WINDOW_MS : option Z;
  CACHE_TRACKER_CLEANUP : option Z
}.

Record UserCacheConfig := {
  enableRedis : bool;
  enableMemory : bool;
  memorySize : Z;
  enableMetrics : bool;
  enableTrafficDetection : bool;
  enableCircuitBreaker : bool;
  trafficThreshold : Z;
  defaultTtl : Z;
  cacheStrategy : CacheStrategy
}.

Definition IS_DEV (e : ProcessEnv) : bool :=
  match NODE_ENV e with Development => true | _ => false end.
Definition IS_PROD (e : ProcessEnv) : bool :=
  match NODE_ENV e with Production => true | _ => false end.
Definition IS_TEST (e : ProcessEnv) : bool :=
  match NODE_ENV e with Test => true | _ => false end.

Definition getSmartDefaults (e : ProcessEnv) : UserCacheConfig :=
  let redisAvailable := redisDependencyAvailable e in
  {| enableRedis := redisAvailable && CACHE_ENABLE_REDIS e;
     enableMemory := CACHE_ENABLE_MEMORY e;
     memorySize := if IS_DEV e then 200 else if IS_PROD e then 5000 else 1000;
     enableMetrics := CACHE_ENABLE_METRICS e && (IS_PROD e || IS_TEST e);
     enableTrafficDetection := CACHE_ENABLE_TRAFFIC e;
     enableCircuitBreaker := CACHE_ENABLE_CIRCUIT_BREAKER e && redisAvailable;
     trafficThreshold := if IS_DEV e then 3 else if IS_PROD e then 100 else 20;
     defaultTtl := if IS_DEV e then 60 else if IS_PROD e then 600 else 180;
     cacheStrategy :=
       match CACHE_STRATEGY_VAR e with
       | Some s => s
       | None => if IS_PROD e then balanced
                 else if IS_DEV e then aggressive else conservative
       end |}.

(** [memorySize * 1.5] and [Math.floor(memorySize * 0.7)] on the three
    sizes [getSmartDefaults] produces. *)
Definition applyCacheStrategy (e : ProcessEnv) (c : UserCacheConfig) : UserCacheConfig :=
  match cacheStrategy c with
  | aggressive =>
      {| enableRedis := enableRedis c; enableMemory := enableMemory c;
         memorySize := memorySize c * 3 / 2;
         enableMetrics := true;
         enableTrafficDetection := enableTrafficDetection c;
         enableCircuitBreaker := enableCircuitBreaker c;
         trafficThreshold := 1;
         defaultTtl := if IS_PROD e then 900 else 300;
         cacheStrategy := cacheStrategy c |}
  | conservative =>
      {| enableRedis := enableRedis c; enableMemory := enableMemory c;
         memorySize := memorySize c * 7 / 10;
         enableMetrics := IS_PROD e;
         enableTrafficDetection := enableTrafficDetection c;
         enableCircuitBreaker := enableCircuitBreaker c;
         trafficThreshold := if IS_PROD e then 200 else 50;
         defaultTtl := if IS_PROD e then 300 else 60;
         cacheStrategy := cacheStrategy c |}
  | memory_only =>
      {| enableRedis := false; enableMemory := enableMemory c;
         memorySize := memorySize c * 2;
         enableMetrics := enableMetrics c;
         enableTrafficDetection := enableTrafficDetection c;
         enableCircuitBreaker := enableCircuitBreaker c;
         trafficThreshold := 5;
         defaultTtl := defaultTtl c;
         cacheStrategy := cacheStrategy c |}
  | balanced | custom => c
  end.

(** The fields of [CACHE_CONFIG] the cache core reads. *)
Record Config := {
  ENABLE_MEMORY : bool;
  ENABLE_REDIS : bool;
  REDIS_TIMEOUT : Z;
  ENABLE_CIRCUIT_BREAKER : bool;
  CIRCUIT_FAILURE_THRESHOLD : Z;
  CIRCUIT_RESET_TIMEOUT : Z;
  MEMORY_SIZE : Z;
  MEMORY_TTL_MAX : Z;
  TRAFFIC_THRESHOLD : Z;
  DEFAULT_TTL : Z;
  ENABLE_METRICS : bool;
  ENABLE_TRAFFIC_DETECTION : bool;
  MAX_VALUE_SIZE : Z;
  WINDOW_MS : Z;
  TRACKER_CLEANUP_MS : Z
}.

Definition CACHE_CONFIG (e : ProcessEnv) : Config :=
  let finalConfig := applyCacheStrategy e (getSmartDefaults e) in
  {| ENABLE_MEMORY := enableMemory finalConfig;
     ENABLE_REDIS := enableRedis finalConfig;
     REDIS_TIMEOUT := default 5000 (CACHE_REDIS_TIMEOUT e);
     ENABLE_CIRCUIT_BREAKER := enableCircuitBreaker finalConfig;
     CIRCUIT_FAILURE_THRESHOLD := default 3 (CACHE_CIRCUIT_THRESHOLD e);
     CIRCUIT_RESET_TIMEOUT := default 30000 (CACHE_CIRCUIT_RESET e);
     MEMORY_SIZE := memorySize finalConfig;
     MEMORY_TTL_MAX := if IS_DEV e then 120 else if IS_PROD e then 300 else 180;
     TRAFFIC_THRESHOLD := trafficThreshold finalConfig;
     DEFAULT_TTL := defaultTtl finalConfig;
     ENABLE_METRICS := enableMetrics finalConfig;
     ENABLE_TRAFFIC_DETECTION := enableTrafficDetection finalConfig;
     MAX_VALUE_SIZE := default 1048576 (CACHE_MAX_VALUE_SIZE e);
     WINDOW_MS := default 60000 (CACHE_WINDOW_MS e);
     TRACKER_CLEANUP_MS := default 300000 (CACHE_TRACKER_CLEANUP e) |}.

Definition CACHE_MODE (cfg : Config) : CacheMode :=
  if ENABLE_REDIS cfg && ENABLE_MEMORY cfg then HYBRID
  else if ENABLE_MEMORY cfg && negb (ENABLE_REDIS cfg) then MEMORY_ONLY
  else if negb (ENABLE_MEMORY cfg) && ENABLE_REDIS cfg then REDIS_ONLY
  else DISABLED.

(** A process environment with nothing set but [NODE_ENV] and, possibly,
    [CACHE_STRATEGY]; the remote dependency is absent. *)
Definition plainEnv (n : NodeEnv) (s : option CacheStrategy) : ProcessEnv :=
  {| NODE_ENV := n; CACHE_STRATEGY_VAR := s;
     redisDependencyAvailable := false;
     CACHE_ENABLE_REDIS := true; CACHE_ENABLE_MEMORY := true;
     CACHE_ENABLE_METRICS := true; CACHE_ENABLE_TRAFFIC := true;
     CACHE_ENABLE_CIRCUIT_BREAKER := true;
     CACHE_REDIS_TIMEOUT := None; CACHE_CIRCUIT_THRESHOLD := None;
     CACHE_CIRCUIT_RESET := None; CACHE_MAX_VALUE_SIZE := None;
     CACHE_WINDOW_MS := None; CACHE_TRACKER_CLEANUP := None |}.

(** ** A JavaScript [Map<string, V>]

    Iteration follows insertion order, and [evictLRU] breaks ties by it, so
    the map is an association list: [set] overwrites in place or appends. *)

Module JsMap.
Section JsMap.
Context {V : Type}.

Definition has_key (k : string) (p : string * V) : bool := String.eqb (fst p) k.

Definition get (k : string) (m : list (string * V)) : option V :=
  option_map snd (List.find (has_key k) m).

Fixpoint set (k : string) (v : V) (m : list (string * V)) : list (string * V) :=
  match m with
  | [] => [(k, v)]
  | (k', v') :: r =>
      if String.eqb k' k then (k, v) :: r else (k', v') :: set k v r
  end.

Definition delete (k : string) (m : list (string * V)) : list (string * V) :=
  List.filter (fun p => negb (has_key k p)) m.

(** A [Map] holds a key once. *)
Definition wf (m : list (string * V)) : Prop := List.NoDup (map fst m).

End JsMap.
End JsMap.

(** ** memory: ProductionMemoryCache *)

Module Memory.
Section Memory.
Context {Value : Type} `{JsValue Value}.

Record CacheItem := {
  data : Value;
  expires : Z;
  lastAccess : Z;
  hitCount : Z;
  sizeBytes : Z;      (* [size]: approximate size in bytes *)
  createdAt : Z
}.

Record ProductionMemoryCache := {
  cache : list (string * CacheItem);
  totalSize : Z;
  lastCleanup : Z
}.

(** [new ProductionMemoryCache()] at time [now]. *)
Definition create (now : Z) : ProductionMemoryCache :=
  {| cache := []; totalSize := 0; lastCleanup := now |}.

Definition estimateSize (d : Value) : Z :=
  match stringifyLength d with
  | Some n => n * 2
  | None => 1024
  end.

Definition delete (key : string) (st : ProductionMemoryCache)
  : bool * ProductionMemoryCache :=
  match JsMap.get key (cache st) with
  | Some item =>
      (true, {| cache := JsMap.delete key (cache st);
                totalSize := totalSize st - sizeBytes item;
                lastCleanup := lastCleanup st |})
  | None => (false, st)
  end.

Definition clear (st : ProductionMemoryCache) : ProductionMemoryCache :=
  {| cache := []; totalSize := 0; lastCleanup := lastCleanup st |}.

Definition size (st : ProductionMemoryCache) : Z :=
  Z.of_nat (List.length (cache st)).

Definition MAX_SAFE_INTEGER : Q := 9007199254740991 # 1.

(** [(timeSinceAccess / 1000) + (age / 10000) + sizePenalty
     - (accessFrequency * 100)] *)
Definition score (now : Z) (item : CacheItem) : Q :=
  let age := now - createdAt item in
  let timeSinceAccess := now - lastAccess item in
  let accessFrequency := hitCount item in
  let sizePenalty := sizeBytes item # 1024 in
  ((timeSinceAccess # 1000) + (age # 10000) + sizePenalty
   - inject_Z (accessFrequency * 100))%Q.

(** One iteration of the scan of [evictLRU], on [(evictKey, lowestScore)]. *)
Definition evictScan (now : Z) (acc : string * Q) (e : string * CacheItem)
  : string * Q :=
  if Qlt_le_dec (score now (snd e)) (snd acc)
  then (fst e, score now (snd e))
  else acc.

Definition evictLRU (now : Z) (st : ProductionMemoryCache)
  : bool * ProductionMemoryCache :=
  if size st =? 0 then (false, st)
  else
    let evictKey :=
      fst (fold_left (evictScan now) (cache st) (EmptyString, MAX_SAFE_INTEGER)) in
    (* [if (evictKey)]: the empty string is falsy *)
    if String.eqb evictKey EmptyString then (false, st)
    else (true, snd (delete evictKey st)).

Definition cleanupExpired (now : Z) (st : ProductionMemoryCache)
  : ProductionMemoryCache :=
  if now - lastCleanup st <? 10000 then st
  else
    let expiredKeys :=
      map fst (List.filter (fun p => now >? expires (snd p)) (cache st)) in
    let st' := fold_left (fun s key => snd (delete key s)) expiredKeys st in
    {| cache := cache st'; totalSize := totalSize st'; lastCleanup := now |}.

(** [while (this.cache.size >= MEMORY_SIZE) { if (!this.evictLRU()) break; }]
    Every successful eviction removes an entry, so the loop runs at most
    [cache.size] times; [makeRoom] starts with that much fuel and one more
    ([makeRoom_exit] below shows the loop ends by its own condition). *)
Fixpoint makeRoomLoop (fuel : nat) (cfg : Config) (now : Z)
  (st : ProductionMemoryCache) : ProductionMemoryCache :=
  match fuel with
  | O => st
  | S fuel' =>
      if size st >=? MEMORY_SIZE cfg then
        match evictLRU now st with
        | (true, st') => makeRoomLoop fuel' cfg now st'
        | (false, st') => st'
        end
      else st
  end.

Definition makeRoom (cfg : Config) (now : Z) (st : ProductionMemoryCache)
  : ProductionMemoryCache :=
  makeRoomLoop (S (List.length (cache st))) cfg now st.

Definition set (cfg : Config) (now : Z) (key : string) (d : Value)
  (ttlSeconds : Z) (st : ProductionMemoryCache) : bool * ProductionMemoryCache :=
  let dataSize := estimateSize d in
  if dataSize >? MAX_VALUE_SIZE cfg then (false, st)
  else
    let st1 := cleanupExpired now st in
    let st2 := makeRoom cfg now st1 in
    let item :=
      {| data := d;
         expires := now + Z.min ttlSeconds (MEMORY_TTL_MAX cfg) * 1000;
         lastAccess := now;
         hitCount := 1;
         sizeBytes := dataSize;
         createdAt := now |} in
    let total :=
      match JsMap.get key (cache st2) with
      | Some existingItem => totalSize st2 - sizeBytes existingItem
      | None => totalSize st2
      end in
    (true, {| cache := JsMap.set key item (cache st2);
              totalSize := total + dataSize;
              lastCleanup := lastCleanup st2 |}).

Definition touch (now : Z) (item : CacheItem) : CacheItem :=
  {| data := data item;
     expires := expires item;
     lastAccess := now;
     hitCount := hitCount item + 1;
     sizeBytes := sizeBytes item;
     createdAt := createdAt item |}.

(** [get] returns [null] ([None]) when the key is missing or expired. *)
Definition get (now : Z) (key : string) (st : ProductionMemoryCache)
  : option Value * ProductionMemoryCache :=
  match JsMap.get key (cache st) with
  | None => (None, st)
  | Some item =>
      if now >? expires item then (None, snd (delete key st))
      else
        (Some (data item),
         {| cache := JsMap.set key (touch now item) (cache st);
            totalSize := totalSize st;
            lastCleanup := lastCleanup st |})
  end.

Definition wf (st : ProductionMemoryCache) : Prop := JsMap.wf (cache st).

(** The public operations, to run sequences of them: each happens at
    its own time. *)
Inductive Op :=
| OpSet (key : string) (d : Value) (ttlSeconds : Z)
| OpGet (key : string)
| OpDelete (key : string)
| OpClear.

Definition step (cfg : Config) (now : Z) (op : Op) (st : ProductionMemoryCache)
  : ProductionMemoryCache :=
  match op with
  | OpSet key d ttlSeconds => snd (set cfg now key d ttlSeconds st)
  | OpGet key => snd (get now key st)
  | OpDelete key => snd (delete key st)
  | OpClear => clear st
  end.

Definition run (cfg : Config) (ops : list (Z * Op)) (st : ProductionMemoryCache)
  : ProductionMemoryCache :=
  fold_left (fun s top => step cfg (fst top) (snd top) s) ops st.

(** What [set] and [get] maintain of an entry, when keys are not empty
    and times are not negative. *)
Definition entryOk (cfg : Config) (e : string * CacheItem) : Prop :=
  fst e <> EmptyString /\
  0 <= lastAccess (snd e) /\
  0 <= createdAt (snd e) /\
  1 <= hitCount (snd e) /\
  sizeBytes (snd e) <= MAX_VALUE_SIZE cfg.

Definition bounded (cfg : Config) (st : ProductionMemoryCache) : Prop :=
  size st <= MEMORY_SIZE cfg /\ Forall (entryOk cfg) (cache st).

(** The sum of the [size] fields of the entries, which [totalSize]
    tracks. *)
Definition sizeSum (l : list (string * CacheItem)) : Z :=
  fold_right (fun e acc => sizeBytes (snd e) + acc) 0 l.

(** The store is well formed and [totalSize] is the sum of the sizes. *)
Definition tallied (st : ProductionMemoryCache) : Prop :=
  wf st /\ totalSize st = sizeSum (cache st).


(** An operation at a time a clock can show (below 2^53), on a key that
    is not the empty string. *)
Definition opOk (top : Z * Op) : Prop :=
  0 <= fst top < 2 ^ 53 /\
  match snd top with
  | OpSet key _ _ => key <> EmptyString
  | _ => True
  end.

End Memory.

Arguments CacheItem : clear implicits.
Arguments ProductionMemoryCache : clear implicits.

End Memory.

(** ** traffic: ProductionTrafficTracker *)

Module Traffic.

Record TrafficData := {
  timestamps : list Z;
  lastCleanup : Z;
  totalRequests : Z
}.

Record ProductionTrafficTracker := {
  requests : gmap string TrafficData;
  lastGlobalCleanup : Z
}.

Definition create (now : Z) : ProductionTrafficTracker :=
  {| requests := ∅; lastGlobalCleanup := now |}.

(** [time => now - time < CACHE_CONFIG.WINDOW_MS] *)
Definition inWindow (cfg : Config) (now time : Z) : bool :=
  now - time <? WINDOW_MS cfg.

Definition cleanupEndpoint (cfg : Config) (now : Z) (d : TrafficData) : TrafficData :=
  {| timestamps := List.filter (inWindow cfg now) (timestamps d);
     lastCleanup := lastCleanup d;
     totalRequests := totalRequests d |}.

(** The test of [globalCleanup]: no timestamp left, or the last one older
    than the cleanup interval. *)
Definition inactive (cfg : Config) (now : Z) (d : TrafficData) : bool :=
  match List.last (map Some (timestamps d)) None with
  | None => true
  | Some t => now - t >? TRACKER_CLEANUP_MS cfg
  end.

Definition globalCleanup (cfg : Config) (now : Z)
  (reqs : gmap string TrafficData) : gmap string TrafficData :=
  filter (fun kd => inactive cfg now (snd kd) = false) reqs.

(** [track].  [data] is the object stored under [key], so the map sees
    what is written to it; when the global sweep drops [key], the
    object is still updated and counted, but the map no longer holds it. *)
Definition track (cfg : Config) (now : Z) (key : string)
  (tr : ProductionTrafficTracker) : Z * ProductionTrafficTracker :=
  let data0 :=
    match requests tr !! key with
    | Some d => d
    | None => {| timestamps := []; lastCleanup := now; totalRequests := 0 |}
    end in
  let data1 :=
    if now - lastCleanup data0 >? TRACKER_CLEANUP_MS cfg then
      {| timestamps := timestamps (cleanupEndpoint cfg now data0);
         lastCleanup := now;
         totalRequests := totalRequests data0 |}
    else data0 in
  let reqs1 := <[key := data1]> (requests tr) in
  let swept := now - lastGlobalCleanup tr >? TRACKER_CLEANUP_MS cfg * 2 in
  let reqs2 := if swept then globalCleanup cfg now reqs1 else reqs1 in
  let data2 :=
    {| timestamps := List.filter (inWindow cfg now) (timestamps data1) ++ [now];
       lastCleanup := lastCleanup data1;
       totalRequests := totalRequests data1 + 1 |} in
  let reqs3 :=
    match reqs2 !! key with
    | Some _ => <[key := data2]> reqs2
    | None => reqs2
    end in
  (Z.of_nat (List.length (timestamps data2)),
   {| requests := reqs3;
      lastGlobalCleanup := if swept then now else lastGlobalCleanup tr |}).

(** [customThreshold || CACHE_CONFIG.TRAFFIC_THRESHOLD]: an absent or zero
    override falls back to the default. *)
Definition effectiveThreshold (cfg : Config) (customThreshold : option Z) : Z :=
  match customThreshold with
  | Some t => if t =? 0 then TRAFFIC_THRESHOLD cfg else t
  | None => TRAFFIC_THRESHOLD cfg
  end.

Definition isHighTraffic (cfg : Config) (now : Z) (key : string)
  (customThreshold : option Z) (tr : ProductionTrafficTracker)
  : bool * ProductionTrafficTracker :=
  let (count, tr') := track cfg now key tr in
  let threshold := effectiveThreshold cfg customThreshold in
  (count >=? threshold, tr').

Definition getCurrentCount (cfg : Config) (now : Z) (key : string)
  (tr : ProductionTrafficTracker) : Z :=
  match requests tr !! key with
  | None => 0
  | Some d => Z.of_nat (List.length (List.filter (inWindow cfg now) (timestamps d)))
  end.

Definition clear (now : Z) (tr : ProductionTrafficTracker) : ProductionTrafficTracker :=
  {| requests := ∅; lastGlobalCleanup := now |}.

Definition getTrackedEndpointsCount (tr : ProductionTrafficTracker) : nat :=
  size (requests tr).

(** The record [track] works on: the one stored, or a new one. *)
Definition recordOf (now : Z) (key : string) (tr : ProductionTrafficTracker)
  : TrafficData :=
  match requests tr !! key with
  | Some d => d
  | None => {| timestamps := []; lastCleanup := now; totalRequests := 0 |}
  end.

(** What the tracker knows of [key] after [n] requests of a burst that
    started at [t0]. *)
Definition counted (t0 : Z) (key : string) (n : nat) (tr : ProductionTrafficTracker)
  : Prop :=
  match requests tr !! key with
  | Some d =>
      List.length (timestamps d) = n /\ Forall (fun t => t0 <= t) (timestamps d)
  | None => n = 0%nat
  end.

(** [isHighTraffic(key, customThreshold)] called at each of the times
    [times] in turn: the answers, and the tracker left behind. *)
Fixpoint requestsAt (cfg : Config) (key : string) (customThreshold : option Z)
  (times : list Z) (tr : ProductionTrafficTracker)
  : list bool * ProductionTrafficTracker :=
  match times with
  | [] => ([], tr)
  | now :: rest =>
      let (high, tr1) := isHighTraffic cfg now key customThreshold tr in
      let (highs, tr2) := requestsAt cfg key customThreshold rest tr1 in
      (high :: highs, tr2)
  end.

End Traffic.

(** ** metrics: PerformanceMetrics *)

Module Metrics.

Record MetricsData := {
  hits : Z;
  misses : Z;
  errors : Z;
  totalRequests : Z;
  avgResponseTime : Q;
  lastReset : Z
}.

Record PerformanceMetrics := {
  metrics : MetricsData;
  responseTimes : list Z
}.

Definition create (now : Z) : PerformanceMetrics :=
  {| metrics := {| hits := 0; misses := 0; errors := 0; totalRequests := 0;
                   avgResponseTime := 0; lastReset := now |};
     responseTimes := [] |}.

(** [push], keep the last 1000, and the mean of what is kept. *)
Definition recordResponseTime (time : Z) (pm : PerformanceMetrics)
  : PerformanceMetrics :=
  let pushed := responseTimes pm ++ [time] in
  let kept :=
    if (1000 <? List.length pushed)%nat
    then skipn (List.length pushed - 1000) pushed
    else pushed in
  let m := metrics pm in
  {| metrics :=
       {| hits := hits m; misses := misses m; errors := errors m;
          totalRequests := totalRequests m;
          avgResponseTime :=
            fold_left Z.add kept 0 # Pos.of_nat (List.length kept);
          lastReset := lastReset m |};
     responseTimes := kept |}.

Definition recordHit (cfg : Config) (responseTime : Z) (pm : PerformanceMetrics)
  : PerformanceMetrics :=
  if negb (ENABLE_METRICS cfg) then pm
  else
    let m := metrics pm in
    recordResponseTime responseTime
      {| metrics :=
           {| hits := hits m + 1; misses := misses m; errors := errors m;
              totalRequests := totalRequests m + 1;
              avgResponseTime := avgResponseTime m; lastReset := lastReset m |};
         responseTimes := responseTimes pm |}.

Definition recordMiss (cfg : Config) (responseTime : Z) (pm : PerformanceMetrics)
  : PerformanceMetrics :=
  if negb (ENABLE_METRICS cfg) then pm
  else
    let m := metrics pm in
    recordResponseTime responseTime
      {| metrics :=
           {| hits := hits m; misses := misses m + 1; errors := errors m;
              totalRequests := totalRequests m + 1;
              avgResponseTime := avgResponseTime m; lastReset := lastReset m |};
         responseTimes := responseTimes pm |}.

Definition recordError (cfg : Config) (pm : PerformanceMetrics) : PerformanceMetrics :=
  if negb (ENABLE_METRICS cfg) then pm
  else
    let m := metrics pm in
    {| metrics :=
         {| hits := hits m; misses := misses m; errors := errors m + 1;
            totalRequests := totalRequests m + 1;
            avgResponseTime := avgResponseTime m; lastReset := lastReset m |};
       responseTimes := responseTimes pm |}.

Definition reset (now : Z) (pm : PerformanceMetrics) : PerformanceMetrics :=
  {| metrics := {| hits := 0; misses := 0; errors := 0; totalRequests := 0;
                   avgResponseTime := 0; lastReset := now |};
     responseTimes := [] |}.

(** The calls a collector receives, to run sequences of them. *)
Inductive Event :=
| Hit (responseTime : Z)
| Miss (responseTime : Z)
| Errored
| ResetAt (now : Z).

Definition record (cfg : Config) (ev : Event) (pm : PerformanceMetrics)
  : PerformanceMetrics :=
  match ev with
  | Hit responseTime => recordHit cfg responseTime pm
  | Miss responseTime => recordMiss cfg responseTime pm
  | Errored => recordError cfg pm
  | ResetAt now => reset now pm
  end.

Definition recordAll (cfg : Config) (evs : list Event) (pm : PerformanceMetrics)
  : PerformanceMetrics :=
  fold_left (fun p ev => record cfg ev p) evs pm.

(** The response times reported since the last reset, oldest first. *)
Definition timesOf (evs : list Event) : list Z :=
  fold_left
    (fun acc ev =>
       match ev with
       | Hit responseTime | Miss responseTime => acc ++ [responseTime]
       | Errored => acc
       | ResetAt _ => []
       end)
    evs [].

(** The last [n] elements of a list ([slice(-n)]). *)
Definition lastn {A} (n : nat) (l : list A) : list A :=
  skipn (List.length l - n) l.

(** What the counters satisfy: every request is a hit, a miss or an
    error, and at most 1000 response times are kept. *)
Definition consistent (pm : PerformanceMetrics) : Prop :=
  hits (metrics pm) + misses (metrics pm) + errors (metrics pm)
  = totalRequests (metrics pm) /\
  0 <= hits (metrics pm) /\
  0 <= misses (metrics pm) /\
  0 <= errors (metrics pm) /\
  (List.length (responseTimes pm) <= 1000)%nat.

(** The state of a collector that has been given the response times
    [times] since its last reset: it keeps the last 1000, and the
    average is their mean. *)
Definition windowOf (times : list Z) (pm : PerformanceMetrics) : Prop :=
  responseTimes pm = lastn 1000 times /\
  (times <> [] ->
   avgResponseTime (metrics pm)
   = (fold_left Z.add (lastn 1000 times) 0
      # Pos.of_nat (List.length (lastn 1000 times)))).

End Metrics.

(** ** Exceptions and state

    Code that can throw, or that awaits, runs in a state-and-exception
    monad: a computation maps a state to an outcome and a state.
    [tryCatch] is [try { ... } catch { ... }]: the handler runs in the
    state the body left behind. *)

Definition Error := string.

Inductive Outcome (A : Type) :=
| Returned (a : A)
| Thrown (e : Error).
Arguments Returned {A} a.
Arguments Thrown {A} e.

Definition M (S A : Type) : Type := S -> Outcome A * S.

Definition ret {S A} (a : A) : M S A := fun s => (Returned a, s).

Definition throw {S A} (e : Error) : M S A := fun s => (Thrown e, s).

Definition bind {S A B} (m : M S A) (k : A -> M S B) : M S B :=
  fun s =>
    match m s with
    | (Returned a, s') => k a s'
    | (Thrown e, s') => (Thrown e, s')
    end.

Definition tryCatch {S A} (body : M S A) (handler : Error -> M S A) : M S A :=
  fun s =>
    match body s with
    | (Returned a, s') => (Returned a, s')
    | (Thrown e, s') => handler e s'
    end.

Definition gets {S A} (f : S -> A) : M S A := fun s => (Returned (f s), s).

Definition modify {S} (f : S -> S) : M S unit := fun s => (Returned tt, f s).

Declare Scope monad_scope.
Delimit Scope monad_scope with monad.
Notation "'let*' x ':=' m 'in' k" := (bind m (fun x => k))
  (at level 10, x name, m at level 100, k at level 200) : monad_scope.
Notation "'do' m 'then' k" := (bind m (fun _ => k))
  (at level 10, m at level 100, k at level 200) : monad_scope.

(** ** redis: ResilientRedis *)

Module Redis.
Section Redis.
Context {Value : Type} `{JsValue Value}.

Record OperationMetrics := {
  totalOperations : Z;
  successfulOperations : Z;
  failedOperations : Z;
  avgResponseTime : Q;
  lastOperationTime : Z
}.

(** The fields of the client the commands read or write.  [hasClient] is
    [this.redis !== null]. *)
Record ResilientRedis := {
  hasClient : bool;
  isConnected : bool;
  circuitOpen : bool;
  failureCount : Z;
  lastFailure : Z;
  connectionAttempts : Z;
  redisAvailable : bool;
  operationMetrics : OperationMetrics
}.

(** How the remote service answers one command: after [delay]
    milliseconds the promise of the underlying client resolves with a
    value or rejects. *)
Inductive Settle :=
| Resolves (v : Value)
| Rejects (e : Error).

Record Reply := { delay : Z; settle : Settle }.

(** The state a command runs in: the clock, the client, and the number of
    commands sent to the network so far.  The [n]-th command sent gets
    the answer [remote n]. *)
Record Net := {
  clock : Z;
  netCalls : nat;
  client : ResilientRedis
}.

Definition Remote := nat -> Reply.

Definition setClient (f : ResilientRedis -> ResilientRedis) (s : Net) : Net :=
  {| clock := clock s; netCalls := netCalls s; client := f (client s) |}.

(** [await this.redis!.cmd(...)]: one command on the network. *)
Definition send (remote : Remote) : M Net Value :=
  fun s =>
    let r := remote (netCalls s) in
    let s' := {| clock := clock s + delay r;
                 netCalls := S (netCalls s);
                 client := client s |} in
    match settle r with
    | Resolves v => (Returned v, s')
    | Rejects e => (Thrown e, s')
    end.

(** [await Promise.race([this.redis!.cmd(...), timeout])]: the command is
    sent; the answer counts when it arrives before [REDIS_TIMEOUT],
    otherwise the race rejects with ['Timeout'] at that time. *)
Definition sendWithTimeout (cfg : Config) (remote : Remote) : M Net Value :=
  fun s =>
    let r := remote (netCalls s) in
    if delay r <? REDIS_TIMEOUT cfg then send remote s
    else (Thrown "Timeout"%string,
          {| clock := clock s + REDIS_TIMEOUT cfg;
             netCalls := S (netCalls s);
             client := client s |}).

(** *** The circuit breaker *)

Definition isAvailable (cfg : Config) (now : Z) (c : ResilientRedis)
  : bool * ResilientRedis :=
  if negb (redisAvailable c) || negb (hasClient c) then (false, c)
  else if negb (ENABLE_CIRCUIT_BREAKER cfg) then (true, c)
  else if circuitOpen c then
    if now - lastFailure c <? CIRCUIT_RESET_TIMEOUT cfg then (false, c)
    else
      (true,
       {| hasClient := hasClient c;
          isConnected := isConnected c;
          circuitOpen := false;
          failureCount := Z.max 0 (failureCount c - 1);
          lastFailure := lastFailure c;
          connectionAttempts := connectionAttempts c;
          redisAvailable := redisAvailable c;
          operationMetrics := operationMetrics c |})
  else (true, c).

Definition recordFailure (cfg : Config) (now : Z) (c : ResilientRedis)
  : ResilientRedis :=
  let count := failureCount c + 1 in
  let opens := count >=? CIRCUIT_FAILURE_THRESHOLD cfg in
  {| hasClient := hasClient c;
     isConnected := if opens then false else isConnected c;
     circuitOpen := if opens then true else circuitOpen c;
     failureCount := count;
     lastFailure := now;
     connectionAttempts := connectionAttempts c;
     redisAvailable := redisAvailable c;
     operationMetrics := operationMetrics c |}.

Definition resetCircuit (c : ResilientRedis) : ResilientRedis :=
  if (failureCount c >? 0) || circuitOpen c then
    {| hasClient := hasClient c;
       isConnected := true;
       circuitOpen := false;
       failureCount := 0;
       lastFailure := lastFailure c;
       connectionAttempts := connectionAttempts c;
       redisAvailable := redisAvailable c;
       operationMetrics := operationMetrics c |}
  else c.

Definition setMetrics (f : OperationMetrics -> OperationMetrics)
  (c : ResilientRedis) : ResilientRedis :=
  {| hasClient := hasClient c;
     isConnected := isConnected c;
     circuitOpen := circuitOpen c;
     failureCount := failureCount c;
     lastFailure := lastFailure c;
     connectionAttempts := connectionAttempts c;
     redisAvailable := redisAvailable c;
     operationMetrics := f (operationMetrics c) |}.

Definition countOperation (m : OperationMetrics) : OperationMetrics :=
  {| totalOperations := totalOperations m + 1;
     successfulOperations := successfulOperations m;
     failedOperations := failedOperations m;
     avgResponseTime := avgResponseTime m;
     lastOperationTime := lastOperationTime m |}.

Definition recordSuccessfulOperation (startTime now : Z) (m : OperationMetrics)
  : OperationMetrics :=
  let successes := successfulOperations m + 1 in
  let responseTime := now - startTime in
  {| totalOperations := totalOperations m;
     successfulOperations := successes;
     failedOperations := failedOperations m;
     avgResponseTime :=
       ((avgResponseTime m * inject_Z (successes - 1) + inject_Z responseTime)
        / inject_Z successes)%Q;
     lastOperationTime := responseTime |}.

Definition recordFailedOperation (startTime now : Z) (m : OperationMetrics)
  : OperationMetrics :=
  {| totalOperations := totalOperations m;
     successfulOperations := successfulOperations m;
     failedOperations := failedOperations m + 1;
     avgResponseTime := avgResponseTime m;
     lastOperationTime := now - startTime |}.

(** *** The commands, in the monad over [Net] *)

Definition now : M Net Z := gets clock.

Definition checkAvailable (cfg : Config) : M Net bool :=
  fun s =>
    let (ok, c) := isAvailable cfg (clock s) (client s) in
    (Returned ok, setClient (fun _ => c) s).

Definition failed (cfg : Config) : M Net unit :=
  fun s => (Returned tt, setClient (recordFailure cfg (clock s)) s).

#[local] Open Scope monad_scope.

(** [get] answers [null] ([None]) when the call is refused or fails, and
    the value of the remote service otherwise. *)
Definition get (cfg : Config) (remote : Remote) (key : string)
  : M Net (option Value) :=
  let* ok := checkAvailable cfg in
  if negb ok then ret None
  else
    let* startTime := now in
    do modify (setClient (setMetrics countOperation)) then
    tryCatch
      (let* result := sendWithTimeout cfg remote in
       let* t := now in
       do modify (setClient (setMetrics (recordSuccessfulOperation startTime t))) then
       ret (Some result))
      (fun _ =>
         let* t := now in
         do modify (setClient (setMetrics (recordFailedOperation startTime t))) then
         do failed cfg then
         ret None).

Definition setex (cfg : Config) (remote : Remote) (key : string) (ttl : Z)
  (d : Value) : M Net bool :=
  let* ok := checkAvailable cfg in
  if negb ok then ret false
  else
    tryCatch
      (do sendWithTimeout cfg remote then
       do modify (setClient resetCircuit) then
       ret true)
      (fun _ => do failed cfg then ret false).

Definition del (cfg : Config) (remote : Remote) (key : string) : M Net bool :=
  let* ok := checkAvailable cfg in
  if negb ok then ret false
  else
    tryCatch
      (do send remote then
       do modify (setClient resetCircuit) then
       ret true)
      (fun _ => do failed cfg then ret false).

(** [result === 1] *)
Definition exists_ (cfg : Config) (remote : Remote) (key : string) : M Net bool :=
  let* ok := checkAvailable cfg in
  if negb ok then ret false
  else
    tryCatch
      (let* result := send remote in
       ret (match asNumber result with Some 1 => true | _ => false end))
      (fun _ => do failed cfg then ret false).

(** [typeof result === 'number' ? result : -1] *)
Definition ttl (cfg : Config) (remote : Remote) (key : string) : M Net Z :=
  let* ok := checkAvailable cfg in
  if negb ok then ret (-1)
  else
    tryCatch
      (let* result := send remote in
       ret (default (-1) (asNumber result)))
      (fun _ => do failed cfg then ret (-1)).

(** [Array.isArray(result) ? result : []] *)
Definition keys (cfg : Config) (remote : Remote) (pattern : string)
  : M Net (list string) :=
  let* ok := checkAvailable cfg in
  if negb ok then ret []
  else
    tryCatch
      (let* result := send remote in
       ret (default [] (asKeys result)))
      (fun _ => do failed cfg then ret []).

(** *** Health probe *)

(** The answer of [getHealthInfo]; [latency] and [error] are optional. *)
Record HealthInfo := {
  available_ : bool;
  connected_ : bool;
  latency_ : option Z;
  error_ : option Error
}.

(** The probe pings without a timeout and, unlike the commands, does not
    tell the breaker when the ping fails. *)
Definition getHealthInfo (cfg : Config) (remote : Remote) : M Net HealthInfo :=
  let* ok := checkAvailable cfg in
  if negb ok then
    let* c := gets client in
    ret {| available_ := redisAvailable c;
           connected_ := false;
           latency_ := None;
           error_ := Some (if redisAvailable c then "Circuit breaker open"
                           else "Redis not available")%string |}
  else
    tryCatch
      (let* start := now in
       do send remote then
       let* t := now in
       ret {| available_ := true; connected_ := true;
              latency_ := Some (t - start); error_ := None |})
      (fun e =>
         let* c := gets client in
         ret {| available_ := redisAvailable c; connected_ := false;
                latency_ := None; error_ := Some e |}).

(** *** Connecting *)

(** What loading the client library gives: the dynamic import fails,
    the constructor throws, or a client object is made. *)
Inductive Dependency := ImportFails | ConstructorThrows | Loaded.

(** The client with what [initializeRedis] keeps besides: the time of the
    last connection attempt, and the time at which the pending
    reconnection timer fires, if one is pending.  (The private [status]
    copy, which nothing reads, is left out.) *)
Record Link := {
  net : Net;
  lastConnectionAttempt : Z;
  reconnectTimeout : option Z
}.

Definition setNet (f : Net -> Net) (l : Link) : Link :=
  {| net := f (net l);
     lastConnectionAttempt := lastConnectionAttempt l;
     reconnectTimeout := reconnectTimeout l |}.

(** A computation on the client, run on the link. *)
Definition onNet {A} (m : M Net A) : M Link A :=
  fun l => let (out, s) := m (net l) in (out, setNet (fun _ => s) l).

Definition setConnection (client_ connected : bool) (c : ResilientRedis)
  : ResilientRedis :=
  {| hasClient := client_;
     isConnected := connected;
     circuitOpen := circuitOpen c;
     failureCount := failureCount c;
     lastFailure := lastFailure c;
     connectionAttempts := connectionAttempts c;
     redisAvailable := redisAvailable c;
     operationMetrics := operationMetrics c |}.

(** [Math.min(5000 * Math.pow(2, connectionAttempts - 1), 30000)];
    [connectionAttempts] is at least 1 where this is computed. *)
Definition reconnectionDelay (attempts : Z) : Z :=
  Z.min (5000 * 2 ^ (attempts - 1)) 30000.

Definition scheduleReconnection : M Link unit :=
  fun l =>
    let delay := reconnectionDelay (connectionAttempts (client (net l))) in
    (Returned tt,
     {| net := net l;
        lastConnectionAttempt := lastConnectionAttempt l;
        reconnectTimeout := Some (clock (net l) + delay) |}).

(** The [catch] of [initializeRedis]. *)
Definition connectionFailed (cfg : Config) : M Link unit :=
  do onNet (modify (setClient (setConnection false false))) then
  do onNet (failed cfg) then
  let* c := onNet (gets client) in
  if connectionAttempts c <? 5 then scheduleReconnection else ret tt.

Definition initializeRedis (cfg : Config) (dependency : Dependency) (remote : Remote)
  : M Link unit :=
  let* c := onNet (gets client) in
  let* t := onNet now in
  let* last := gets lastConnectionAttempt in
  if negb (redisAvailable c) then ret tt
  else if negb (last =? 0) && (t - last <? 5000) then ret tt
  else
    do modify (fun l =>
         {| net :=
              setClient (fun c =>
                {| hasClient := hasClient c;
                   isConnected := isConnected c;
                   circuitOpen := circuitOpen c;
                   failureCount := failureCount c;
                   lastFailure := lastFailure c;
                   connectionAttempts := connectionAttempts c + 1;
                   redisAvailable := redisAvailable c;
                   operationMetrics := operationMetrics c |}) (net l);
            lastConnectionAttempt := t;
            reconnectTimeout := reconnectTimeout l |}) then
    match dependency with
    | ImportFails =>
        onNet (modify (setClient (fun c =>
          {| hasClient := false;
             isConnected := isConnected c;
             circuitOpen := circuitOpen c;
             failureCount := failureCount c;
             lastFailure := lastFailure c;
             connectionAttempts := connectionAttempts c;
             redisAvailable := false;
             operationMetrics := operationMetrics c |})))
    | ConstructorThrows => connectionFailed cfg
    | Loaded =>
        tryCatch
          (do onNet (modify (setClient (fun c => setConnection true (isConnected c) c))) then
           do onNet (sendWithTimeout cfg remote) then
           do onNet (modify (setClient (fun c => setConnection (hasClient c) true c))) then
           onNet (modify (setClient resetCircuit)))
          (fun _ => connectionFailed cfg)
    end.

Definition forceReconnect (cfg : Config) (dependency : Dependency) (remote : Remote)
  : M Link bool :=
  let* c := onNet (gets client) in
  if negb (redisAvailable c) then ret false
  else
    do onNet (modify (setClient resetCircuit)) then
    do initializeRedis cfg dependency remote then
    let* c1 := onNet (gets client) in
    ret (isConnected c1).

(** *** Commands as data, to run sequences of them *)

Inductive Command :=
| CmdGet (key : string)
| CmdSetex (key : string) (ttlSeconds : Z) (d : Value)
| CmdDel (key : string)
| CmdExists (key : string)
| CmdTtl (key : string)
| CmdKeys (pattern : string).

Inductive Answer :=
| AValue (v : option Value)
| AFlag (b : bool)
| ANumber (n : Z)
| AKeys (l : list string).

Definition exec (cfg : Config) (remote : Remote) (c : Command) : M Net Answer :=
  match c with
  | CmdGet key => let* r := get cfg remote key in ret (AValue r)
  | CmdSetex key ttlSeconds d => let* r := setex cfg remote key ttlSeconds d in ret (AFlag r)
  | CmdDel key => let* r := del cfg remote key in ret (AFlag r)
  | CmdExists key => let* r := exists_ cfg remote key in ret (AFlag r)
  | CmdTtl key => let* r := ttl cfg remote key in ret (ANumber r)
  | CmdKeys pattern => let* r := keys cfg remote pattern in ret (AKeys r)
  end.

(** What a command answers when the call is refused or fails. *)
Definition safeAnswer (c : Command) : Answer :=
  match c with
  | CmdGet _ => AValue None
  | CmdSetex _ _ _ | CmdDel _ | CmdExists _ => AFlag false
  | CmdTtl _ => ANumber (-1)
  | CmdKeys _ => AKeys []
  end.

(** [get] and [setex] race the command against the timeout. *)
Definition raced (c : Command) : bool :=
  match c with
  | CmdGet _ | CmdSetex _ _ _ => true
  | _ => false
  end.

(** The attempt fails: the service rejects, or the race is lost. *)
Definition attemptFails (cfg : Config) (c : Command) (r : Reply) : bool :=
  (raced c && negb (delay r <? REDIS_TIMEOUT cfg))
  || match settle r with
     | Rejects _ => true
     | Resolves _ => false
     end.

(** The clock moves on [d] milliseconds while nothing happens. *)
Definition idle (d : Z) (s : Net) : Net :=
  {| clock := clock s + d; netCalls := netCalls s; client := client s |}.

(** Commands one after another, each after some idle time. *)
Fixpoint runCommands (cfg : Config) (remote : Remote) (steps : list (Z * Command))
  (s : Net) : list (Outcome Answer) * Net :=
  match steps with
  | [] => ([], s)
  | (d, c) :: rest =>
      let (out, s1) := exec cfg remote c (idle d s) in
      let (outs, s2) := runCommands cfg remote rest s1 in
      (out :: outs, s2)
  end.

(** Every step of a run fails on the network; [n] is the number of
    commands sent before. *)
Fixpoint allFail (cfg : Config) (remote : Remote) (n : nat)
  (steps : list (Z * Command)) : Prop :=
  match steps with
  | [] => True
  | (_, c) :: rest =>
      attemptFails cfg c (remote n) = true /\ allFail cfg remote (S n) rest
  end.

(** How long the client waits for the answer [r] to command [c]. *)
Definition elapsed (cfg : Config) (c : Command) (r : Reply) : Z :=
  if raced c && negb (delay r <? REDIS_TIMEOUT cfg) then REDIS_TIMEOUT cfg
  else delay r.

(** The state a failed attempt leaves, [c0] being the client after
    [isAvailable]: the breaker records the failure; [get] also counts
    the operation and its failure. *)
Definition afterFailure (cfg : Config) (c : Command) (s : Net)
  (c0 : ResilientRedis) (r : Reply) : Net :=
  let t := clock s + elapsed cfg c r in
  {| clock := t;
     netCalls := S (netCalls s);
     client :=
       recordFailure cfg t
         match c with
         | CmdGet _ =>
             setMetrics (fun m => recordFailedOperation (clock s) t (countOperation m)) c0
         | _ => c0
         end |}.

(** The state a successful attempt leaves: [setex] and [del] reset the
    circuit, [get] updates the operation metrics, the others change
    nothing. *)
Definition afterSuccess (c : Command) (s : Net) (c0 : ResilientRedis)
  (r : Reply) : Net :=
  let t := clock s + delay r in
  {| clock := t;
     netCalls := S (netCalls s);
     client :=
       match c with
       | CmdGet _ =>
           setMetrics (fun m => recordSuccessfulOperation (clock s) t (countOperation m)) c0
       | CmdSetex _ _ _ | CmdDel _ => resetCircuit c0
       | _ => c0
       end |}.

Definition answerTo (c : Command) (v : Value) : Answer :=
  match c with
  | CmdGet _ => AValue (Some v)
  | CmdSetex _ _ _ | CmdDel _ => AFlag true
  | CmdExists _ => AFlag (match asNumber v with Some 1 => true | _ => false end)
  | CmdTtl _ => ANumber (default (-1) (asNumber v))
  | CmdKeys _ => AKeys (default [] (asKeys v))
  end.


(** The number of [get]s in a run. *)
Definition getsIn (steps : list (Z * Command)) : Z :=
  Z.of_nat
    (List.length
       (List.filter (fun st => match snd st with CmdGet _ => true | _ => false end) steps)).

(** The ping of a connection attempt is lost: the service rejects it or
    does not answer within [REDIS_TIMEOUT]. *)
Definition pingFails (cfg : Config) (r : Reply) : bool :=
  negb (delay r <? REDIS_TIMEOUT cfg)
  || match settle r with
     | Rejects _ => true
     | Resolves _ => false
     end.

(** A connection attempt is due: none was made yet, or the last one is
    at least 5 seconds old. *)
Definition attemptDue (l : Link) : Prop :=
  lastConnectionAttempt l = 0 \/ 5000 <= clock (net l) - lastConnectionAttempt l.

Inductive RedisMode := unavailable | connected | disconnected | circuit_open.

Definition mode (c : ResilientRedis) : RedisMode :=
  if negb (redisAvailable c) then unavailable
  else if circuitOpen c then circuit_open
  else if isConnected c then connected else disconnected.

End Redis.

Arguments Settle : clear implicits.
Arguments Reply : clear implicits.
Arguments Remote : clear implicits.
Arguments Command : clear implicits.
Arguments Answer : clear implicits.

End Redis.

(** ** The orchestrator: ProductionEZCache *)

Module EZCache.
Section EZCache.
Context {Value : Type} `{JsValue Value}.

(** The orchestrator: its four components ([null] when disabled at
    construction), the clock, and two counters that observe the outside
    world: commands sent to the remote service and invocations of the
    fetcher. *)
Record World := {
  clock : Z;
  netCalls : nat;
  fetcherCalls : nat;
  memory : option (Memory.ProductionMemoryCache Value);
  traffic : option Traffic.ProductionTrafficTracker;
  redis : option Redis.ResilientRedis;
  metrics : option Metrics.PerformanceMetrics
}.

(** [initializeComponents] at time [now]; [client] is the state of a
    freshly constructed remote client. *)
Definition initializeComponents (cfg : Config) (now : Z)
  (client : Redis.ResilientRedis) : World :=
  {| clock := now;
     netCalls := 0;
     fetcherCalls := 0;
     memory := if ENABLE_MEMORY cfg then Some (Memory.create now) else None;
     traffic := if ENABLE_TRAFFIC_DETECTION cfg then Some (Traffic.create now) else None;
     redis := if ENABLE_REDIS cfg then Some client else None;
     metrics := if ENABLE_METRICS cfg then Some (Metrics.create now) else None |}.

(** A fetcher is an asynchronous function of the caller: its [n]-th
    invocation takes some time and returns a value or throws. *)
Definition Fetcher := nat -> Z * Outcome Value.

Definition setMemory (m : option (Memory.ProductionMemoryCache Value)) (w : World) : World :=
  {| clock := clock w; netCalls := netCalls w; fetcherCalls := fetcherCalls w;
     memory := m; traffic := traffic w; redis := redis w; metrics := metrics w |}.

Definition setTraffic (t : option Traffic.ProductionTrafficTracker) (w : World) : World :=
  {| clock := clock w; netCalls := netCalls w; fetcherCalls := fetcherCalls w;
     memory := memory w; traffic := t; redis := redis w; metrics := metrics w |}.

Definition setMetrics (p : option Metrics.PerformanceMetrics) (w : World) : World :=
  {| clock := clock w; netCalls := netCalls w; fetcherCalls := fetcherCalls w;
     memory := memory w; traffic := traffic w; redis := redis w; metrics := p |}.

Definition now : M World Z := gets clock.

(** [await fetcher()] *)
Definition callFetcher (fetcher : Fetcher) : M World Value :=
  fun w =>
    let (elapsed, outcome) := fetcher (fetcherCalls w) in
    (outcome,
     {| clock := clock w + elapsed; netCalls := netCalls w;
        fetcherCalls := S (fetcherCalls w);
        memory := memory w; traffic := traffic w; redis := redis w;
        metrics := metrics w |}).

(** [await this.redis.cmd(...)], when [this.redis] is not [null]. *)
Definition onRedis {A} (cmd : M Redis.Net A) : M World (option A) :=
  fun w =>
    match redis w with
    | None => (Returned None, w)
    | Some c =>
        let (out, s) := cmd {| Redis.clock := clock w;
                               Redis.netCalls := netCalls w;
                               Redis.client := c |} in
        let w' := {| clock := Redis.clock s; netCalls := Redis.netCalls s;
                     fetcherCalls := fetcherCalls w;
                     memory := memory w; traffic := traffic w;
                     redis := Some (Redis.client s); metrics := metrics w |} in
        match out with
        | Returned a => (Returned (Some a), w')
        | Thrown e => (Thrown e, w')
        end
    end.

(** [this.memory.get(key)], when [this.memory] is not [null]. *)
Definition memoryGet (key : string) : M World (option Value) :=
  fun w =>
    match memory w with
    | None => (Returned None, w)
    | Some m =>
        let (r, m') := Memory.get (clock w) key m in
        (Returned r, setMemory (Some m') w)
    end.

Definition memorySet (cfg : Config) (key : string) (d : Value) (ttlSeconds : Z)
  : M World (option bool) :=
  fun w =>
    match memory w with
    | None => (Returned None, w)
    | Some m =>
        let (r, m') := Memory.set cfg (clock w) key d ttlSeconds m in
        (Returned (Some r), setMemory (Some m') w)
    end.

Definition recordHit (cfg : Config) (responseTime : Z) : M World unit :=
  modify (fun w => setMetrics (option_map (Metrics.recordHit cfg responseTime) (metrics w)) w).

Definition recordMiss (cfg : Config) (responseTime : Z) : M World unit :=
  modify (fun w => setMetrics (option_map (Metrics.recordMiss cfg responseTime) (metrics w)) w).

Definition recordError (cfg : Config) : M World unit :=
  modify (fun w => setMetrics (option_map (Metrics.recordError cfg) (metrics w)) w).

(** *** Options *)

Record SimpleCacheOptions := {
  ttl : option Z;
  minTrafficCount : option Z;
  forceCaching : option bool
}.

(** The third argument of [fetch]: nothing, a number, or an object. *)
Inductive OptionsOrTtl :=
| NoOptions
| TtlOnly (seconds : Z)
| Options (o : SimpleCacheOptions).

(** The resolved options ([CacheOptions], every field present). *)
Record CacheOptions := {
  ttl_ : Z;
  minTrafficCount_ : Z;
  forceCaching_ : bool
}.

(** [Math.floor(T * 0.1)] and [Math.floor(T * 0.3)] on a whole [T]. *)
Definition getSmartTrafficThreshold (cfg : Config) (seconds : Z) : Z :=
  if seconds <=? 60 then Z.max 3 (TRAFFIC_THRESHOLD cfg / 10)
  else if seconds <=? 600 then Z.max 10 (TRAFFIC_THRESHOLD cfg * 3 / 10)
  else TRAFFIC_THRESHOLD cfg.

Definition parseOptions (cfg : Config) (optionsOrTtl : OptionsOrTtl) : CacheOptions :=
  match optionsOrTtl with
  | TtlOnly n =>
      {| ttl_ := n;
         minTrafficCount_ := getSmartTrafficThreshold cfg n;
         forceCaching_ := false |}
  | Options o =>
      (* [optionsOrTtl.ttl || CACHE_CONFIG.DEFAULT_TTL] *)
      let ttlValue :=
        match ttl o with
        | Some n => if n =? 0 then DEFAULT_TTL cfg else n
        | None => DEFAULT_TTL cfg
        end in
      {| ttl_ := ttlValue;
         minTrafficCount_ :=
           default (getSmartTrafficThreshold cfg ttlValue) (minTrafficCount o);
         forceCaching_ := default false (forceCaching o) |}
  | NoOptions =>
      {| ttl_ := DEFAULT_TTL cfg;
         minTrafficCount_ := TRAFFIC_THRESHOLD cfg;
         forceCaching_ := false |}
  end.

#[local] Open Scope monad_scope.

(** *** The cache layers *)

Definition storeInCacheLayers (cfg : Config) (remote : Redis.Remote Value)
  (fullKey : string) (d : Value) (memoryTtl redisTtl : Z) : M World unit :=
  do (if ENABLE_MEMORY cfg
      then memorySet cfg fullKey d (Z.min memoryTtl (MEMORY_TTL_MAX cfg))
      else ret None) then
  do (if ENABLE_REDIS cfg
      then onRedis (Redis.setex cfg remote fullKey redisTtl d)
      else ret None) then
  ret tt.

(** Layer 3 of [fetchFromCacheLayers]: the fetcher, then the write-back. *)
Definition fetchFromDatabase (cfg : Config) (remote : Redis.Remote Value)
  (fullKey : string) (fetcher : Fetcher) (memoryTtl redisTtl startTime : Z)
  : M World Value :=
  let* d := callFetcher fetcher in
  do storeInCacheLayers cfg remote fullKey d memoryTtl redisTtl then
  let* t := now in
  do recordMiss cfg (t - startTime) then
  ret d.

(** [this.redis && ENABLE_REDIS] and [await this.redis.get(fullKey)]. *)
Definition remoteLookup (cfg : Config) (remote : Redis.Remote Value)
  (fullKey : string) : M World (option (option Value)) :=
  if ENABLE_REDIS cfg then onRedis (Redis.get cfg remote fullKey) else ret None.

(** [if (redisData)] *)
Definition remoteHit (redisData : option (option Value)) : bool :=
  match redisData with
  | Some (Some d) => truthy d
  | _ => false
  end.

(** Layer 2, the remote store; a hit is promoted to memory. *)
Definition fetchFromRedis (cfg : Config) (remote : Redis.Remote Value)
  (fullKey : string) (fetcher : Fetcher) (memoryTtl redisTtl startTime : Z)
  : M World Value :=
  let layer3 := fetchFromDatabase cfg remote fullKey fetcher memoryTtl redisTtl startTime in
  let* redisData := remoteLookup cfg remote fullKey in
  match redisData with
  | Some (Some d) =>
      if truthy d then
        do memorySet cfg fullKey d (Z.min memoryTtl (MEMORY_TTL_MAX cfg)) then
        let* t := now in
        do recordHit cfg (t - startTime) then
        ret d
      else layer3
  | _ => layer3
  end.

Definition fetchFromCacheLayers (cfg : Config) (remote : Redis.Remote Value)
  (fullKey : string) (fetcher : Fetcher) (memoryTtl redisTtl startTime : Z)
  : M World Value :=
  let layer2 := fetchFromRedis cfg remote fullKey fetcher memoryTtl redisTtl startTime in
  (* Layer 1: memory *)
  let* memData := (if ENABLE_MEMORY cfg then memoryGet fullKey else ret None) in
  match memData with
  | Some d =>
      if truthy d then
        let* t := now in
        do recordHit cfg (t - startTime) then
        ret d
      else layer2
  | None => layer2
  end.

(** [this.traffic.isHighTraffic(key, threshold)] *)
Definition isHighTraffic (cfg : Config) (key : string) (threshold : Z)
  (tr : Traffic.ProductionTrafficTracker) : M World bool :=
  fun w =>
    let (high, tr') := Traffic.isHighTraffic cfg (clock w) key (Some threshold) tr in
    (Returned high, setTraffic (Some tr') w).

Definition fetch (cfg : Config) (remote : Redis.Remote Value) (key : string)
  (fetcher : Fetcher) (optionsOrTtl : OptionsOrTtl) : M World Value :=
  let* startTime := now in
  let fullKey := ("ez:" ++ key)%string in
  let cacheOptions := parseOptions cfg optionsOrTtl in
  let memoryTtl := ttl_ cacheOptions in
  let redisTtl := if ENABLE_REDIS cfg then memoryTtl * 10 else memoryTtl in
  let itemTrafficThreshold := minTrafficCount_ cacheOptions in
  let cached := fetchFromCacheLayers cfg remote fullKey fetcher memoryTtl redisTtl startTime in
  tryCatch
    (if CacheMode_eqb (CACHE_MODE cfg) DISABLED then callFetcher fetcher
     else
       let* tracker := gets traffic in
       match tracker with
       | Some tr =>
           if ENABLE_TRAFFIC_DETECTION cfg && negb (forceCaching_ cacheOptions) then
             let* isHigh := isHighTraffic cfg key itemTrafficThreshold tr in
             if negb isHigh then
               (* low traffic: no caching *)
               let* d := callFetcher fetcher in
               let* t := now in
               do recordMiss cfg (t - startTime) then
               ret d
             else cached
           else cached
       | None => cached
       end)
    (fun _ =>
       do recordError cfg then
       (* always fall back to the database *)
       callFetcher fetcher).

(** Time passes between two calls. *)
Definition advance (d : Z) (w : World) : World :=
  {| clock := clock w + d; netCalls := netCalls w; fetcherCalls := fetcherCalls w;
     memory := memory w; traffic := traffic w; redis := redis w; metrics := metrics w |}.

Definition clear (cfg : Config) (remote : Redis.Remote Value) (key : string) : M World unit :=
  let fullKey := ("ez:" ++ key)%string in
  do modify (fun w => setMemory (option_map (fun m => snd (Memory.delete fullKey m)) (memory w)) w) then
  do onRedis (Redis.del cfg remote fullKey) then
  ret tt.

Definition clearAll : M World unit :=
  modify (fun w =>
    setTraffic (option_map (Traffic.clear (clock w)) (traffic w))
      (setMemory (option_map Memory.clear (memory w)) w)).

(** What a computation does with the fetcher: [quiet] computations
    return without invoking it; [atMostOnce] computations either return
    without invoking it, or invoke it once and end with its outcome. *)
Definition quiet {A} (m : M World A) : Prop :=
  forall w, exists a w1, m w = (Returned a, w1) /\ fetcherCalls w1 = fetcherCalls w.

(** [keeps v] computations are quiet and return [v]. *)
Definition keeps (v : Value) (m : M World Value) : Prop :=
  forall w, exists w1, m w = (Returned v, w1) /\ fetcherCalls w1 = fetcherCalls w.

Definition atMostOnce (fetcher : Fetcher) (m : M World Value) : Prop :=
  forall w out w1,
    m w = (out, w1) ->
    (fetcherCalls w1 = fetcherCalls w /\ exists v, out = Returned v) \/
    (fetcherCalls w1 = S (fetcherCalls w) /\ out = snd (fetcher (fetcherCalls w))).

Definition forceRefresh (cfg : Config) (remote : Redis.Remote Value) (key : string)
  (fetcher : Fetcher) (optionsOrTtl : OptionsOrTtl) : M World Value :=
  do clear cfg remote key then
  fetch cfg remote key fetcher optionsOrTtl.

(** [once] computations invoke the fetcher exactly once, from the state
    [w], and end with the outcome of that invocation. *)
Definition once (fetcher : Fetcher) (m : M World Value) (w : World) : Prop :=
  forall out w1,
    m w = (out, w1) ->
    fetcherCalls w1 = S (fetcherCalls w) /\ out = snd (fetcher (fetcherCalls w)).

(** Nothing is cached for the key: there is no remote client, and the
    memory store, if there is one, has no entry under the key. *)
Definition cold (fullKey : string) (w : World) : Prop :=
  redis w = None /\
  forall m, memory w = Some m -> JsMap.get fullKey (Memory.cache m) = None.

(** What memory holds under the key, if anything, is not truthy. *)
Definition falsyAt (fullKey : string) (m : Memory.ProductionMemoryCache Value) : Prop :=
  forall item, JsMap.get fullKey (Memory.cache m) = Some item ->
               truthy (Memory.data item) = false.

(** What a computation does with the metrics: [silent] steps leave them
    alone; [tallies] computations record exactly one request when they
    return, and none when they throw. *)
Definition silent {A} (m : M World A) : Prop :=
  forall w out w1, m w = (out, w1) -> metrics w1 = metrics w.

Definition tallies {A} (m : M World A) : Prop :=
  forall w pm out w1,
    metrics w = Some pm -> m w = (out, w1) ->
    exists pm1,
      metrics w1 = Some pm1 /\
      Metrics.totalRequests (Metrics.metrics pm1)
      = Metrics.totalRequests (Metrics.metrics pm)
        + match out with Returned _ => 1 | Thrown _ => 0 end.

(** At a time up to [T], the memory store, if there is one, is within
    its bounds. *)
Definition within (cfg : Config) (T : Z) (w : World) : Prop :=
  0 <= clock w <= T /\
  forall m, memory w = Some m -> Memory.bounded cfg m.

(** [steady] computations do not turn the clock back, and keep the
    store within its bounds as long as the clock stays below 2^53. *)
Definition steady {A} (cfg : Config) (m : M World A) : Prop :=
  forall w out w1,
    m w = (out, w1) ->
    clock w <= clock w1 /\
    forall T, T < 2 ^ 53 -> clock w1 <= T -> within cfg T w -> within cfg T w1.

End EZCache.

Arguments World : clear implicits.
Arguments Fetcher : clear implicits.

End EZCache.

(** ** Sample data

    A small fragment of JavaScript values (null, booleans, whole numbers
    below 10^21, which [JSON.stringify] prints in decimal), and the
    configurations [CACHE_CONFIG] computes for some environments. *)

Module Sample.

Inductive JsVal :=
| JsNull
| JsBool (b : bool)
| JsNum (n : Z).

#[global] Instance JsVal_JsValue : JsValue JsVal := {|
  truthy v :=
    match v with
    | JsNull => false
    | JsBool b => b
    | JsNum n => negb (n =? 0)
    end;
  stringifyLength v :=
    match v with
    | JsNull => Some 4
    | JsBool true => Some 4
    | JsBool false => Some 5
    | JsNum n => Some (Z.of_nat (String.length (NilZero.string_of_int (Z.to_int n))))
    end;
  asNumber v := match v with JsNum n => Some n | _ => None end;
  asKeys v := None
|}.

(** [NODE_ENV=development CACHE_STRATEGY=conservative]: 140 entries. *)
Definition devConservative : Config :=
  CACHE_CONFIG (plainEnv Development (Some conservative)).

(** [NODE_ENV=production], nothing else set. *)
Definition production : Config := CACHE_CONFIG (plainEnv Production None).

(** The keys ["k1"], ["k2"], ... *)
Definition keyOf (n : nat) : string :=
  ("k" ++ NilZero.string_of_uint (Nat.to_uint n))%string.

(** [set(key, 1, 60)] for each key in turn, one millisecond apart from
    [now] on. *)
Fixpoint setsFrom (now : Z) (keys : list string) : list (Z * Memory.Op (Value:=JsVal)) :=
  match keys with
  | [] => []
  | key :: rest => (now, Memory.OpSet key (JsNum 1) 60) :: setsFrom (now + 1) rest
  end.


(** 141 writes: ["k1"] to ["k139"], then the empty string, and at time
    1200 ["k140"]. *)
Definition writesWithEmptyKey : list (Z * Memory.Op (Value:=JsVal)) :=
  setsFrom 1000 (map keyOf (seq 1 139) ++ [EmptyString])
    ++ [(1200, Memory.OpSet "k140" (JsNum 1) 60)].


(** One entry, written at time 1000 with a TTL of 60 seconds. *)
Definition oneEntry : Memory.ProductionMemoryCache JsVal :=
  snd (Memory.set production 1000 "a" (JsNum 5) 60 (Memory.create 1000)).

Definition oneEntryItem : Memory.CacheItem JsVal :=
  {| Memory.data := JsNum 5; Memory.expires := 61000; Memory.lastAccess := 1000;
     Memory.hitCount := 1; Memory.sizeBytes := 2; Memory.createdAt := 1000 |}.

(** [NODE_ENV=production] with the remote dependency and its credentials
    present: all layers and the circuit breaker are on. *)
Definition productionWithRedis : Config :=
  CACHE_CONFIG
    {| NODE_ENV := Production; CACHE_STRATEGY_VAR := None;
       redisDependencyAvailable := true;
       CACHE_ENABLE_REDIS := true; CACHE_ENABLE_MEMORY := true;
       CACHE_ENABLE_METRICS := true; CACHE_ENABLE_TRAFFIC := true;
       CACHE_ENABLE_CIRCUIT_BREAKER := true;
       CACHE_REDIS_TIMEOUT := None; CACHE_CIRCUIT_THRESHOLD := None;
       CACHE_CIRCUIT_RESET := None; CACHE_MAX_VALUE_SIZE := None;
       CACHE_WINDOW_MS := None; CACHE_TRACKER_CLEANUP := None |}.

(** A client whose connection is established and that has seen no
    failure. *)
Definition connectedClient : Redis.ResilientRedis :=
  {| Redis.hasClient := true; Redis.isConnected := true; Redis.circuitOpen := false;
     Redis.failureCount := 0; Redis.lastFailure := 0; Redis.connectionAttempts := 1;
     Redis.redisAvailable := true;
     Redis.operationMetrics :=
       {| Redis.totalOperations := 0; Redis.successfulOperations := 0;
          Redis.failedOperations := 0; Redis.avgResponseTime := 0;
          Redis.lastOperationTime := 0 |} |}.

Definition connectedAt (t : Z) : Redis.Net :=
  {| Redis.clock := t; Redis.netCalls := 0; Redis.client := connectedClient |}.

(** A service that rejects its first three commands after 10 ms, and
    from then on answers the number 7 after 10 ms. *)
Definition failsThrice : Redis.Remote JsVal :=
  fun n =>
    if (n <? 3)%nat
    then {| Redis.delay := 10; Redis.settle := Redis.Rejects "ECONNRESET" |}
    else {| Redis.delay := 10; Redis.settle := Redis.Resolves (JsNum 7) |}.

(** Three commands, 100 ms apart. *)
Definition threeCommands : list (Z * Redis.Command JsVal) :=
  [(100, Redis.CmdGet "ez:a"); (100, Redis.CmdSetex "ez:a" 600 (JsNum 1));
   (100, Redis.CmdDel "ez:a")].

(** The client after the three failures: the circuit is open. *)
Definition tripped : Redis.Net :=
  snd (Redis.runCommands productionWithRedis failsThrice threeCommands (connectedAt 1000)).

(** The orchestrator as constructed at time 1000. *)
Definition freshWorld (cfg : Config) : EZCache.World JsVal :=
  EZCache.initializeComponents cfg 1000 connectedClient.

(** A fetcher that fails the first time it is called and answers 42
    from then on; each call takes 50 ms. *)
Definition flaky : EZCache.Fetcher JsVal :=
  fun n =>
    if (n =? 0)%nat then (50, Thrown "Database error"%string)
    else (50, Returned (JsNum 42)).

(** A fetcher that answers 42 the first time, 43 the second, and so on. *)
Definition counting : EZCache.Fetcher JsVal :=
  fun n => (50, Returned (JsNum (42 + Z.of_nat n))).

(** A fetcher that always fails. *)
Definition broken : EZCache.Fetcher JsVal :=
  fun _ => (50, Thrown "Database error"%string).

(** [{ forceCaching: true }] *)
Definition forceCachingOnly : EZCache.SimpleCacheOptions :=
  {| EZCache.ttl := None; EZCache.minTrafficCount := None;
     EZCache.forceCaching := Some true |}.

Definition forced : EZCache.OptionsOrTtl := EZCache.Options forceCachingOnly.



(** [NODE_ENV=development], nothing else set: the aggressive strategy,
    with a traffic threshold of 1. *)
Definition development : Config := CACHE_CONFIG (plainEnv Development None).

(** As [productionWithRedis], with [CACHE_ENABLE_CIRCUIT_BREAKER=false]. *)
Definition productionNoBreaker : Config :=
  CACHE_CONFIG
    {| NODE_ENV := Production; CACHE_STRATEGY_VAR := None;
       redisDependencyAvailable := true;
       CACHE_ENABLE_REDIS := true; CACHE_ENABLE_MEMORY := true;
       CACHE_ENABLE_METRICS := true; CACHE_ENABLE_TRAFFIC := true;
       CACHE_ENABLE_CIRCUIT_BREAKER := false;
       CACHE_REDIS_TIMEOUT := None; CACHE_CIRCUIT_THRESHOLD := None;
       CACHE_CIRCUIT_RESET := None; CACHE_MAX_VALUE_SIZE := None;
       CACHE_WINDOW_MS := None; CACHE_TRACKER_CLEANUP := None |}.

(** A service that rejects every command after 10 ms. *)
Definition alwaysRejects : Redis.Remote JsVal :=
  fun _ => {| Redis.delay := 10; Redis.settle := Redis.Rejects "ECONNRESET" |}.

(** A service that answers the number 7 to every command after 10 ms. *)
Definition answersSeven : Redis.Remote JsVal :=
  fun _ => {| Redis.delay := 10; Redis.settle := Redis.Resolves (JsNum 7) |}.

(** A service that rejects its first command and answers 7 from then
    on. *)
Definition failsOnce : Redis.Remote JsVal :=
  fun n =>
    if (n <? 1)%nat
    then {| Redis.delay := 10; Redis.settle := Redis.Rejects "ECONNRESET" |}
    else {| Redis.delay := 10; Redis.settle := Redis.Resolves (JsNum 7) |}.

(** Five commands, 100 ms apart. *)
Definition fiveCommands : list (Z * Redis.Command JsVal) :=
  [(100, Redis.CmdGet "ez:a"); (100, Redis.CmdSetex "ez:a" 600 (JsNum 1));
   (100, Redis.CmdDel "ez:a"); (100, Redis.CmdExists "ez:a"); (100, Redis.CmdGet "ez:b")].

(** A fetcher that answers 0 every time. *)
Definition zeros : EZCache.Fetcher JsVal :=
  fun _ => (50, Returned (JsNum 0)).

(** The client as its constructor leaves it when the remote store is
    configured: no connection attempt has been made yet. *)
Definition newClient : Redis.ResilientRedis :=
  {| Redis.hasClient := false; Redis.isConnected := false; Redis.circuitOpen := false;
     Redis.failureCount := 0; Redis.lastFailure := 0; Redis.connectionAttempts := 0;
     Redis.redisAvailable := true;
     Redis.operationMetrics :=
       {| Redis.totalOperations := 0; Redis.successfulOperations := 0;
          Redis.failedOperations := 0; Redis.avgResponseTime := 0;
          Redis.lastOperationTime := 0 |} |}.

Definition newLink (t : Z) : Redis.Link :=
  {| Redis.net := {| Redis.clock := t; Redis.netCalls := 0; Redis.client := newClient |};
     Redis.lastConnectionAttempt := 0;
     Redis.reconnectTimeout := None |}.

(** The link after a first connection attempt, at time 1000, whose ping
    the service rejected, and one second of idle time. *)
Definition failedLink : Redis.Link :=
  Redis.setNet (Redis.idle 1000)
    (snd (Redis.initializeRedis productionWithRedis Redis.Loaded alwaysRejects
            (newLink 1000))).

(** The orchestrator in development after a first call of [fetch] for
    ["users"], which has cached 42, and one second of idle time. *)
Definition warmWorld : EZCache.World JsVal :=
  EZCache.advance 1000
    (snd (EZCache.fetch development failsThrice "users" counting EZCache.NoOptions
            (freshWorld development))).

End Sample.

(** * Properties *)

(** ** The association list behind [Map] *)

Module JsMapFacts.
Section JsMapFacts.
Context {V : Type}.
Implicit Types (m : list (string * V)) (k : string) (v : V).

Lemma get_nil k : JsMap.get k ([] : list (string * V)) = None.
Proof. reflexivity. Qed.

Lemma get_cons k k0 v0 m :
  JsMap.get k ((k0, v0) :: m) = if String.eqb k0 k then Some v0 else JsMap.get k m.
Proof.
  unfold JsMap.get; simpl. unfold JsMap.has_key at 1; simpl.
  now destruct (String.eqb k0 k).
Qed.

Lemma delete_cons k k0 v0 m :
  JsMap.delete k ((k0, v0) :: m) =
  if String.eqb k0 k then JsMap.delete k m else (k0, v0) :: JsMap.delete k m.
Proof.
  unfold JsMap.delete; simpl. unfold JsMap.has_key at 1; simpl.
  now destruct (String.eqb k0 k).
Qed.

Lemma eqb_ne k k' : k <> k' -> String.eqb k k' = false.
Proof. apply String.eqb_neq. Qed.

Lemma get_set_eq k v m : JsMap.get k (JsMap.set k v m) = Some v.
Proof.
  induction m as [|[k' v'] r IH]; simpl.
  - now rewrite get_cons, String.eqb_refl.
  - destruct (String.eqb k' k) eqn:E; rewrite get_cons.
    + now rewrite String.eqb_refl.
    + now rewrite E.
Qed.

Lemma get_set_ne k k' v m : k <> k' -> JsMap.get k' (JsMap.set k v m) = JsMap.get k' m.
Proof.
  intros Hne. induction m as [|[k0 v0] r IH]; simpl.
  - now rewrite get_cons, (eqb_ne _ _ Hne).
  - destruct (String.eqb k0 k) eqn:E; rewrite !get_cons.
    + apply String.eqb_eq in E; subst k0. now rewrite (eqb_ne _ _ Hne).
    + now rewrite IH.
Qed.

Lemma get_delete_eq k m : JsMap.get k (JsMap.delete k m) = None.
Proof.
  induction m as [|[k0 v0] r IH]; [reflexivity|].
  rewrite delete_cons. destruct (String.eqb k0 k) eqn:E; [exact IH|].
  now rewrite get_cons, E.
Qed.

Lemma get_delete_ne k k' m : k <> k' -> JsMap.get k' (JsMap.delete k m) = JsMap.get k' m.
Proof.
  intros Hne. induction m as [|[k0 v0] r IH]; [reflexivity|].
  rewrite delete_cons. destruct (String.eqb k0 k) eqn:E.
  - apply String.eqb_eq in E; subst k0.
    now rewrite IH, get_cons, (eqb_ne _ _ Hne).
  - now rewrite !get_cons, IH.
Qed.

Lemma get_In k v m : JsMap.get k m = Some v -> In (k, v) m.
Proof.
  induction m as [|[k0 v0] r IH]; [discriminate|].
  rewrite get_cons. destruct (String.eqb k0 k) eqn:E.
  - apply String.eqb_eq in E; subst k0. intros [= ->]. now left.
  - intros Hr. right. now apply IH.
Qed.

Lemma In_get k v m : JsMap.wf m -> In (k, v) m -> JsMap.get k m = Some v.
Proof.
  unfold JsMap.wf. induction m as [|[k0 v0] r IH]; simpl; [tauto|].
  intros Hnd Hin. inversion Hnd as [|? ? Hnotin Hnd']; subst.
  rewrite get_cons. destruct Hin as [Heq | Hin].
  - injection Heq as -> ->. now rewrite String.eqb_refl.
  - destruct (String.eqb k0 k) eqn:E; [|now apply IH].
    apply String.eqb_eq in E; subst k0. exfalso. apply Hnotin.
    change k with (fst (k, v)). now apply in_map.
Qed.

Lemma get_None_not_In k m : JsMap.get k m = None -> forall v, ~ In (k, v) m.
Proof.
  induction m as [|[k0 v0] r IH]; simpl; [tauto|].
  rewrite get_cons. destruct (String.eqb k0 k) eqn:E; [discriminate|].
  intros Hr v [Heq | Hin].
  - injection Heq as -> _. now rewrite String.eqb_refl in E.
  - now apply (IH Hr v).
Qed.

Lemma delete_absent k m : JsMap.get k m = None -> JsMap.delete k m = m.
Proof.
  induction m as [|[k0 v0] r IH]; [reflexivity|].
  rewrite get_cons, delete_cons. destruct (String.eqb k0 k); [discriminate|].
  intros Hr. now rewrite IH.
Qed.

Lemma In_delete k e m : In e (JsMap.delete k m) <-> In e m /\ fst e <> k.
Proof.
  unfold JsMap.delete. rewrite filter_In. unfold JsMap.has_key.
  rewrite negb_true_iff, String.eqb_neq. tauto.
Qed.

Lemma length_delete_le k m : (List.length (JsMap.delete k m) <= List.length m)%nat.
Proof.
  unfold JsMap.delete. induction m as [|e r IH]; simpl; [lia|].
  destruct (negb (JsMap.has_key k e)); simpl; lia.
Qed.

Lemma length_delete_lt k v m :
  In (k, v) m -> (List.length (JsMap.delete k m) < List.length m)%nat.
Proof.
  unfold JsMap.delete. induction m as [|e r IH]; simpl; [tauto|].
  intros [-> | Hin].
  - unfold JsMap.has_key at 1; simpl. rewrite String.eqb_refl; simpl.
    pose proof (length_delete_le k r) as Hle. unfold JsMap.delete in Hle. lia.
  - specialize (IH Hin). destruct (negb (JsMap.has_key k e)); simpl; lia.
Qed.

Lemma length_set k v m :
  List.length (JsMap.set k v m) =
  match JsMap.get k m with
  | Some _ => List.length m
  | None => S (List.length m)
  end.
Proof.
  induction m as [|[k0 v0] r IH]; [reflexivity|].
  simpl. rewrite get_cons. destruct (String.eqb k0 k); simpl; [reflexivity|].
  rewrite IH. now destruct (JsMap.get k r).
Qed.

Lemma In_set k v e m : In e (JsMap.set k v m) -> e = (k, v) \/ In e m.
Proof.
  induction m as [|[k0 v0] r IH]; simpl.
  - intros [<- | []]. now left.
  - destruct (String.eqb k0 k); simpl; intros [<- | Hin]; auto.
    destruct (IH Hin); auto.
Qed.

Lemma delete_wf k m : JsMap.wf m -> JsMap.wf (JsMap.delete k m).
Proof.
  unfold JsMap.wf, JsMap.delete. induction m as [|e r IH]; simpl; [trivial|].
  intros Hnd. inversion Hnd as [|? ? Hnotin Hnd']; subst.
  destruct (negb (JsMap.has_key k e)); simpl; [|now apply IH].
  constructor; [|now apply IH].
  intros Hin. apply Hnotin. apply in_map_iff in Hin as [e' [He' Hin]].
  apply filter_In in Hin as [Hin _]. rewrite <- He'. now apply in_map.
Qed.

Lemma keys_set k v m :
  forall k', In k' (map fst (JsMap.set k v m)) -> k' = k \/ In k' (map fst m).
Proof.
  induction m as [|[k0 v0] r IH]; simpl.
  - intros k' [<- | []]. now left.
  - intros k'. destruct (String.eqb k0 k) eqn:E; simpl.
    + apply String.eqb_eq in E; subst. intros [<- | Hin]; auto.
    + intros [<- | Hin]; auto. apply IH in Hin. tauto.
Qed.

Lemma set_wf k v m : JsMap.wf m -> JsMap.wf (JsMap.set k v m).
Proof.
  unfold JsMap.wf. induction m as [|[k0 v0] r IH]; simpl.
  - intros _. constructor; [simpl; tauto | constructor].
  - intros Hnd. inversion Hnd as [|? ? Hnotin Hnd']; subst.
    destruct (String.eqb k0 k) eqn:E; simpl.
    + apply String.eqb_eq in E; subst. now constructor.
    + constructor; [|now apply IH].
      intros Hin. apply keys_set in Hin as [-> | Hin]; [|tauto].
      now rewrite String.eqb_refl in E.
Qed.

End JsMapFacts.
End JsMapFacts.

(** ** The memory store *)

Module MemoryFacts.
Section MemoryFacts.
Context {Value : Type} `{JsValue Value}.
Implicit Types (st : Memory.ProductionMemoryCache Value) (key : string).

Lemma wf_create now : Memory.wf (Memory.create (Value:=Value) now).
Proof. constructor. Qed.

Lemma delete_cache key st :
  Memory.cache (snd (Memory.delete key st)) = JsMap.delete key (Memory.cache st).
Proof.
  unfold Memory.delete. destruct (JsMap.get key (Memory.cache st)) eqn:E; simpl.
  - reflexivity.
  - symmetry. now apply JsMapFacts.delete_absent.
Qed.

Lemma wf_delete key st : Memory.wf st -> Memory.wf (snd (Memory.delete key st)).
Proof. unfold Memory.wf. rewrite delete_cache. apply JsMapFacts.delete_wf. Qed.

(** *** The scan of [evictLRU] *)

Lemma evictScan_cases now (acc : string * Q) (e : string * Memory.CacheItem Value) :
  (Memory.evictScan now acc e = (fst e, Memory.score now (snd e)) /\
   (Memory.score now (snd e) < snd acc)%Q) \/
  (Memory.evictScan now acc e = acc /\
   (snd acc <= Memory.score now (snd e))%Q).
Proof.
  unfold Memory.evictScan.
  destruct (Qlt_le_dec (Memory.score now (snd e)) (snd acc)); [left | right]; auto.
Qed.

Lemma evictScan_fold now (l : list (string * Memory.CacheItem Value)) acc :
  forall r, r = fold_left (Memory.evictScan now) l acc ->
  (snd r <= snd acc)%Q /\
  (forall e, In e l -> (snd r <= Memory.score now (snd e))%Q) /\
  (r = acc \/ exists e, In e l /\ r = (fst e, Memory.score now (snd e))).
Proof.
  revert acc. induction l as [|e l IH]; intros acc r Hr; simpl in Hr.
  - subst r. split; [apply Qle_refl|]. split; [intros e []| now left].
  - destruct (IH _ _ Hr) as (Hle & Hall & Hor).
    destruct (evictScan_cases now acc e) as [[Heq Hlt] | [Heq Hge]];
      rewrite Heq in *; simpl in *.
    + split; [eapply Qle_trans; [exact Hle | now apply Qlt_le_weak]|].
      split.
      * intros e' [<- | Hin]; [exact Hle | now apply Hall].
      * right. destruct Hor as [-> | (e' & Hin & ->)]; [exists e | exists e']; auto.
    + split; [exact Hle|]. split.
      * intros e' [<- | Hin]; [eapply Qle_trans; eassumption | now apply Hall].
      * destruct Hor as [-> | (e' & Hin & ->)]; [now left | right; exists e'; auto].
Qed.

Lemma evictLRU_false now st st' : Memory.evictLRU now st = (false, st') -> st' = st.
Proof.
  unfold Memory.evictLRU. destruct (Memory.size st =? 0); [congruence|].
  destruct (String.eqb _ _); congruence.
Qed.

(** A successful [evictLRU] deletes an entry whose score is the lowest
    of all entries. *)
Lemma evictLRU_true now st st' :
  Memory.evictLRU now st = (true, st') ->
  exists k item,
    k <> EmptyString /\
    In (k, item) (Memory.cache st) /\
    (forall e, In e (Memory.cache st) ->
               (Memory.score now item <= Memory.score now (snd e))%Q) /\
    st' = snd (Memory.delete k st).
Proof.
  unfold Memory.evictLRU. destruct (Memory.size st =? 0); [discriminate|].
  pose proof (evictScan_fold now (Memory.cache st)
                (EmptyString, Memory.MAX_SAFE_INTEGER) _ eq_refl) as (_ & Hall & Hor).
  destruct (String.eqb _ EmptyString) eqn:E; [discriminate|].
  intros [= <-]. apply String.eqb_neq in E.
  destruct Hor as [Heq | ([k item] & Hin & Heq)]; rewrite Heq in *; simpl in *.
  - congruence.
  - exists k, item. repeat split; auto.
Qed.

Lemma evictLRU_shrinks now st st' :
  Memory.evictLRU now st = (true, st') ->
  (List.length (Memory.cache st') < List.length (Memory.cache st))%nat.
Proof.
  intros (k & item & _ & Hin & _ & ->)%evictLRU_true.
  rewrite delete_cache. eapply JsMapFacts.length_delete_lt; eassumption.
Qed.

(** *** The loop of [set] *)

(** With the fuel [makeRoom] gives it, the loop stops by its own
    condition: there is room, or [evictLRU] fails. *)
Lemma makeRoomLoop_exit cfg now fuel st :
  (List.length (Memory.cache st) < fuel)%nat ->
  let st' := Memory.makeRoomLoop fuel cfg now st in
  Memory.size st' < MEMORY_SIZE cfg \/ fst (Memory.evictLRU now st') = false.
Proof.
  revert st. induction fuel as [|fuel IH]; intros st Hlen; [lia|]. simpl.
  destruct (Memory.size st >=? MEMORY_SIZE cfg) eqn:E.
  - destruct (Memory.evictLRU now st) as [[] st'] eqn:Ev.
    + apply IH. apply evictLRU_shrinks in Ev. lia.
    + right. pose proof (evictLRU_false _ _ _ Ev); subst st'. now rewrite Ev.
  - left. lia.
Qed.

Lemma makeRoom_exit cfg now st :
  let st' := Memory.makeRoom cfg now st in
  Memory.size st' < MEMORY_SIZE cfg \/ fst (Memory.evictLRU now st') = false.
Proof. apply makeRoomLoop_exit. lia. Qed.


(** *** The expiry sweep *)

Lemma sweep_cache (ks : list string) st :
  let st' := fold_left (fun s key => snd (Memory.delete key s)) ks st in
  (forall e, In e (Memory.cache st') -> In e (Memory.cache st)) /\
  (Memory.wf st -> Memory.wf st').
Proof.
  revert st. induction ks as [|k ks IH]; intros st; simpl; [tauto|].
  destruct (IH (snd (Memory.delete k st))) as [Hin Hwf]. split.
  - intros e He. apply Hin in He. rewrite delete_cache in He.
    now apply JsMapFacts.In_delete in He.
  - intros Hw. apply Hwf. now apply wf_delete.
Qed.

Lemma cleanupExpired_sub now st e :
  In e (Memory.cache (Memory.cleanupExpired now st)) -> In e (Memory.cache st).
Proof.
  unfold Memory.cleanupExpired. destruct (now - Memory.lastCleanup st <? 10000); [tauto|].
  simpl. apply sweep_cache.
Qed.

Lemma wf_cleanupExpired now st : Memory.wf st -> Memory.wf (Memory.cleanupExpired now st).
Proof.
  unfold Memory.cleanupExpired. destruct (now - Memory.lastCleanup st <? 10000); [tauto|].
  unfold Memory.wf at 2. simpl. apply sweep_cache.
Qed.

Lemma wf_evictLRU now st b st' :
  Memory.evictLRU now st = (b, st') -> Memory.wf st -> Memory.wf st'.
Proof.
  destruct b; intros Hev Hwf.
  - apply evictLRU_true in Hev as (k & _ & _ & _ & _ & ->). now apply wf_delete.
  - now apply evictLRU_false in Hev as ->.
Qed.

Lemma evictLRU_sub now st b st' e :
  Memory.evictLRU now st = (b, st') -> In e (Memory.cache st') -> In e (Memory.cache st).
Proof.
  destruct b; intros Hev.
  - apply evictLRU_true in Hev as (k & _ & _ & _ & _ & ->).
    rewrite delete_cache. now intros ?%JsMapFacts.In_delete.
  - now apply evictLRU_false in Hev as ->.
Qed.

Lemma makeRoomLoop_keeps cfg now fuel st :
  (Memory.wf st -> Memory.wf (Memory.makeRoomLoop fuel cfg now st)) /\
  (forall e, In e (Memory.cache (Memory.makeRoomLoop fuel cfg now st)) ->
             In e (Memory.cache st)).
Proof.
  revert st. induction fuel as [|fuel IH]; intros st; simpl; [tauto|].
  destruct (Memory.size st >=? MEMORY_SIZE cfg); [|tauto].
  destruct (Memory.evictLRU now st) as [[] st'] eqn:Ev.
  - destruct (IH st') as [Hwf Hsub]. split.
    + intros Hw. apply Hwf. eapply wf_evictLRU; eassumption.
    + intros e He. eapply evictLRU_sub; [exact Ev | now apply Hsub].
  - apply evictLRU_false in Ev as ->. tauto.
Qed.

Lemma wf_set cfg now key d ttlSeconds st :
  Memory.wf st -> Memory.wf (snd (Memory.set cfg now key d ttlSeconds st)).
Proof.
  intros Hwf. unfold Memory.set.
  destruct (Memory.estimateSize d >? MAX_VALUE_SIZE cfg); [exact Hwf|].
  unfold Memory.wf; simpl. apply JsMapFacts.set_wf.
  apply makeRoomLoop_keeps. now apply wf_cleanupExpired.
Qed.

Lemma wf_get now key st : Memory.wf st -> Memory.wf (snd (Memory.get now key st)).
Proof.
  intros Hwf. unfold Memory.get.
  destruct (JsMap.get key (Memory.cache st)) as [item|]; [|exact Hwf].
  destruct (now >? Memory.expires item); [now apply wf_delete|].
  unfold Memory.wf; simpl. now apply JsMapFacts.set_wf.
Qed.


(** *** Expiry on read *)

(** C6 (as amended): for a key the store holds, [get] answers absent and
    deletes the entry when [expires] is strictly before the current time;
    at any time up to and including [expires] it answers the stored
    value, sets [lastAccess] to the current time and adds one to
    [hitCount]. *)
Theorem get_expiry now key st item :
  JsMap.get key (Memory.cache st) = Some item ->
  (Memory.expires item < now ->
     Memory.get now key st = (None, snd (Memory.delete key st)) /\
     JsMap.get key (Memory.cache (snd (Memory.get now key st))) = None) /\
  (now <= Memory.expires item ->
     fst (Memory.get now key st) = Some (Memory.data item) /\
     JsMap.get key (Memory.cache (snd (Memory.get now key st)))
       = Some (Memory.touch now item) /\
     Memory.lastAccess (Memory.touch now item) = now /\
     Memory.hitCount (Memory.touch now item) = Memory.hitCount item + 1).
Proof.
  intros Hget. unfold Memory.get. rewrite Hget. split; intros Ht.
  - replace (now >? Memory.expires item) with true by (symmetry; lia).
    split; [reflexivity|].
    change (JsMap.get key (Memory.cache (snd (Memory.delete key st))) = None).
    rewrite delete_cache. apply JsMapFacts.get_delete_eq.
  - replace (now >? Memory.expires item) with false by (symmetry; lia).
    simpl. rewrite JsMapFacts.get_set_eq. auto.
Qed.

(** *** Eviction *)


(** *** The capacity bound, for keys that are not empty *)

Lemma score_below_max cfg now (e : string * Memory.CacheItem Value) :
  Memory.entryOk cfg e -> 0 <= now < 2 ^ 53 -> MAX_VALUE_SIZE cfg <= 2 ^ 53 ->
  (Memory.score now (snd e) < Memory.MAX_SAFE_INTEGER)%Q.
Proof.
  intros (_ & Hla & Hca & Hhit & Hsz) Hnow Hmax.
  unfold Memory.score, Memory.MAX_SAFE_INTEGER, Qlt, Qminus, Qplus, Qopp, inject_Z.
  simpl Qnum. simpl Qden.
  change (2 ^ 53) with 9007199254740992 in *. lia.
Qed.

Lemma evictLRU_succeeds cfg now st :
  Memory.cache st <> [] -> Forall (Memory.entryOk cfg) (Memory.cache st) ->
  0 <= now < 2 ^ 53 -> MAX_VALUE_SIZE cfg <= 2 ^ 53 ->
  fst (Memory.evictLRU now st) = true.
Proof.
  intros Hne Hok Hnow Hmax. unfold Memory.evictLRU.
  destruct (Memory.size st =? 0) eqn:Hsz.
  { unfold Memory.size in Hsz. destruct (Memory.cache st); [congruence | simpl in Hsz; lia]. }
  pose proof (evictScan_fold now (Memory.cache st)
                (EmptyString, Memory.MAX_SAFE_INTEGER) _ eq_refl) as (_ & Hall & Hor).
  rewrite List.Forall_forall in Hok.
  destruct Hor as [Heq | (e & Hin & Heq)]; rewrite Heq in *; simpl in *.
  - destruct (Memory.cache st) as [|e r]; [congruence|].
    specialize (Hall e (or_introl eq_refl)).
    pose proof (score_below_max cfg now e (Hok e (or_introl eq_refl)) Hnow Hmax) as Hlt.
    exfalso. eapply Qlt_not_le; eassumption.
  - destruct (Hok e Hin) as (Hkey & _). apply String.eqb_neq in Hkey.
    now rewrite Hkey.
Qed.

Lemma Forall_sub {A} (P : A -> Prop) (l l' : list A) :
  (forall e, In e l' -> In e l) -> Forall P l -> Forall P l'.
Proof. rewrite !List.Forall_forall. auto. Qed.

Lemma bounded_set cfg now key d ttlSeconds st :
  1 <= MEMORY_SIZE cfg -> MAX_VALUE_SIZE cfg <= 2 ^ 53 ->
  0 <= now < 2 ^ 53 -> key <> EmptyString ->
  Memory.bounded cfg st -> Memory.bounded cfg (snd (Memory.set cfg now key d ttlSeconds st)).
Proof.
  intros Hcap Hmax Hnow Hkey [Hsize Hok]. unfold Memory.set.
  destruct (Memory.estimateSize d >? MAX_VALUE_SIZE cfg) eqn:Hbig; [now split|].
  set (st2 := Memory.makeRoom cfg now (Memory.cleanupExpired now st)).
  assert (Forall (Memory.entryOk cfg) (Memory.cache st2)) as Hok2.
  { eapply Forall_sub; [|exact Hok]. intros e He.
    apply (cleanupExpired_sub now). revert He. apply makeRoomLoop_keeps. }
  assert (Memory.size st2 < MEMORY_SIZE cfg) as Hroom.
  { destruct (makeRoom_exit cfg now (Memory.cleanupExpired now st)) as [Hlt | Hfail];
      [exact Hlt|]. fold st2 in Hfail.
    destruct (Memory.cache st2) as [|e r] eqn:Hc.
    - unfold Memory.size. rewrite Hc. simpl. lia.
    - assert (fst (Memory.evictLRU now st2) = true) as Hs.
      { apply (evictLRU_succeeds cfg); auto; rewrite Hc; [discriminate | exact Hok2]. }
      congruence. }
  split; simpl.
  - unfold Memory.size in *. simpl. rewrite JsMapFacts.length_set.
    destruct (JsMap.get key (Memory.cache st2)); lia.
  - rewrite List.Forall_forall in *. intros e [-> | Hin]%JsMapFacts.In_set; [|auto].
    unfold Memory.entryOk; simpl. repeat split; try lia. exact Hkey.
Qed.

Lemma bounded_delete cfg key st :
  Memory.bounded cfg st -> Memory.bounded cfg (snd (Memory.delete key st)).
Proof.
  intros [Hsize Hok]. split.
  - unfold Memory.size in *. rewrite delete_cache.
    pose proof (JsMapFacts.length_delete_le key (Memory.cache st)). lia.
  - eapply Forall_sub; [|exact Hok]. intros e. rewrite delete_cache.
    now intros ?%JsMapFacts.In_delete.
Qed.

Lemma bounded_get cfg now key st :
  0 <= now -> Memory.bounded cfg st -> Memory.bounded cfg (snd (Memory.get now key st)).
Proof.
  intros Hnow Hb. unfold Memory.get.
  destruct (JsMap.get key (Memory.cache st)) as [item|] eqn:Hget; [|exact Hb].
  destruct (now >? Memory.expires item); [now apply bounded_delete|].
  destruct Hb as [Hsize Hok]. split; simpl.
  - unfold Memory.size in *. simpl. rewrite JsMapFacts.length_set, Hget. exact Hsize.
  - rewrite List.Forall_forall in *. intros e [-> | Hin]%JsMapFacts.In_set; [|auto].
    destruct (Hok _ (JsMapFacts.get_In _ _ _ Hget)) as (Hk & _ & Hca & Hhit & Hsz).
    unfold Memory.entryOk in *; simpl in *. repeat split; auto; lia.
Qed.

(** X8: for keys other than the empty string the capacity bound holds:
    whatever operations run, at times a clock can show, [size()] stays at
    most [MEMORY_SIZE]. *)
Theorem capacity_bound_nonempty_keys cfg ops st :
  1 <= MEMORY_SIZE cfg -> MAX_VALUE_SIZE cfg <= 2 ^ 53 ->
  Forall Memory.opOk ops ->
  Memory.bounded cfg st ->
  Memory.bounded cfg (Memory.run cfg ops st).
Proof.
  intros Hcap Hmax Hops. revert st. unfold Memory.run.
  induction Hops as [|[t op] ops [Ht Hop] _ IH]; intros st Hb; simpl; [exact Hb|].
  apply IH. simpl in Ht, Hop. destruct op; simpl.
  - now apply bounded_set.
  - apply bounded_get; [lia | exact Hb].
  - now apply bounded_delete.
  - split; [unfold Memory.size; simpl; lia | constructor].
Qed.


End MemoryFacts.

(** C6, as stated, fails at the boundary: the entry of [Sample.oneEntry]
    expires at 61000, and [get] at time 61000 still answers its value. *)
Lemma get_at_expiry_time_is_a_hit :
  JsMap.get "a" (Memory.cache Sample.oneEntry) = Some Sample.oneEntryItem /\
  Memory.expires Sample.oneEntryItem = 61000 /\
  fst (Memory.get 61000 "a" Sample.oneEntry) = Some (Sample.JsNum 5).
Proof. repeat split. Qed.

Lemma get_expiry_witness :
  Memory.get 61001 "a" Sample.oneEntry
    = (None, snd (Memory.delete "a" Sample.oneEntry)) /\
  fst (Memory.get 61000 "a" Sample.oneEntry) = Some (Sample.JsNum 5) /\
  JsMap.get "a" (Memory.cache (snd (Memory.get 61000 "a" Sample.oneEntry)))
    = Some (Memory.touch 61000 Sample.oneEntryItem).
Proof.
  destruct (get_expiry 61001 "a" Sample.oneEntry Sample.oneEntryItem eq_refl)
    as [Hexpired _].
  destruct (get_expiry 61000 "a" Sample.oneEntry Sample.oneEntryItem eq_refl)
    as [_ Hlive].
  split; [apply Hexpired; reflexivity|].
  destruct Hlive as (Hv & Hitem & _); [simpl; lia|]. split; assumption.
Defined.


(** C4 at the failing input: with the 140 entries [devConservative]
    allows, 141 writes of distinct keys, the empty string among them,
    leave 141 entries. *)
Theorem capacity_exceeded_with_empty_key :
  MEMORY_SIZE Sample.devConservative = 140 /\
  Memory.size (Memory.run Sample.devConservative Sample.writesWithEmptyKey
                 (Memory.create 1000)) = 141.
Proof. vm_compute. split; reflexivity. Qed.

End MemoryFacts.

(** ** The remote client *)

Module RedisFacts.
Section RedisFacts.
Context {Value : Type} `{JsValue Value}.
Implicit Types (s : Redis.Net) (cmd : Redis.Command Value) (remote : Redis.Remote Value)
  (cl : Redis.ResilientRedis).

Ltac unfold_commands :=
  unfold Redis.exec, Redis.get, Redis.setex, Redis.del, Redis.exists_, Redis.ttl,
    Redis.keys, Redis.checkAvailable, Redis.failed, Redis.now, Redis.sendWithTimeout,
    Redis.send, Redis.setClient, bind, tryCatch, ret, gets, modify;
  simpl.

Lemma isAvailable_false cfg now cl0 cl1 :
  Redis.isAvailable cfg now cl0 = (false, cl1) -> cl1 = cl0.
Proof.
  unfold Redis.isAvailable.
  repeat match goal with
         | |- context [if ?b then _ else _] => destruct b
         end; congruence.
Qed.

(** A refused call answers the safe value and changes nothing. *)
Lemma exec_refused cfg remote cmd s :
  fst (Redis.isAvailable cfg (Redis.clock s) (Redis.client s)) = false ->
  Redis.exec cfg remote cmd s = (Returned (Redis.safeAnswer cmd), s).
Proof.
  destruct (Redis.isAvailable cfg (Redis.clock s) (Redis.client s)) as [ok cl1] eqn:Ha.
  simpl. intros ->. apply isAvailable_false in Ha as Hc. subst cl1.
  destruct s as [t n cl0]; simpl in *.
  destruct cmd; unfold_commands; rewrite Ha; reflexivity.
Qed.

(** A failed attempt answers the safe value; the failure is recorded. *)
Lemma exec_failed cfg remote cmd s cl0 :
  Redis.isAvailable cfg (Redis.clock s) (Redis.client s) = (true, cl0) ->
  Redis.attemptFails cfg cmd (remote (Redis.netCalls s)) = true ->
  Redis.exec cfg remote cmd s
  = (Returned (Redis.safeAnswer cmd),
     Redis.afterFailure cfg cmd s cl0 (remote (Redis.netCalls s))).
Proof.
  intros Ha Hf. destruct s as [t n cl]; simpl in *.
  unfold Redis.attemptFails, Redis.afterFailure, Redis.elapsed in *.
  destruct (remote n) as [d [v|e]] eqn:Hr;
    destruct cmd; unfold_commands; rewrite Ha; simpl in *; rewrite ?Hr; simpl;
    destruct (d <? REDIS_TIMEOUT cfg); simpl in *; try discriminate; reflexivity.
Qed.

(** A successful attempt answers with the value of the service. *)
Lemma exec_succeeded cfg remote cmd s cl0 v :
  Redis.isAvailable cfg (Redis.clock s) (Redis.client s) = (true, cl0) ->
  Redis.attemptFails cfg cmd (remote (Redis.netCalls s)) = false ->
  Redis.settle (remote (Redis.netCalls s)) = Redis.Resolves v ->
  Redis.exec cfg remote cmd s
  = (Returned (Redis.answerTo cmd v),
     Redis.afterSuccess cmd s cl0 (remote (Redis.netCalls s))).
Proof.
  intros Ha Hf Hv. destruct s as [t n cl]; simpl in *.
  unfold Redis.attemptFails, Redis.afterSuccess in *.
  destruct (remote n) as [d st] eqn:Hr. simpl in Hv. subst st.
  destruct cmd; unfold_commands; rewrite Ha; simpl in *; rewrite ?Hr; simpl;
    destruct (d <? REDIS_TIMEOUT cfg); simpl in *; try discriminate; reflexivity.
Qed.

Lemma exec_attempted cfg remote cmd s cl0 :
  Redis.isAvailable cfg (Redis.clock s) (Redis.client s) = (true, cl0) ->
  Redis.netCalls (snd (Redis.exec cfg remote cmd s)) = S (Redis.netCalls s).
Proof.
  intros Ha.
  destruct (Redis.attemptFails cfg cmd (remote (Redis.netCalls s))) eqn:Hf.
  - now rewrite (exec_failed _ _ _ _ _ Ha Hf).
  - destruct (Redis.settle (remote (Redis.netCalls s))) as [v|e] eqn:Hv.
    + now rewrite (exec_succeeded _ _ _ _ _ _ Ha Hf Hv).
    + unfold Redis.attemptFails in Hf. rewrite Hv, orb_true_r in Hf. discriminate.
Qed.

(** No command throws: [get] and [setex], which the orchestrator awaits,
    always return. *)
Lemma exec_returns cfg remote cmd s :
  exists a s', Redis.exec cfg remote cmd s = (Returned a, s').
Proof.
  destruct (Redis.isAvailable cfg (Redis.clock s) (Redis.client s)) as [[] cl0] eqn:Ha.
  - destruct (Redis.attemptFails cfg cmd (remote (Redis.netCalls s))) eqn:Hf.
    + rewrite (exec_failed _ _ _ _ _ Ha Hf). eauto.
    + destruct (Redis.settle (remote (Redis.netCalls s))) as [v|e] eqn:Hv.
      * rewrite (exec_succeeded _ _ _ _ _ _ Ha Hf Hv). eauto.
      * unfold Redis.attemptFails in Hf. rewrite Hv, orb_true_r in Hf. discriminate.
  - rewrite exec_refused by now rewrite Ha. eauto.
Qed.

Lemma get_returns cfg remote key s :
  exists r s', Redis.get cfg remote key s = (Returned r, s').
Proof.
  destruct (exec_returns cfg remote (Redis.CmdGet key) s) as (a & s' & Hrun).
  unfold Redis.exec, bind in Hrun.
  destruct (Redis.get cfg remote key s) as [[r|e] s1]; [eauto | discriminate].
Qed.

Lemma setex_returns cfg remote key ttlSeconds d s :
  exists r s', Redis.setex cfg remote key ttlSeconds d s = (Returned r, s').
Proof.
  destruct (exec_returns cfg remote (Redis.CmdSetex key ttlSeconds d) s) as (a & s' & Hrun).
  unfold Redis.exec, bind in Hrun.
  destruct (Redis.setex cfg remote key ttlSeconds d s) as [[r|e] s1]; [eauto | discriminate].
Qed.

(** *** The circuit breaker *)

Lemma isAvailable_closed cfg now cl :
  Redis.redisAvailable cl = true -> Redis.hasClient cl = true ->
  Redis.circuitOpen cl = false ->
  Redis.isAvailable cfg now cl = (true, cl).
Proof.
  intros Hav Hcl Hopen. unfold Redis.isAvailable. rewrite Hav, Hcl, Hopen. simpl.
  now destruct (ENABLE_CIRCUIT_BREAKER cfg).
Qed.

(** With [ENABLE_CIRCUIT_BREAKER] off the client always tries, whatever
    the state of the circuit. *)
Lemma isAvailable_without_breaker cfg now cl :
  ENABLE_CIRCUIT_BREAKER cfg = false ->
  Redis.redisAvailable cl = true -> Redis.hasClient cl = true ->
  Redis.isAvailable cfg now cl = (true, cl).
Proof.
  intros Hcb Hav Hcl. unfold Redis.isAvailable. now rewrite Hcb, Hav, Hcl.
Qed.

Lemma isAvailable_open cfg now cl :
  ENABLE_CIRCUIT_BREAKER cfg = true ->
  Redis.redisAvailable cl = true -> Redis.hasClient cl = true ->
  Redis.circuitOpen cl = true ->
  fst (Redis.isAvailable cfg now cl)
  = negb (now - Redis.lastFailure cl <? CIRCUIT_RESET_TIMEOUT cfg).
Proof.
  intros Hcb Hav Hcl Hopen. unfold Redis.isAvailable.
  rewrite Hcb, Hav, Hcl, Hopen. simpl.
  now destruct (now - Redis.lastFailure cl <? CIRCUIT_RESET_TIMEOUT cfg).
Qed.

Lemma afterFailure_client cfg cmd s cl0 (r : Redis.Reply Value) :
  forall s1, s1 = Redis.afterFailure cfg cmd s cl0 r ->
  Redis.netCalls s1 = S (Redis.netCalls s) /\
  Redis.failureCount (Redis.client s1) = Redis.failureCount cl0 + 1 /\
  Redis.circuitOpen (Redis.client s1)
    = ((Redis.failureCount cl0 + 1 >=? CIRCUIT_FAILURE_THRESHOLD cfg)
       || Redis.circuitOpen cl0) /\
  Redis.redisAvailable (Redis.client s1) = Redis.redisAvailable cl0 /\
  Redis.hasClient (Redis.client s1) = Redis.hasClient cl0 /\
  Redis.lastFailure (Redis.client s1) = Redis.clock s1.
Proof.
  intros s1 ->. destruct cmd; simpl;
    destruct (Redis.failureCount cl0 + 1 >=? CIRCUIT_FAILURE_THRESHOLD cfg); auto 10.
Qed.

Lemma runCommands_cons cfg remote d cmd rest s :
  Redis.runCommands cfg remote ((d, cmd) :: rest) s
  = (fst (Redis.exec cfg remote cmd (Redis.idle d s))
       :: fst (Redis.runCommands cfg remote rest
                 (snd (Redis.exec cfg remote cmd (Redis.idle d s)))),
     snd (Redis.runCommands cfg remote rest
            (snd (Redis.exec cfg remote cmd (Redis.idle d s))))).
Proof.
  change (Redis.runCommands cfg remote ((d, cmd) :: rest) s)
    with (let (out, s1) := Redis.exec cfg remote cmd (Redis.idle d s) in
          let (outs, s2) := Redis.runCommands cfg remote rest s1 in
          (out :: outs, s2)).
  destruct (Redis.exec cfg remote cmd (Redis.idle d s)) as [out s1].
  cbn [fst snd]. now destruct (Redis.runCommands cfg remote rest s1).
Qed.

(** Failures in a row, from a closed circuit: each one reaches the network
    and is counted; the circuit opens when the count reaches the
    threshold. *)
Lemma run_failures cfg remote rest :
  forall step s outs s',
    Redis.redisAvailable (Redis.client s) = true ->
    Redis.hasClient (Redis.client s) = true ->
    Redis.circuitOpen (Redis.client s) = false ->
    Redis.failureCount (Redis.client s) + Z.of_nat (List.length (step :: rest))
      <= CIRCUIT_FAILURE_THRESHOLD cfg ->
    Redis.allFail cfg remote (Redis.netCalls s) (step :: rest) ->
    Redis.runCommands cfg remote (step :: rest) s = (outs, s') ->
    outs = map (fun st => Returned (Redis.safeAnswer (snd st))) (step :: rest) /\
    Redis.netCalls s' = (Redis.netCalls s + List.length (step :: rest))%nat /\
    Redis.failureCount (Redis.client s')
      = Redis.failureCount (Redis.client s) + Z.of_nat (List.length (step :: rest)) /\
    Redis.circuitOpen (Redis.client s')
      = (Redis.failureCount (Redis.client s') >=? CIRCUIT_FAILURE_THRESHOLD cfg) /\
    Redis.redisAvailable (Redis.client s') = true /\
    Redis.hasClient (Redis.client s') = true /\
    Redis.lastFailure (Redis.client s') = Redis.clock s'.
Proof.
  induction rest as [|next rest IH]; intros [d cmd] s outs s' Hav Hcl Hopen Hcount
    [Hfail Hrest] Hrun; rewrite runCommands_cons in Hrun;
    rewrite (exec_failed cfg remote cmd (Redis.idle d s) (Redis.client s)) in Hrun
      by (try exact Hfail; now apply isAvailable_closed);
    destruct (afterFailure_client cfg cmd (Redis.idle d s) (Redis.client s)
                (remote (Redis.netCalls (Redis.idle d s))) _ eq_refl)
      as (Hn & Hfc & Hop & Hav1 & Hcl1 & Hlast);
    set (s1 := Redis.afterFailure cfg cmd (Redis.idle d s) (Redis.client s)
                 (remote (Redis.netCalls (Redis.idle d s)))) in *;
    change (Redis.netCalls (Redis.idle d s)) with (Redis.netCalls s) in Hn;
    rewrite Hopen, orb_false_r in Hop; rewrite Hav in Hav1; rewrite Hcl in Hcl1.
  - simpl in Hrun. injection Hrun as <- <-. simpl List.length.
    split; [reflexivity|]. split; [rewrite Hn; lia|]. split; [rewrite Hfc; lia|].
    split; [now rewrite Hop, Hfc|]. auto.
  - cbn [fst snd] in Hrun. fold s1 in Hrun.
    destruct (Redis.runCommands cfg remote (next :: rest) s1) as [outs1 s2] eqn:Hrun1.
    cbn [fst snd] in Hrun. injection Hrun as <- <-. simpl List.length in *.
    destruct (IH next s1 outs1 s2) as (Houts & Hnet & Hcnt & Hop' & Hav' & Hcl' & Hlast');
      try assumption.
    + rewrite Hop, Z.geb_leb. apply Z.leb_gt. lia.
    + simpl List.length. lia.
    + simpl List.length in *.
      split; [simpl map; now rewrite Houts|]. split; [lia|]. split; [lia|]. auto.
Qed.

(** C7: with the breaker enabled and the client connected, after
    [CIRCUIT_FAILURE_THRESHOLD] failures in a row the circuit is open;
    from then on, as long as less than [CIRCUIT_RESET_TIMEOUT] has passed
    since the last failure, every call answers its safe value and leaves
    the state as it is (nothing is sent, nothing is counted); once that
    time has passed, the next call is sent to the network. *)
Theorem breaker_opens_then_rejects cfg remote steps s outs s' :
  ENABLE_CIRCUIT_BREAKER cfg = true ->
  Redis.redisAvailable (Redis.client s) = true ->
  Redis.hasClient (Redis.client s) = true ->
  Redis.circuitOpen (Redis.client s) = false ->
  Redis.failureCount (Redis.client s) = 0 ->
  0 < CIRCUIT_FAILURE_THRESHOLD cfg ->
  Z.of_nat (List.length steps) = CIRCUIT_FAILURE_THRESHOLD cfg ->
  Redis.allFail cfg remote (Redis.netCalls s) steps ->
  Redis.runCommands cfg remote steps s = (outs, s') ->
  Redis.circuitOpen (Redis.client s') = true /\
  Redis.netCalls s' = (Redis.netCalls s + List.length steps)%nat /\
  (forall s'' cmd,
      Redis.client s'' = Redis.client s' ->
      Redis.clock s'' - Redis.lastFailure (Redis.client s') < CIRCUIT_RESET_TIMEOUT cfg ->
      Redis.exec cfg remote cmd s'' = (Returned (Redis.safeAnswer cmd), s'')) /\
  (forall s'' cmd,
      Redis.client s'' = Redis.client s' ->
      CIRCUIT_RESET_TIMEOUT cfg <= Redis.clock s'' - Redis.lastFailure (Redis.client s') ->
      Redis.netCalls (snd (Redis.exec cfg remote cmd s'')) = S (Redis.netCalls s'')).
Proof.
  intros Hcb Hav Hcl Hopen Hzero Hpos Hlen Hfail Hrun.
  destruct steps as [|step rest]; [simpl in Hlen; lia|].
  destruct (run_failures cfg remote rest step s outs s') as
    (_ & Hnet & Hcnt & Hop & Hav' & Hcl' & _); try assumption; [lia|].
  assert (Redis.circuitOpen (Redis.client s') = true) as Hopen'.
  { rewrite Hop, Hcnt, Z.geb_leb. apply Z.leb_le. lia. }
  repeat split; try assumption.
  - intros s'' cmd Hsame Hwithin. apply exec_refused. rewrite Hsame.
    rewrite isAvailable_open by assumption.
    apply negb_false_iff, Z.ltb_lt. exact Hwithin.
  - intros s'' cmd Hsame Hpast.
    pose proof (isAvailable_open cfg (Redis.clock s'') (Redis.client s') Hcb Hav' Hcl' Hopen')
      as Hok.
    replace (Redis.clock s'' - Redis.lastFailure (Redis.client s')
             <? CIRCUIT_RESET_TIMEOUT cfg) with false in Hok by (symmetry; lia).
    rewrite <- Hsame in Hok.
    destruct (Redis.isAvailable cfg (Redis.clock s'') (Redis.client s'')) as [ok cl0] eqn:Ha.
    simpl in Hok. subst ok. eapply exec_attempted. exact Ha.
Qed.

(** *** Half-open *)

Lemma half_open_lets_through cfg now cl :
  ENABLE_CIRCUIT_BREAKER cfg = true ->
  Redis.redisAvailable cl = true -> Redis.hasClient cl = true ->
  Redis.circuitOpen cl = true ->
  CIRCUIT_RESET_TIMEOUT cfg <= now - Redis.lastFailure cl ->
  exists cl0,
    Redis.isAvailable cfg now cl = (true, cl0) /\
    Redis.circuitOpen cl0 = false /\
    Redis.failureCount cl0 = Z.max 0 (Redis.failureCount cl - 1) /\
    Redis.redisAvailable cl0 = true /\ Redis.hasClient cl0 = true.
Proof.
  intros Hcb Hav Hcl Hopen Hpast. unfold Redis.isAvailable.
  rewrite Hcb, Hav, Hcl, Hopen. simpl.
  replace (now - Redis.lastFailure cl <? CIRCUIT_RESET_TIMEOUT cfg) with false
    by (symmetry; lia).
  eexists. split; [reflexivity|]. simpl. auto.
Qed.

(** X17: once the cooldown has passed, a successful [setex] or [del] leaves
    the breaker fully reset; a successful [get], [exists], [ttl] or [keys]
    leaves the circuit closed with the failure count one below what it was. *)
Lemma half_open_success cfg remote cmd s v :
  ENABLE_CIRCUIT_BREAKER cfg = true ->
  Redis.redisAvailable (Redis.client s) = true ->
  Redis.hasClient (Redis.client s) = true ->
  Redis.circuitOpen (Redis.client s) = true ->
  CIRCUIT_RESET_TIMEOUT cfg <= Redis.clock s - Redis.lastFailure (Redis.client s) ->
  Redis.attemptFails cfg cmd (remote (Redis.netCalls s)) = false ->
  Redis.settle (remote (Redis.netCalls s)) = Redis.Resolves v ->
  fst (Redis.exec cfg remote cmd s) = Returned (Redis.answerTo cmd v) /\
  Redis.circuitOpen (Redis.client (snd (Redis.exec cfg remote cmd s))) = false /\
  Redis.failureCount (Redis.client (snd (Redis.exec cfg remote cmd s)))
  = match cmd with
    | Redis.CmdSetex _ _ _ | Redis.CmdDel _ => 0
    | _ => Z.max 0 (Redis.failureCount (Redis.client s) - 1)
    end.
Proof.
  intros Hcb Hav Hcl Hopen Hpast Hok Hv.
  destruct (half_open_lets_through cfg _ _ Hcb Hav Hcl Hopen Hpast)
    as (cl0 & Ha & Hopen0 & Hfc0 & _).
  rewrite (exec_succeeded _ _ _ _ _ _ Ha Hok Hv). split; [reflexivity|].
  destruct cmd; simpl; unfold Redis.resetCircuit; rewrite ?Hopen0, ?Hfc0;
    try (split; reflexivity);
    destruct (Z.max 0 (Redis.failureCount (Redis.client s) - 1) >? 0) eqn:E; simpl;
    rewrite ?Hopen0, ?Hfc0; split; auto; lia.
Qed.

(** Once the cooldown has passed, a failure opens the circuit again and
    refreshes [lastFailure] (the count of an open circuit is at least the
    threshold). *)
Lemma half_open_failure cfg remote cmd s :
  ENABLE_CIRCUIT_BREAKER cfg = true ->
  Redis.redisAvailable (Redis.client s) = true ->
  Redis.hasClient (Redis.client s) = true ->
  Redis.circuitOpen (Redis.client s) = true ->
  CIRCUIT_FAILURE_THRESHOLD cfg <= Redis.failureCount (Redis.client s) ->
  CIRCUIT_RESET_TIMEOUT cfg <= Redis.clock s - Redis.lastFailure (Redis.client s) ->
  Redis.attemptFails cfg cmd (remote (Redis.netCalls s)) = true ->
  fst (Redis.exec cfg remote cmd s) = Returned (Redis.safeAnswer cmd) /\
  Redis.circuitOpen (Redis.client (snd (Redis.exec cfg remote cmd s))) = true /\
  Redis.lastFailure (Redis.client (snd (Redis.exec cfg remote cmd s)))
  = Redis.clock (snd (Redis.exec cfg remote cmd s)).
Proof.
  intros Hcb Hav Hcl Hopen Hcount Hpast Hfail.
  destruct (half_open_lets_through cfg _ _ Hcb Hav Hcl Hopen Hpast)
    as (cl0 & Ha & Hopen0 & Hfc0 & _).
  rewrite (exec_failed _ _ _ _ _ Ha Hfail). split; [reflexivity|]. cbn [snd].
  destruct (afterFailure_client cfg cmd s cl0 (remote (Redis.netCalls s)) _ eq_refl)
    as (_ & _ & Hop & _ & _ & Hlast).
  split; [|exact Hlast]. rewrite Hop, Hfc0.
  apply orb_true_iff. left. rewrite Z.geb_leb. apply Z.leb_le. lia.
Qed.

(** *** No command throws *)

Lemma isAvailable_metrics cfg now cl :
  Redis.operationMetrics (snd (Redis.isAvailable cfg now cl)) = Redis.operationMetrics cl.
Proof.
  unfold Redis.isAvailable.
  repeat match goal with
         | |- context [if ?b then _ else _] => destruct b
         end; reflexivity.
Qed.


End RedisFacts.

(** After the three failures of [Sample.tripped] (the last at time 1330),
    a [get] 5 seconds later is refused on the spot, and a [get] 30 seconds
    later is the fourth command on the network. *)
Lemma breaker_opens_then_rejects_witness :
  Redis.circuitOpen (Redis.client Sample.tripped) = true /\
  Redis.exec Sample.productionWithRedis Sample.failsThrice (Redis.CmdGet "ez:a")
    (Redis.idle 5000 Sample.tripped)
  = (Returned (Redis.AValue None), Redis.idle 5000 Sample.tripped) /\
  Redis.netCalls
    (snd (Redis.exec Sample.productionWithRedis Sample.failsThrice (Redis.CmdGet "ez:a")
            (Redis.idle 30000 Sample.tripped))) = 4%nat.
Proof.
  destruct (breaker_opens_then_rejects Sample.productionWithRedis Sample.failsThrice
              Sample.threeCommands (Sample.connectedAt 1000)
              (fst (Redis.runCommands Sample.productionWithRedis Sample.failsThrice
                      Sample.threeCommands (Sample.connectedAt 1000)))
              Sample.tripped)
    as (Hopen & _ & Hrefused & Hsent);
    try reflexivity; [vm_compute; auto|].
  split; [exact Hopen|]. split.
  - apply (Hrefused (Redis.idle 5000 Sample.tripped)); [reflexivity | vm_compute; reflexivity].
  - apply (Hsent (Redis.idle 30000 Sample.tripped) (Redis.CmdGet "ez:a"));
      [reflexivity | vm_compute; discriminate].
Defined.

(** C8 at the failing input: the circuit of [Sample.tripped] is open
    with three failures counted; 30 seconds later a [get] goes through
    and succeeds, and the breaker is left with two failures counted
    (a [setex] in its place leaves none). *)
Theorem half_open_get_keeps_failure_count :
  Redis.circuitOpen (Redis.client Sample.tripped) = true /\
  Redis.failureCount (Redis.client Sample.tripped) = 3 /\
  fst (Redis.exec Sample.productionWithRedis Sample.failsThrice (Redis.CmdGet "ez:a")
         (Redis.idle 30000 Sample.tripped))
  = Returned (Redis.AValue (Some (Sample.JsNum 7))) /\
  Redis.circuitOpen
    (Redis.client
       (snd (Redis.exec Sample.productionWithRedis Sample.failsThrice
               (Redis.CmdGet "ez:a") (Redis.idle 30000 Sample.tripped)))) = false /\
  Redis.failureCount
    (Redis.client
       (snd (Redis.exec Sample.productionWithRedis Sample.failsThrice
               (Redis.CmdGet "ez:a") (Redis.idle 30000 Sample.tripped)))) = 2 /\
  Redis.failureCount
    (Redis.client
       (snd (Redis.exec Sample.productionWithRedis Sample.failsThrice
               (Redis.CmdSetex "ez:a" 600 (Sample.JsNum 1))
               (Redis.idle 30000 Sample.tripped)))) = 0.
Proof. vm_compute. repeat split; reflexivity. Qed.


End RedisFacts.

(** ** The orchestrator *)

Module EZCacheFacts.
Section EZCacheFacts.
Context {Value : Type} `{JsValue Value}.
Implicit Types (w : EZCache.World Value) (fetcher : EZCache.Fetcher Value)
  (remote : Redis.Remote Value).

#[local] Arguments Traffic.track : simpl never.
#[local] Arguments Memory.get : simpl never.
#[local] Arguments Memory.set : simpl never.
#[local] Arguments Metrics.recordHit : simpl never.
#[local] Arguments Metrics.recordMiss : simpl never.
#[local] Arguments Metrics.recordError : simpl never.
#[local] Arguments Redis.get : simpl never.
#[local] Arguments Redis.setex : simpl never.
#[local] Arguments Z.mul : simpl never.
#[local] Arguments Z.add : simpl never.
#[local] Arguments Z.sub : simpl never.
#[local] Arguments String.append : simpl never.

Lemma mode_enabled cfg :
  CACHE_MODE cfg <> DISABLED -> CacheMode_eqb (CACHE_MODE cfg) DISABLED = false.
Proof. destruct (CACHE_MODE cfg); [reflexivity.. | congruence]. Qed.

Lemma mode_with_memory cfg : ENABLE_MEMORY cfg = true -> CACHE_MODE cfg <> DISABLED.
Proof. unfold CACHE_MODE. intros ->. now destruct (ENABLE_REDIS cfg). Qed.

(** *** Invocations of the fetcher *)

Lemma quiet_ret {A} (a : A) : EZCache.quiet (Value:=Value) (ret a).
Proof. intros w. unfold ret. eauto. Qed.

Lemma quiet_bind {A B} (m : M (EZCache.World Value) A) (k : A -> M (EZCache.World Value) B) :
  EZCache.quiet m -> (forall a, EZCache.quiet (k a)) -> EZCache.quiet (bind m k).
Proof.
  intros Hm Hk w. destruct (Hm w) as (a & w1 & Hrun & Hn). unfold bind. rewrite Hrun.
  destruct (Hk a w1) as (b & w2 & Hrun2 & Hn2). rewrite Hrun2.
  exists b, w2. split; [reflexivity | congruence].
Qed.

Lemma quiet_now : EZCache.quiet (Value:=Value) EZCache.now.
Proof. intros w. unfold EZCache.now, gets. eauto. Qed.

Lemma quiet_gets {A} (f : EZCache.World Value -> A) : EZCache.quiet (gets f).
Proof. intros w. unfold gets. eauto. Qed.

Lemma quiet_recordHit cfg t : EZCache.quiet (Value:=Value) (EZCache.recordHit cfg t).
Proof. intros w. unfold EZCache.recordHit, modify. eauto. Qed.

Lemma quiet_recordMiss cfg t : EZCache.quiet (Value:=Value) (EZCache.recordMiss cfg t).
Proof. intros w. unfold EZCache.recordMiss, modify. eauto. Qed.

Lemma quiet_recordError cfg : EZCache.quiet (Value:=Value) (EZCache.recordError cfg).
Proof. intros w. unfold EZCache.recordError, modify. eauto. Qed.

Lemma quiet_memoryGet key : EZCache.quiet (Value:=Value) (EZCache.memoryGet key).
Proof.
  intros w. unfold EZCache.memoryGet. destruct (EZCache.memory w) as [m|]; [|eauto].
  destruct (Memory.get (EZCache.clock w) key m). eauto.
Qed.

Lemma quiet_memorySet cfg key d ttlSeconds :
  EZCache.quiet (Value:=Value) (EZCache.memorySet cfg key d ttlSeconds).
Proof.
  intros w. unfold EZCache.memorySet. destruct (EZCache.memory w) as [m|]; [|eauto].
  destruct (Memory.set cfg (EZCache.clock w) key d ttlSeconds m). eauto.
Qed.

Lemma quiet_isHighTraffic cfg key threshold tr :
  EZCache.quiet (Value:=Value) (EZCache.isHighTraffic cfg key threshold tr).
Proof.
  intros w. unfold EZCache.isHighTraffic.
  destruct (Traffic.isHighTraffic cfg (EZCache.clock w) key (Some threshold) tr). eauto.
Qed.

Lemma quiet_onRedis {A} (cmd : M Redis.Net A) :
  (forall s, exists a s', cmd s = (Returned a, s')) -> EZCache.quiet (Value:=Value) (EZCache.onRedis cmd).
Proof.
  intros Hcmd w. unfold EZCache.onRedis. destruct (EZCache.redis w) as [cl|]; [|eauto].
  destruct (Hcmd {| Redis.clock := EZCache.clock w; Redis.netCalls := EZCache.netCalls w;
                    Redis.client := cl |}) as (a & s' & ->). eauto.
Qed.

Lemma quiet_remoteLookup cfg remote fullKey :
  EZCache.quiet (Value:=Value) (EZCache.remoteLookup cfg remote fullKey).
Proof.
  unfold EZCache.remoteLookup. destruct (ENABLE_REDIS cfg); [|apply quiet_ret].
  apply quiet_onRedis. intros s. apply RedisFacts.get_returns.
Qed.

Lemma quiet_storeInCacheLayers cfg remote fullKey d memoryTtl redisTtl :
  EZCache.quiet (Value:=Value) (EZCache.storeInCacheLayers cfg remote fullKey d memoryTtl redisTtl).
Proof.
  unfold EZCache.storeInCacheLayers.
  apply quiet_bind; [destruct (ENABLE_MEMORY cfg); [apply quiet_memorySet | apply quiet_ret]|].
  intros _. apply quiet_bind; [|intros _; apply quiet_ret].
  destruct (ENABLE_REDIS cfg); [|apply quiet_ret].
  apply quiet_onRedis. intros s. apply RedisFacts.setex_returns.
Qed.

Lemma atMostOnce_quiet fetcher (m : M (EZCache.World Value) Value) :
  EZCache.quiet m -> EZCache.atMostOnce fetcher m.
Proof.
  intros Hm w out w1 Hrun. destruct (Hm w) as (a & w2 & Hrun2 & Hn).
  rewrite Hrun2 in Hrun. injection Hrun as <- <-. left. eauto.
Qed.

Lemma atMostOnce_after fetcher {A} (m : M (EZCache.World Value) A)
  (k : A -> M (EZCache.World Value) Value) :
  EZCache.quiet m -> (forall a, EZCache.atMostOnce fetcher (k a)) ->
  EZCache.atMostOnce fetcher (bind m k).
Proof.
  intros Hm Hk w out w1. unfold bind. destruct (Hm w) as (a & w2 & -> & Hn).
  intros Hrun. apply Hk in Hrun. rewrite Hn in Hrun. exact Hrun.
Qed.

Lemma keeps_ret v : EZCache.keeps (Value:=Value) v (ret v).
Proof. intros w. unfold ret. eauto. Qed.

Lemma keeps_after v {A} (m : M (EZCache.World Value) A)
  (k : A -> M (EZCache.World Value) Value) :
  EZCache.quiet m -> (forall a, EZCache.keeps v (k a)) -> EZCache.keeps v (bind m k).
Proof.
  intros Hm Hk w. destruct (Hm w) as (a & w1 & Hrun & Hn). unfold bind. rewrite Hrun.
  destruct (Hk a w1) as (w2 & Hrun2 & Hn2). rewrite Hrun2.
  exists w2. split; [reflexivity | congruence].
Qed.

Lemma atMostOnce_keeps fetcher v (m : M (EZCache.World Value) Value) :
  EZCache.keeps v m -> EZCache.atMostOnce fetcher m.
Proof.
  intros Hm w out w1 Hrun. destruct (Hm w) as (w2 & Hrun2 & Hn).
  rewrite Hrun2 in Hrun. injection Hrun as <- <-. left. eauto.
Qed.

(** The fetcher, followed by steps that keep its value. *)
Lemma atMostOnce_fetcher fetcher (k : Value -> M (EZCache.World Value) Value) :
  (forall v, EZCache.keeps v (k v)) ->
  EZCache.atMostOnce fetcher (bind (EZCache.callFetcher fetcher) k).
Proof.
  intros Hk w out w1. unfold bind, EZCache.callFetcher.
  destruct (fetcher (EZCache.fetcherCalls w)) as [elapsed [v|e]] eqn:Hf.
  - match goal with
    | |- k v ?w0 = _ -> _ => destruct (Hk v w0) as (w2 & Hrun & Hn)
    end.
    rewrite Hrun. intros [= <- <-]. right. simpl in Hn. auto.
  - intros [= <- <-]. right. auto.
Qed.

Lemma atMostOnce_callFetcher fetcher :
  EZCache.atMostOnce fetcher (EZCache.callFetcher fetcher).
Proof.
  intros w out w1. unfold EZCache.callFetcher.
  destruct (fetcher (EZCache.fetcherCalls w)) as [elapsed o] eqn:Hf.
  intros [= <- <-]. right. auto.
Qed.

Lemma atMostOnce_fetchFromDatabase cfg remote fullKey fetcher memoryTtl redisTtl startTime :
  EZCache.atMostOnce fetcher
    (EZCache.fetchFromDatabase cfg remote fullKey fetcher memoryTtl redisTtl startTime).
Proof.
  unfold EZCache.fetchFromDatabase. apply atMostOnce_fetcher. intros v.
  apply keeps_after; [apply quiet_storeInCacheLayers|]. intros _.
  apply keeps_after; [apply quiet_now|]. intros t.
  apply keeps_after; [apply quiet_recordMiss|]. intros _. apply keeps_ret.
Qed.

Lemma atMostOnce_fetchFromRedis cfg remote fullKey fetcher memoryTtl redisTtl startTime :
  EZCache.atMostOnce fetcher
    (EZCache.fetchFromRedis cfg remote fullKey fetcher memoryTtl redisTtl startTime).
Proof.
  unfold EZCache.fetchFromRedis.
  apply atMostOnce_after; [apply quiet_remoteLookup|].
  intros [[d|]|]; try apply atMostOnce_fetchFromDatabase.
  destruct (truthy d); [|apply atMostOnce_fetchFromDatabase].
  apply (atMostOnce_keeps fetcher d).
  apply keeps_after; [apply quiet_memorySet|]. intros _.
  apply keeps_after; [apply quiet_now|]. intros t.
  apply keeps_after; [apply quiet_recordHit|]. intros _. apply keeps_ret.
Qed.

Lemma atMostOnce_fetchFromCacheLayers cfg remote fullKey fetcher memoryTtl redisTtl startTime :
  EZCache.atMostOnce fetcher
    (EZCache.fetchFromCacheLayers cfg remote fullKey fetcher memoryTtl redisTtl startTime).
Proof.
  unfold EZCache.fetchFromCacheLayers.
  apply atMostOnce_after;
    [destruct (ENABLE_MEMORY cfg); [apply quiet_memoryGet | apply quiet_ret]|].
  intros [d|]; try apply atMostOnce_fetchFromRedis.
  destruct (truthy d); [|apply atMostOnce_fetchFromRedis].
  apply (atMostOnce_keeps fetcher d).
  apply keeps_after; [apply quiet_now|]. intros t.
  apply keeps_after; [apply quiet_recordHit|]. intros _. apply keeps_ret.
Qed.

(** X21: whatever the configuration, the options and the state of the tiers,
    a call of [fetch] does one of three things: it answers from a cache tier
    without invoking the fetcher; it invokes the fetcher once and returns
    its value; or the fetcher throws, and [fetch] invokes it a second time
    and ends with the outcome of that second invocation. *)
Theorem fetch_invokes_fetcher cfg remote key fetcher opts w out w' :
  EZCache.fetch cfg remote key fetcher opts w = (out, w') ->
  (EZCache.fetcherCalls w' = EZCache.fetcherCalls w /\ exists v, out = Returned v) \/
  (EZCache.fetcherCalls w' = S (EZCache.fetcherCalls w) /\
   exists d v, fetcher (EZCache.fetcherCalls w) = (d, Returned v) /\ out = Returned v) \/
  (EZCache.fetcherCalls w' = S (S (EZCache.fetcherCalls w)) /\
   exists d e, fetcher (EZCache.fetcherCalls w) = (d, Thrown e) /\
               out = snd (fetcher (S (EZCache.fetcherCalls w)))).
Proof.
  unfold EZCache.fetch, bind at 1, EZCache.now, gets, tryCatch.
  match goal with
  | |- context [match ?body w with _ => _ end] =>
      assert (EZCache.atMostOnce fetcher body) as Hbody
  end.
  { destruct (CacheMode_eqb (CACHE_MODE cfg) DISABLED); [apply atMostOnce_callFetcher|].
    apply atMostOnce_after; [apply quiet_gets|].
    intros [tr|]; [|apply atMostOnce_fetchFromCacheLayers].
    destruct (ENABLE_TRAFFIC_DETECTION cfg && _); [|apply atMostOnce_fetchFromCacheLayers].
    apply atMostOnce_after; [apply quiet_isHighTraffic|].
    intros [|]; simpl; [apply atMostOnce_fetchFromCacheLayers|].
    apply atMostOnce_fetcher. intros v.
    apply keeps_after; [apply quiet_now|]. intros t.
    apply keeps_after; [apply quiet_recordMiss|]. intros _. apply keeps_ret. }
  match goal with
  | |- context [match ?body w with _ => _ end] =>
      destruct (body w) as [[v|e] w1] eqn:Hrun; apply Hbody in Hrun
  end.
  - intros [= <- <-]. destruct Hrun as [[Hn Hv] | [Hn Hv]]; [left; auto|].
    right. left. split; [exact Hn|].
    destruct (fetcher (EZCache.fetcherCalls w)) as [d o]. simpl in Hv. subst o. eauto.
  - destruct Hrun as [[Hn [v Hv]] | [Hn He]]; [discriminate|].
    unfold bind, EZCache.recordError, modify, EZCache.callFetcher. simpl.
    rewrite Hn. destruct (fetcher (S (EZCache.fetcherCalls w))) as [d2 o2].
    intros [= <- <-]. right. right. simpl. split; [reflexivity|].
    destruct (fetcher (EZCache.fetcherCalls w)) as [d o]. simpl in He. subst o. eauto.
Qed.

(** *** Traffic gating *)


(** *** Forced caching *)

(** A remote command that returns leaves the memory store, the traffic
    tracker, the metrics and the fetcher alone. *)
Lemma onRedis_frame {A} (cmd : M Redis.Net A) w out w' :
  EZCache.onRedis cmd w = (out, w') ->
  EZCache.memory w' = EZCache.memory w /\
  EZCache.fetcherCalls w' = EZCache.fetcherCalls w /\
  EZCache.traffic w' = EZCache.traffic w /\
  EZCache.metrics w' = EZCache.metrics w.
Proof.
  unfold EZCache.onRedis. destruct (EZCache.redis w) as [cl|].
  - destruct (cmd _) as [[a|e] s1]; intros [= <- <-]; auto.
  - intros [= <- <-]; auto.
Qed.

Lemma remoteLookup_frame cfg remote fullKey w out w' :
  EZCache.remoteLookup cfg remote fullKey w = (out, w') ->
  EZCache.memory w' = EZCache.memory w /\
  EZCache.fetcherCalls w' = EZCache.fetcherCalls w /\
  EZCache.traffic w' = EZCache.traffic w /\
  EZCache.metrics w' = EZCache.metrics w.
Proof.
  unfold EZCache.remoteLookup. destruct (ENABLE_REDIS cfg).
  - apply onRedis_frame.
  - intros [= <- <-]; auto.
Qed.

Lemma onRedis_returns {A} (cmd : M Redis.Net A) w :
  (forall s, exists a s', cmd s = (Returned a, s')) ->
  exists r w', EZCache.onRedis cmd w = (Returned r, w').
Proof.
  intros Hcmd. unfold EZCache.onRedis. destruct (EZCache.redis w) as [cl|]; [|eauto].
  destruct (Hcmd {| Redis.clock := EZCache.clock w; Redis.netCalls := EZCache.netCalls w;
                    Redis.client := cl |}) as (a & s' & ->). eauto.
Qed.

Lemma forced_options cfg o :
  EZCache.forceCaching o = Some true ->
  EZCache.forceCaching_ (EZCache.parseOptions cfg (EZCache.Options o)) = true.
Proof. simpl. now intros ->. Qed.

(** With forced caching [fetch] goes straight to the cache layers. *)
Lemma fetch_forced cfg remote key fetcher o w :
  CACHE_MODE cfg <> DISABLED ->
  EZCache.forceCaching o = Some true ->
  EZCache.fetch cfg remote key fetcher (EZCache.Options o) w
  = tryCatch
      (EZCache.fetchFromCacheLayers cfg remote ("ez:" ++ key) fetcher
         (EZCache.ttl_ (EZCache.parseOptions cfg (EZCache.Options o)))
         (if ENABLE_REDIS cfg
          then EZCache.ttl_ (EZCache.parseOptions cfg (EZCache.Options o)) * 10
          else EZCache.ttl_ (EZCache.parseOptions cfg (EZCache.Options o)))
         (EZCache.clock w))
      (fun _ => bind (EZCache.recordError cfg) (fun _ => EZCache.callFetcher fetcher))
      w.
Proof.
  intros Hmode Hforce. unfold EZCache.fetch, bind at 1, EZCache.now, gets.
  unfold tryCatch. rewrite (mode_enabled _ Hmode). unfold bind at 1, gets.
  rewrite (forced_options cfg o Hforce), andb_false_r.
  now destruct (EZCache.traffic w).
Qed.


Lemma fetchFromRedis_miss cfg remote fullKey fetcher memoryTtl redisTtl startTime w r wr :
  EZCache.remoteLookup cfg remote fullKey w = (Returned r, wr) ->
  EZCache.remoteHit r = false ->
  EZCache.fetchFromRedis cfg remote fullKey fetcher memoryTtl redisTtl startTime w
  = EZCache.fetchFromDatabase cfg remote fullKey fetcher memoryTtl redisTtl startTime wr.
Proof.
  intros Hlookup Hmiss. unfold EZCache.fetchFromRedis, bind at 1. rewrite Hlookup.
  destruct r as [[d0|]|]; simpl in Hmiss; rewrite ?Hmiss; reflexivity.
Qed.

Lemma storeInCacheLayers_run cfg remote fullKey d memoryTtl redisTtl w m :
  ENABLE_MEMORY cfg = true ->
  EZCache.memory w = Some m ->
  exists w',
    EZCache.storeInCacheLayers cfg remote fullKey d memoryTtl redisTtl w
    = (Returned tt, w') /\
    EZCache.fetcherCalls w' = EZCache.fetcherCalls w /\
    EZCache.memory w'
    = Some (snd (Memory.set cfg (EZCache.clock w) fullKey d
                   (Z.min memoryTtl (MEMORY_TTL_MAX cfg)) m)).
Proof.
  intros Hmem Hm. unfold EZCache.storeInCacheLayers, bind. rewrite Hmem.
  unfold EZCache.memorySet. rewrite Hm.
  destruct (Memory.set cfg (EZCache.clock w) fullKey d _ m) as [ok m1].
  destruct (ENABLE_REDIS cfg).
  - match goal with
    | |- context [EZCache.onRedis ?cmd ?w0] =>
        destruct (onRedis_returns cmd w0) as (r0 & w2 & Hret);
          [intros s; apply RedisFacts.setex_returns|];
          rewrite Hret; apply onRedis_frame in Hret as (Hm2 & Hn2 & _)
    end.
    eexists. split; [reflexivity|]. now rewrite Hm2, Hn2.
  - eexists. split; [reflexivity|]. split; reflexivity.
Qed.

Lemma fetchFromDatabase_run cfg remote fullKey fetcher memoryTtl redisTtl startTime w m d v :
  ENABLE_MEMORY cfg = true ->
  EZCache.memory w = Some m ->
  fetcher (EZCache.fetcherCalls w) = (d, Returned v) ->
  exists w',
    EZCache.fetchFromDatabase cfg remote fullKey fetcher memoryTtl redisTtl startTime w
    = (Returned v, w') /\
    EZCache.fetcherCalls w' = S (EZCache.fetcherCalls w) /\
    EZCache.memory w'
    = Some (snd (Memory.set cfg (EZCache.clock w + d) fullKey v
                   (Z.min memoryTtl (MEMORY_TTL_MAX cfg)) m)).
Proof.
  intros Hmem Hm Hf. unfold EZCache.fetchFromDatabase, bind, EZCache.callFetcher.
  rewrite Hf.
  match goal with
  | |- context [EZCache.storeInCacheLayers _ _ _ _ _ _ ?w0] =>
      destruct (storeInCacheLayers_run cfg remote fullKey v memoryTtl redisTtl w0 m Hmem Hm)
        as (w2 & Hrun & Hn2 & Hm2); rewrite Hrun
  end.
  unfold EZCache.now, gets, EZCache.recordMiss, modify, ret.
  eexists. split; [reflexivity|]. split; [exact Hn2 | exact Hm2].
Qed.

Lemma memoryGet_frame key w out w0 :
  EZCache.memoryGet key w = (out, w0) ->
  EZCache.fetcherCalls w0 = EZCache.fetcherCalls w /\ EZCache.clock w0 = EZCache.clock w.
Proof.
  unfold EZCache.memoryGet. destruct (EZCache.memory w) as [m|].
  - destruct (Memory.get (EZCache.clock w) key m). intros [= <- <-]. auto.
  - intros [= <- <-]. auto.
Qed.



End EZCacheFacts.

(** C1 at the failing input: the fetcher [Sample.flaky] throws the first
    time it is invoked.  [fetch] invokes it a second time and returns 42
    instead of raising, on the low-traffic path and with forced caching
    alike; with [Sample.broken], which always throws, the error reaches
    the caller after two invocations. *)
Theorem failed_fetcher_is_invoked_again :
  EZCache.fetch Sample.production Sample.failsThrice "users" Sample.flaky
    EZCache.NoOptions (Sample.freshWorld Sample.production)
  = (Returned (Sample.JsNum 42),
     snd (EZCache.fetch Sample.production Sample.failsThrice "users" Sample.flaky
            EZCache.NoOptions (Sample.freshWorld Sample.production))) /\
  EZCache.fetcherCalls
    (snd (EZCache.fetch Sample.production Sample.failsThrice "users" Sample.flaky
            EZCache.NoOptions (Sample.freshWorld Sample.production))) = 2%nat /\
  fst (EZCache.fetch Sample.production Sample.failsThrice "users" Sample.flaky
         Sample.forced (Sample.freshWorld Sample.production))
  = Returned (Sample.JsNum 42) /\
  EZCache.fetcherCalls
    (snd (EZCache.fetch Sample.production Sample.failsThrice "users" Sample.flaky
            Sample.forced (Sample.freshWorld Sample.production))) = 2%nat /\
  fst (EZCache.fetch Sample.production Sample.failsThrice "users" Sample.broken
         EZCache.NoOptions (Sample.freshWorld Sample.production))
  = Thrown "Database error"%string /\
  EZCache.fetcherCalls
    (snd (EZCache.fetch Sample.production Sample.failsThrice "users" Sample.broken
            EZCache.NoOptions (Sample.freshWorld Sample.production))) = 2%nat.
Proof. vm_compute. repeat split; reflexivity. Qed.




End EZCacheFacts.

(** * Further properties *)

(** ** The configuration *)

Module ConfigFacts.

(** X1: the remote tier is enabled exactly when the client library and its
    credentials are there, [CACHE_ENABLE_REDIS] is not ['false'], and the
    strategy in force is not ['memory-only']. *)
Theorem remote_tier_needs_dependency e :
  ENABLE_REDIS (CACHE_CONFIG e) = true <->
  redisDependencyAvailable e = true /\
  CACHE_ENABLE_REDIS e = true /\
  cacheStrategy (getSmartDefaults e) <> memory_only.
Proof.
  unfold CACHE_CONFIG, applyCacheStrategy. cbn [ENABLE_REDIS].
  destruct (cacheStrategy (getSmartDefaults e)) eqn:Hs; cbn [enableRedis getSmartDefaults];
    rewrite ?andb_true_iff; split; try tauto; try (intros (? & ? & ?); split; tauto);
    try (intros [? ?]; repeat split; try assumption; discriminate);
    try discriminate.
Qed.

(** X2: whatever the environment, the configuration is usable: the memory
    store has room for at least 140 entries, the traffic threshold is at
    least 1, and no entry stays in memory for more than 300 seconds. *)
Theorem configuration_is_usable e :
  140 <= MEMORY_SIZE (CACHE_CONFIG e) <= 10000 /\
  1 <= TRAFFIC_THRESHOLD (CACHE_CONFIG e) <= 200 /\
  60 <= DEFAULT_TTL (CACHE_CONFIG e) <= 900 /\
  120 <= MEMORY_TTL_MAX (CACHE_CONFIG e) <= 300.
Proof.
  destruct e as [env strategy ? ? ? ? ? ? ? ? ? ? ? ?].
  destruct env; destruct strategy as [[]|]; vm_compute;
    repeat split; intros Hgt; discriminate Hgt.
Qed.

End ConfigFacts.

(** ** More on the association list *)

Module MapFacts.
Section MapFacts.
Context {V : Type}.
Implicit Types (m : list (string * V)) (k : string) (v : V).

Lemma get_absent_key k m : ~ In k (map fst m) -> JsMap.get k m = None.
Proof.
  induction m as [|[k0 v0] r IH]; [reflexivity|]. simpl. intros Hnot.
  rewrite JsMapFacts.get_cons. destruct (String.eqb k0 k) eqn:E.
  - apply String.eqb_eq in E. tauto.
  - apply IH. tauto.
Qed.

Lemma length_delete_present k v m :
  JsMap.wf m -> JsMap.get k m = Some v ->
  S (List.length (JsMap.delete k m)) = List.length m.
Proof.
  unfold JsMap.wf. induction m as [|[k0 v0] r IH]; [discriminate|].
  simpl map. intros Hnd. inversion Hnd as [|? ? Hnotin Hnd']; subst.
  rewrite JsMapFacts.get_cons, JsMapFacts.delete_cons.
  destruct (String.eqb k0 k) eqn:E.
  - apply String.eqb_eq in E; subst k0. intros _.
    rewrite JsMapFacts.delete_absent by now apply get_absent_key. reflexivity.
  - intros Hr. simpl. now rewrite IH.
Qed.

End MapFacts.

End MapFacts.

(** ** The memory store: accounting, round trips, eviction *)

Module StoreFacts.
Section StoreFacts.
Context {Value : Type} `{JsValue Value}.
Implicit Types (st : Memory.ProductionMemoryCache Value) (key : string).

(** *** The size account *)

Lemma sizeSum_delete key (m : list (string * Memory.CacheItem Value)) item :
  JsMap.wf m -> JsMap.get key m = Some item ->
  Memory.sizeSum (JsMap.delete key m) = Memory.sizeSum m - Memory.sizeBytes item.
Proof.
  unfold JsMap.wf. induction m as [|[k0 v0] r IH]; [discriminate|].
  simpl map. intros Hnd. inversion Hnd as [|? ? Hnotin Hnd']; subst.
  rewrite JsMapFacts.get_cons, JsMapFacts.delete_cons.
  destruct (String.eqb k0 key) eqn:E.
  - apply String.eqb_eq in E; subst k0. intros [= ->].
    rewrite JsMapFacts.delete_absent by now apply MapFacts.get_absent_key.
    simpl. lia.
  - intros Hr. simpl. rewrite IH by assumption. lia.
Qed.

Lemma sizeSum_set key (m : list (string * Memory.CacheItem Value)) item :
  Memory.sizeSum (JsMap.set key item m)
  = match JsMap.get key m with
    | Some old => Memory.sizeSum m - Memory.sizeBytes old
    | None => Memory.sizeSum m
    end + Memory.sizeBytes item.
Proof.
  induction m as [|[k0 v0] r IH]; [simpl; lia|].
  simpl JsMap.set. rewrite JsMapFacts.get_cons.
  destruct (String.eqb k0 key); simpl; [lia|].
  rewrite IH. destruct (JsMap.get key r); lia.
Qed.

Lemma tallied_delete key st : Memory.tallied st -> Memory.tallied (snd (Memory.delete key st)).
Proof.
  intros [Hwf Hsum]. split; [now apply MemoryFacts.wf_delete|].
  unfold Memory.delete. destruct (JsMap.get key (Memory.cache st)) as [item|] eqn:E; simpl.
  - rewrite (sizeSum_delete _ _ _ Hwf E). lia.
  - exact Hsum.
Qed.

Lemma tallied_sweep (ks : list string) st :
  Memory.tallied st -> Memory.tallied (fold_left (fun s key => snd (Memory.delete key s)) ks st).
Proof.
  revert st. induction ks as [|k ks IH]; intros st Ht; simpl; [exact Ht|].
  apply IH. now apply tallied_delete.
Qed.

Lemma tallied_cleanupExpired now st : Memory.tallied st -> Memory.tallied (Memory.cleanupExpired now st).
Proof.
  intros Ht. unfold Memory.cleanupExpired.
  destruct (now - Memory.lastCleanup st <? 10000); [exact Ht|].
  match goal with
  | |- context [fold_left ?f ?ks st] => destruct (tallied_sweep ks st Ht) as [Hwf Hsum]
  end.
  split; [exact Hwf | exact Hsum].
Qed.

Lemma tallied_evictLRU now st b st' :
  Memory.evictLRU now st = (b, st') -> Memory.tallied st -> Memory.tallied st'.
Proof.
  destruct b; intros Hev Ht.
  - apply MemoryFacts.evictLRU_true in Hev as (k & _ & _ & _ & _ & ->).
    now apply tallied_delete.
  - now apply MemoryFacts.evictLRU_false in Hev as ->.
Qed.

Lemma tallied_makeRoomLoop cfg now fuel st :
  Memory.tallied st -> Memory.tallied (Memory.makeRoomLoop fuel cfg now st).
Proof.
  revert st. induction fuel as [|fuel IH]; intros st Ht; simpl; [exact Ht|].
  destruct (Memory.size st >=? MEMORY_SIZE cfg); [|exact Ht].
  destruct (Memory.evictLRU now st) as [[] st'] eqn:Ev.
  - apply IH. eapply tallied_evictLRU; eassumption.
  - eapply tallied_evictLRU; eassumption.
Qed.

Lemma tallied_set cfg now key d ttlSeconds st :
  Memory.tallied st -> Memory.tallied (snd (Memory.set cfg now key d ttlSeconds st)).
Proof.
  intros Ht. split; [apply MemoryFacts.wf_set, Ht|].
  unfold Memory.set.
  destruct (Memory.estimateSize d >? MAX_VALUE_SIZE cfg); [apply Ht|].
  pose proof (tallied_makeRoomLoop cfg now
                (S (List.length (Memory.cache (Memory.cleanupExpired now st))))
                _ (tallied_cleanupExpired now st Ht)) as [_ Hsum].
  fold (Memory.makeRoom cfg now (Memory.cleanupExpired now st)) in Hsum.
  cbn [snd Memory.totalSize Memory.cache]. rewrite sizeSum_set.
  cbn [Memory.sizeBytes].
  destruct (JsMap.get key _); lia.
Qed.

Lemma tallied_get now key st : Memory.tallied st -> Memory.tallied (snd (Memory.get now key st)).
Proof.
  intros Ht. split; [apply MemoryFacts.wf_get, Ht|].
  unfold Memory.get.
  destruct (JsMap.get key (Memory.cache st)) as [item|] eqn:E; [|apply Ht].
  destruct (now >? Memory.expires item); [now apply tallied_delete|].
  cbn [snd Memory.totalSize Memory.cache]. rewrite sizeSum_set, E.
  cbn [Memory.touch Memory.sizeBytes]. destruct Ht as [_ ->]. lia.
Qed.

Lemma tallied_step cfg now op st : Memory.tallied st -> Memory.tallied (Memory.step cfg now op st).
Proof.
  destruct op; simpl; auto using tallied_set, tallied_get, tallied_delete.
  intros _. split; [constructor | reflexivity].
Qed.

(** X3: whatever operations run on a new store, [totalSize] is the sum of
    the sizes of the entries the store holds. *)
Theorem total_size_is_sum cfg ops now :
  Memory.totalSize (Memory.run (Value:=Value) cfg ops (Memory.create now))
  = Memory.sizeSum (Memory.cache (Memory.run cfg ops (Memory.create now))).
Proof.
  assert (Memory.tallied (Memory.create (Value:=Value) now)) as Ht
    by (split; [constructor | reflexivity]).
  revert Ht. generalize (Memory.create (Value:=Value) now). unfold Memory.run.
  induction ops as [|[t op] ops IH]; intros st Ht; simpl; [apply Ht|].
  apply IH. now apply tallied_step.
Qed.

(** *** Writing, reading, deleting *)

(** X4: a value the store accepts can be read back under its key until the
    entry expires, [min(ttlSeconds, MEMORY_TTL_MAX)] seconds after the
    write; the read is the entry's second hit. *)
Theorem set_then_get cfg now key d ttlSeconds st now' :
  Memory.estimateSize d <= MAX_VALUE_SIZE cfg ->
  now' <= now + Z.min ttlSeconds (MEMORY_TTL_MAX cfg) * 1000 ->
  fst (Memory.set cfg now key d ttlSeconds st) = true /\
  fst (Memory.get now' key (snd (Memory.set cfg now key d ttlSeconds st))) = Some d /\
  option_map Memory.hitCount
    (JsMap.get key
       (Memory.cache
          (snd (Memory.get now' key (snd (Memory.set cfg now key d ttlSeconds st))))))
  = Some 2.
Proof.
  intros Hsize Hlive. unfold Memory.set.
  replace (Memory.estimateSize d >? MAX_VALUE_SIZE cfg) with false by (symmetry; lia).
  cbn [fst snd]. split; [reflexivity|].
  unfold Memory.get. cbn [Memory.cache]. rewrite JsMapFacts.get_set_eq.
  cbn [Memory.expires Memory.data].
  replace (now' >? _) with false by (symmetry; lia).
  cbn [fst snd Memory.cache]. split; [reflexivity|].
  now rewrite JsMapFacts.get_set_eq.
Qed.




(** [delete] answers whether the key was stored; afterwards the key is
    absent, every other key is as it was, and [size()] has gone down by
    one exactly when the key was stored. *)
Theorem delete_removes_the_key key st :
  Memory.wf st ->
  fst (Memory.delete key st)
    = match JsMap.get key (Memory.cache st) with Some _ => true | None => false end /\
  JsMap.get key (Memory.cache (snd (Memory.delete key st))) = None /\
  (forall k', k' <> key ->
     JsMap.get k' (Memory.cache (snd (Memory.delete key st)))
     = JsMap.get k' (Memory.cache st)) /\
  Memory.size (snd (Memory.delete key st))
    = Memory.size st - (if fst (Memory.delete key st) then 1 else 0).
Proof.
  intros Hwf. split; [|split; [|split]].
  - unfold Memory.delete. now destruct (JsMap.get key (Memory.cache st)).
  - rewrite MemoryFacts.delete_cache. apply JsMapFacts.get_delete_eq.
  - intros k' Hne. rewrite MemoryFacts.delete_cache.
    now apply JsMapFacts.get_delete_ne.
  - unfold Memory.delete, Memory.size.
    destruct (JsMap.get key (Memory.cache st)) as [item|] eqn:E; cbn [fst snd Memory.cache].
    + pose proof (MapFacts.length_delete_present _ _ _ Hwf E). lia.
    + lia.
Qed.

(** *** What a write leaves in place *)

Lemma sweep_get (ks : list string) st k :
  ~ In k ks ->
  JsMap.get k (Memory.cache (fold_left (fun s key => snd (Memory.delete key s)) ks st))
  = JsMap.get k (Memory.cache st).
Proof.
  revert st. induction ks as [|k0 ks IH]; intros st Hnot; simpl; [reflexivity|].
  simpl in Hnot. rewrite IH by tauto. rewrite MemoryFacts.delete_cache.
  apply JsMapFacts.get_delete_ne. tauto.
Qed.

Lemma sweep_length (ks : list string) st :
  (List.length (Memory.cache (fold_left (fun s key => snd (Memory.delete key s)) ks st))
   <= List.length (Memory.cache st))%nat.
Proof.
  revert st. induction ks as [|k0 ks IH]; intros st; simpl; [lia|].
  etransitivity; [apply IH|]. rewrite MemoryFacts.delete_cache.
  apply JsMapFacts.length_delete_le.
Qed.

Lemma cleanupExpired_size now st :
  Memory.size (Memory.cleanupExpired now st) <= Memory.size st.
Proof.
  unfold Memory.cleanupExpired, Memory.size.
  destruct (now - Memory.lastCleanup st <? 10000); [lia|]. cbn [Memory.cache].
  match goal with |- context [fold_left ?f ?ks st] => pose proof (sweep_length ks st) end.
  lia.
Qed.

(** The sweep keeps every entry that has not expired. *)
Lemma cleanupExpired_keeps_live now st k item :
  Memory.wf st -> JsMap.get k (Memory.cache st) = Some item ->
  now <= Memory.expires item ->
  JsMap.get k (Memory.cache (Memory.cleanupExpired now st)) = Some item.
Proof.
  intros Hwf Hget Hlive. unfold Memory.cleanupExpired.
  destruct (now - Memory.lastCleanup st <? 10000); [exact Hget|]. cbn [Memory.cache].
  rewrite sweep_get; [exact Hget|].
  intros Hin. apply in_map_iff in Hin as ([k0 it0] & Hk & Hin). simpl in Hk. subst k0.
  apply filter_In in Hin as [Hin Hexp]. cbn [snd] in Hexp.
  apply (JsMapFacts.In_get _ _ _ Hwf) in Hin.
  assert (it0 = item) as -> by congruence. lia.
Qed.

(** X6: while there is room a write removes no live entry: an entry under
    another key that has not expired is still there, unchanged. *)
Theorem set_keeps_live_entries_while_room cfg now key d ttlSeconds st k' item' :
  Memory.wf st ->
  Memory.size st < MEMORY_SIZE cfg ->
  k' <> key ->
  JsMap.get k' (Memory.cache st) = Some item' ->
  now <= Memory.expires item' ->
  JsMap.get k' (Memory.cache (snd (Memory.set cfg now key d ttlSeconds st))) = Some item'.
Proof.
  intros Hwf Hroom Hne Hget Hlive. unfold Memory.set.
  destruct (Memory.estimateSize d >? MAX_VALUE_SIZE cfg); [exact Hget|].
  cbn [snd Memory.cache]. rewrite JsMapFacts.get_set_ne by congruence.
  unfold Memory.makeRoom. cbn [Memory.makeRoomLoop].
  pose proof (cleanupExpired_size now st) as Hle.
  replace (Memory.size (Memory.cleanupExpired now st) >=? MEMORY_SIZE cfg) with false
    by (symmetry; rewrite Z.geb_leb; apply Z.leb_gt; lia).
  now apply cleanupExpired_keeps_live.
Qed.


End StoreFacts.

(** A value written at time 1000 with a TTL of 60 seconds is read back
    at time 61000. *)
Lemma set_then_get_witness :
  fst (Memory.set Sample.production 1000 "a" (Sample.JsNum 5) 60 (Memory.create 1000)) = true /\
  fst (Memory.get 61000 "a" Sample.oneEntry) = Some (Sample.JsNum 5).
Proof.
  destruct (set_then_get Sample.production 1000 "a" (Sample.JsNum 5) 60
              (Memory.create 1000) 61000) as (Hset & Hget & _);
    [vm_compute; discriminate | vm_compute; discriminate |].
  split; [exact Hset | exact Hget].
Defined.


Lemma delete_removes_the_key_witness :
  fst (Memory.delete "a" Sample.oneEntry) = true /\
  Memory.size (snd (Memory.delete "a" Sample.oneEntry)) = 0.
Proof.
  assert (Memory.wf Sample.oneEntry) as Hwf
    by apply MemoryFacts.wf_set, MemoryFacts.wf_create.
  destruct (delete_removes_the_key "a" Sample.oneEntry Hwf) as (Hret & _ & _ & Hsize).
  split; [exact Hret | exact Hsize].
Defined.

(** Writing ["b"] at time 2000 leaves the entry under ["a"] as it was. *)
Lemma set_keeps_live_entries_while_room_witness :
  JsMap.get "a"
    (Memory.cache (snd (Memory.set Sample.production 2000 "b" (Sample.JsNum 6) 60
                          Sample.oneEntry)))
  = Some Sample.oneEntryItem.
Proof.
  apply (set_keeps_live_entries_while_room Sample.production 2000 "b" (Sample.JsNum 6) 60
           Sample.oneEntry "a" Sample.oneEntryItem).
  - apply MemoryFacts.wf_set, MemoryFacts.wf_create.
  - vm_compute. reflexivity.
  - discriminate.
  - reflexivity.
  - vm_compute. discriminate.
Defined.


Lemma setsFrom_ok now keys :
  0 <= now -> now + Z.of_nat (List.length keys) < 2 ^ 53 ->
  Forall (fun k => k <> EmptyString) keys ->
  Forall Memory.opOk (Sample.setsFrom now keys).
Proof.
  intros Hnow Hend Hkeys. revert now Hnow Hend.
  induction Hkeys as [|k keys Hk _ IH]; intros now Hnow Hend; simpl; constructor.
  - split; [|exact Hk]. simpl in *. lia.
  - apply IH; [lia|]. simpl List.length in Hend. lia.
Qed.

Lemma keyOf_not_empty (ns : list nat) :
  Forall (fun k => k <> EmptyString) (map Sample.keyOf ns).
Proof.
  apply List.Forall_forall. intros k (n & <- & _)%in_map_iff.
  unfold Sample.keyOf. discriminate.
Qed.

(** With the 140 entries [devConservative] allows, 150 writes of the
    keys ["k1"] to ["k150"] leave at most 140 entries. *)
Lemma capacity_bound_nonempty_keys_witness :
  Memory.size
    (Memory.run Sample.devConservative (Sample.setsFrom 1000 (map Sample.keyOf (seq 1 150)))
       (Memory.create 1000)) <= 140.
Proof.
  destruct (MemoryFacts.capacity_bound_nonempty_keys Sample.devConservative
              (Sample.setsFrom 1000 (map Sample.keyOf (seq 1 150))) (Memory.create 1000))
    as [Hsize _].
  - vm_compute. discriminate.
  - vm_compute. discriminate.
  - apply setsFrom_ok; [lia | vm_compute; reflexivity | apply keyOf_not_empty].
  - split; [vm_compute; discriminate | constructor].
  - exact Hsize.
Defined.

End StoreFacts.

(** ** The traffic tracker *)

Module TrafficFacts.

#[local] Arguments Z.mul : simpl never.
#[local] Arguments Z.add : simpl never.
#[local] Arguments Z.sub : simpl never.

Lemma filter_twice {A} (f : A -> bool) (l : list A) :
  List.filter f (List.filter f l) = List.filter f l.
Proof.
  induction l as [|a l IH]; [reflexivity|]. simpl.
  destruct (f a) eqn:E; simpl; rewrite ?E, IH; reflexivity.
Qed.

Lemma filter_all {A} (f : A -> bool) (l : list A) :
  Forall (fun a => f a = true) l -> List.filter f l = l.
Proof.
  induction 1 as [|a l Ha _ IH]; [reflexivity|]. simpl. now rewrite Ha, IH.
Qed.

Lemma track_count cfg now key tr :
  fst (Traffic.track cfg now key tr)
  = Z.of_nat (List.length
                (List.filter (Traffic.inWindow cfg now)
                   (Traffic.timestamps (Traffic.recordOf now key tr)))) + 1.
Proof.
  unfold Traffic.track, Traffic.recordOf. cbn [fst].
  destruct (Traffic.requests tr !! key) as [d|];
    destruct (_ >? TRACKER_CLEANUP_MS cfg);
    cbn [Traffic.timestamps Traffic.cleanupEndpoint];
    rewrite ?filter_twice, length_app; simpl; lia.
Qed.

(** [track] answers one more than [getCurrentCount] does just before:
    the requests of the endpoint inside the window, and the current one. *)
Theorem track_counts_window cfg now key tr :
  fst (Traffic.track cfg now key tr) = Traffic.getCurrentCount cfg now key tr + 1.
Proof.
  rewrite track_count. unfold Traffic.getCurrentCount, Traffic.recordOf.
  now destruct (Traffic.requests tr !! key).
Qed.

(** X9: when the global sweep is due, the first request of an endpoint is
    lost: [track] answers 1, but the sweep has dropped the record it has
    just created, so the tracker does not know the endpoint. *)
Theorem first_request_lost_on_sweep cfg now key tr :
  Traffic.requests tr !! key = None ->
  TRACKER_CLEANUP_MS cfg * 2 < now - Traffic.lastGlobalCleanup tr ->
  fst (Traffic.track cfg now key tr) = 1 /\
  Traffic.requests (snd (Traffic.track cfg now key tr)) !! key = None /\
  Traffic.getCurrentCount cfg now key (snd (Traffic.track cfg now key tr)) = 0.
Proof.
  intros Hnew Hdue.
  assert (Traffic.requests (snd (Traffic.track cfg now key tr)) !! key = None) as Hgone.
  { unfold Traffic.track. cbn [snd Traffic.requests]. rewrite Hnew.
    replace (now - Traffic.lastGlobalCleanup tr >? TRACKER_CLEANUP_MS cfg * 2) with true
      by (symmetry; lia).
    match goal with
    | |- match ?m !! key with _ => _ end !! key = None =>
        assert (m !! key = None) as Hm; [|now rewrite Hm]
    end.
    unfold Traffic.globalCleanup. apply map_lookup_filter_None. right.
    intros d. rewrite lookup_insert_eq. intros [= <-]. cbn [snd].
    destruct (_ >? TRACKER_CLEANUP_MS cfg); discriminate. }
  split; [|split; [exact Hgone|]].
  - rewrite track_counts_window. unfold Traffic.getCurrentCount. now rewrite Hnew.
  - unfold Traffic.getCurrentCount. now rewrite Hgone.
Qed.

(** X10: [track] leaves the records of the other endpoints alone, except
    that a sweep, when it is due, drops those that are inactive. *)
Theorem track_other_endpoints cfg now key tr k' :
  k' <> key ->
  Traffic.requests (snd (Traffic.track cfg now key tr)) !! k'
  = match Traffic.requests tr !! k' with
    | Some d =>
        if (now - Traffic.lastGlobalCleanup tr >? TRACKER_CLEANUP_MS cfg * 2)
           && Traffic.inactive cfg now d
        then None else Some d
    | None => None
    end.
Proof.
  intros Hne. unfold Traffic.track. cbn [snd Traffic.requests].
  match goal with
  | |- match ?m !! key with _ => _ end !! k' = _ =>
      destruct (m !! key);
        [rewrite lookup_insert_ne by congruence|]
  end;
    (destruct (now - Traffic.lastGlobalCleanup tr >? TRACKER_CLEANUP_MS cfg * 2);
     cbn [andb];
     [ unfold Traffic.globalCleanup;
       destruct (Traffic.requests tr !! k') as [d|] eqn:Hk;
       [ destruct (Traffic.inactive cfg now d) eqn:Hin;
         [ apply map_lookup_filter_None; right; intros d';
           rewrite lookup_insert_ne by congruence; rewrite Hk; intros [= <-];
           cbn [snd]; congruence
         | apply map_lookup_filter_Some; split;
           [now rewrite lookup_insert_ne by congruence | exact Hin] ]
       | apply map_lookup_filter_None; left;
         now rewrite lookup_insert_ne by congruence ]
     | rewrite lookup_insert_ne by congruence;
       now destruct (Traffic.requests tr !! k') ]).
Qed.

(** *** A burst of requests *)

Lemma track_in_burst cfg now key tr t0 n :
  Traffic.counted t0 key n tr ->
  t0 <= now < t0 + WINDOW_MS cfg ->
  now - Traffic.lastGlobalCleanup tr <= TRACKER_CLEANUP_MS cfg * 2 ->
  fst (Traffic.track cfg now key tr) = Z.of_nat (S n) /\
  Traffic.counted t0 key (S n) (snd (Traffic.track cfg now key tr)) /\
  Traffic.lastGlobalCleanup (snd (Traffic.track cfg now key tr))
  = Traffic.lastGlobalCleanup tr.
Proof.
  intros Hc Hnow Hquiet.
  assert (List.filter (Traffic.inWindow cfg now) (Traffic.timestamps (Traffic.recordOf now key tr))
          = Traffic.timestamps (Traffic.recordOf now key tr) /\
          List.length (Traffic.timestamps (Traffic.recordOf now key tr)) = n /\
          Forall (fun t => t0 <= t) (Traffic.timestamps (Traffic.recordOf now key tr)))
    as (Hall & Hlen & Hfrom).
  { unfold Traffic.counted, Traffic.recordOf in *.
    destruct (Traffic.requests tr !! key) as [d|].
    - destruct Hc as [Hlen Hfrom]. split; [|auto]. apply filter_all.
      eapply List.Forall_impl; [|exact Hfrom]. intros t Ht. unfold Traffic.inWindow. cbn beta in *. lia.
    - subst n. repeat split; constructor. }
  split; [rewrite track_count, Hall, Hlen; lia|].
  unfold Traffic.track. fold (Traffic.recordOf now key tr).
  replace (now - Traffic.lastGlobalCleanup tr >? TRACKER_CLEANUP_MS cfg * 2) with false
    by (symmetry; lia).
  cbn [snd Traffic.requests Traffic.lastGlobalCleanup]. split; [|reflexivity].
  unfold Traffic.counted. cbn [Traffic.requests]. rewrite lookup_insert_eq, lookup_insert_eq.
  cbn [Traffic.timestamps].
  destruct (_ >? TRACKER_CLEANUP_MS cfg);
    cbn [Traffic.timestamps Traffic.cleanupEndpoint];
    rewrite ?filter_twice, Hall, length_app, Hlen; simpl;
    (split; [lia | apply Forall_app; split; [exact Hfrom | repeat constructor; lia]]).
Qed.

Lemma requestsAt_in_burst cfg key customThreshold times t0 :
  forall tr n,
    Traffic.counted t0 key n tr ->
    Forall (fun t => t0 <= t < t0 + WINDOW_MS cfg /\
                     t - Traffic.lastGlobalCleanup tr <= TRACKER_CLEANUP_MS cfg * 2) times ->
    fst (Traffic.requestsAt cfg key customThreshold times tr)
    = map (fun i => Z.of_nat i >=? Traffic.effectiveThreshold cfg customThreshold)
        (seq (S n) (List.length times)).
Proof.
  induction times as [|now rest IH]; intros tr n Hc Hall; [reflexivity|].
  inversion Hall as [|? ? [Hnow Hquiet] Hrest]; subst.
  destruct (track_in_burst cfg now key tr t0 n Hc Hnow Hquiet) as (Hcount & Hc' & Hsame).
  cbn [Traffic.requestsAt]. unfold Traffic.isHighTraffic.
  destruct (Traffic.track cfg now key tr) as [count tr1]. cbn [fst snd] in *.
  specialize (IH tr1 (S n) Hc').
  destruct (Traffic.requestsAt cfg key customThreshold rest tr1) as [highs tr2].
  cbn [fst] in *. cbn [List.length seq map]. rewrite Hcount. f_equal.
  apply IH. now rewrite Hsame.
Qed.

(** X11: the requests of a burst are counted one by one: for an endpoint the
    tracker does not know yet, with all requests inside one window and no
    global sweep due, the [i]-th call of [isHighTraffic] answers whether [i]
    has reached the threshold. *)
Theorem burst_is_counted cfg key customThreshold times tr t0 :
  Traffic.requests tr !! key = None ->
  Forall (fun t => t0 <= t < t0 + WINDOW_MS cfg /\
                   t - Traffic.lastGlobalCleanup tr <= TRACKER_CLEANUP_MS cfg * 2) times ->
  fst (Traffic.requestsAt cfg key customThreshold times tr)
  = map (fun i => Z.of_nat i >=? Traffic.effectiveThreshold cfg customThreshold)
      (seq 1 (List.length times)).
Proof.
  intros Hnew Hall. apply (requestsAt_in_burst cfg key customThreshold times t0 tr 0).
  - unfold Traffic.counted. now rewrite Hnew.
  - exact Hall.
Qed.

(** In production the sweep is due 600 seconds after the tracker was made.
    The first request then, for a new endpoint, is answered with 1 and
    forgotten. *)
Lemma first_request_lost_on_sweep_witness :
  fst (Traffic.track Sample.production 700000 "users" (Traffic.create 1000)) = 1 /\
  Traffic.getCurrentCount Sample.production 700000 "users"
    (snd (Traffic.track Sample.production 700000 "users" (Traffic.create 1000))) = 0.
Proof.
  destruct (first_request_lost_on_sweep Sample.production 700000 "users"
              (Traffic.create 1000)) as (Hone & _ & Hzero);
    [reflexivity | vm_compute; reflexivity |].
  split; [exact Hone | exact Hzero].
Defined.

(** A request for ["b"] leaves what the tracker knows of ["a"]. *)
Lemma track_other_endpoints_witness :
  Traffic.requests
    (snd (Traffic.track Sample.production 2000 "b"
            (snd (Traffic.track Sample.production 1000 "a" (Traffic.create 1000)))))
    !! "a"%string
  = Traffic.requests (snd (Traffic.track Sample.production 1000 "a" (Traffic.create 1000)))
    !! "a"%string.
Proof.
  etransitivity.
  - apply (track_other_endpoints Sample.production 2000 "b"
             (snd (Traffic.track Sample.production 1000 "a" (Traffic.create 1000))) "a").
    discriminate.
  - vm_compute. reflexivity.
Defined.

(** In production, without options, the threshold is 100: of 100
    requests one millisecond apart, the first 99 are low traffic and the
    100th is high traffic. *)
Lemma burst_is_counted_witness :
  fst (Traffic.requestsAt Sample.production "users" None
         (map Z.of_nat (seq 1000 100)) (Traffic.create 1000))
  = repeat false 99 ++ [true].
Proof.
  etransitivity.
  - apply (burst_is_counted Sample.production "users" None
             (map Z.of_nat (seq 1000 100)) (Traffic.create 1000) 1000); [reflexivity|].
    apply List.Forall_forall. intros t (n & <- & Hn%in_seq)%in_map_iff.
    change (WINDOW_MS Sample.production) with 60000.
    change (TRACKER_CLEANUP_MS Sample.production) with 300000.
    change (Traffic.lastGlobalCleanup (Traffic.create 1000)) with 1000. lia.
  - vm_compute. reflexivity.
Defined.

End TrafficFacts.

(** ** The metrics collector *)

Module MetricsFacts.

Lemma recordResponseTime_counts time pm :
  Metrics.hits (Metrics.metrics (Metrics.recordResponseTime time pm))
    = Metrics.hits (Metrics.metrics pm) /\
  Metrics.misses (Metrics.metrics (Metrics.recordResponseTime time pm))
    = Metrics.misses (Metrics.metrics pm) /\
  Metrics.errors (Metrics.metrics (Metrics.recordResponseTime time pm))
    = Metrics.errors (Metrics.metrics pm) /\
  Metrics.totalRequests (Metrics.metrics (Metrics.recordResponseTime time pm))
    = Metrics.totalRequests (Metrics.metrics pm).
Proof. repeat split. Qed.

Lemma recordResponseTime_times time pm :
  Metrics.responseTimes (Metrics.recordResponseTime time pm)
  = Metrics.lastn 1000 (Metrics.responseTimes pm ++ [time]).
Proof.
  unfold Metrics.recordResponseTime, Metrics.lastn. cbn [Metrics.responseTimes].
  destruct (1000 <? _)%nat eqn:E; [reflexivity|].
  apply Nat.ltb_ge in E.
  replace (List.length (Metrics.responseTimes pm ++ [time]) - 1000)%nat with 0%nat by lia.
  reflexivity.
Qed.

Lemma lastn_length {A} n (l : list A) : (List.length (Metrics.lastn n l) <= n)%nat.
Proof. unfold Metrics.lastn. rewrite length_skipn. lia. Qed.

Lemma consistent_record cfg ev pm : Metrics.consistent pm -> Metrics.consistent (Metrics.record cfg ev pm).
Proof.
  intros (Hsum & Hh & Hm & He & Hlen).
  destruct ev as [t | t | | t]; cbn [Metrics.record];
    unfold Metrics.recordHit, Metrics.recordMiss, Metrics.recordError, Metrics.reset;
    try (destruct (negb (ENABLE_METRICS cfg)); [repeat split; assumption|]).
  - unfold Metrics.consistent. rewrite recordResponseTime_times.
    destruct (recordResponseTime_counts t
                {| Metrics.metrics :=
                     {| Metrics.hits := Metrics.hits (Metrics.metrics pm) + 1;
                        Metrics.misses := Metrics.misses (Metrics.metrics pm);
                        Metrics.errors := Metrics.errors (Metrics.metrics pm);
                        Metrics.totalRequests := Metrics.totalRequests (Metrics.metrics pm) + 1;
                        Metrics.avgResponseTime := Metrics.avgResponseTime (Metrics.metrics pm);
                        Metrics.lastReset := Metrics.lastReset (Metrics.metrics pm) |};
                   Metrics.responseTimes := Metrics.responseTimes pm |})
      as (-> & -> & -> & ->).
    cbn. repeat split; try lia. apply lastn_length.
  - unfold Metrics.consistent. rewrite recordResponseTime_times.
    destruct (recordResponseTime_counts t
                {| Metrics.metrics :=
                     {| Metrics.hits := Metrics.hits (Metrics.metrics pm);
                        Metrics.misses := Metrics.misses (Metrics.metrics pm) + 1;
                        Metrics.errors := Metrics.errors (Metrics.metrics pm);
                        Metrics.totalRequests := Metrics.totalRequests (Metrics.metrics pm) + 1;
                        Metrics.avgResponseTime := Metrics.avgResponseTime (Metrics.metrics pm);
                        Metrics.lastReset := Metrics.lastReset (Metrics.metrics pm) |};
                   Metrics.responseTimes := Metrics.responseTimes pm |})
      as (-> & -> & -> & ->).
    cbn. repeat split; try lia. apply lastn_length.
  - unfold Metrics.consistent. cbn. repeat split; lia.
  - unfold Metrics.consistent. cbn. repeat split; lia.
Qed.

(** X12: whatever is recorded on a new collector, resets included, the
    requests counted are the hits, the misses and the errors together, and
    the collector holds at most 1000 response times. *)
Theorem requests_add_up cfg evs now :
  Metrics.hits (Metrics.metrics (Metrics.recordAll cfg evs (Metrics.create now)))
    + Metrics.misses (Metrics.metrics (Metrics.recordAll cfg evs (Metrics.create now)))
    + Metrics.errors (Metrics.metrics (Metrics.recordAll cfg evs (Metrics.create now)))
  = Metrics.totalRequests (Metrics.metrics (Metrics.recordAll cfg evs (Metrics.create now))) /\
  (List.length (Metrics.responseTimes (Metrics.recordAll cfg evs (Metrics.create now)))
   <= 1000)%nat.
Proof.
  assert (Metrics.consistent (Metrics.create now)) as Hb by (unfold Metrics.consistent; cbn; repeat split; lia).
  revert Hb. generalize (Metrics.create now). unfold Metrics.recordAll.
  induction evs as [|ev evs IH]; intros pm Hb; simpl.
  - destruct Hb as (Hsum & _ & _ & _ & Hlen). auto.
  - apply IH. now apply consistent_record.
Qed.

(** *** The window of response times *)

Lemma lastn_all {A} n (l : list A) : (List.length l <= n)%nat -> Metrics.lastn n l = l.
Proof.
  intros Hle. unfold Metrics.lastn.
  replace (List.length l - n)%nat with 0%nat by lia. reflexivity.
Qed.

Lemma lastn_push {A} n (l : list A) (x : A) :
  (0 < n)%nat ->
  Metrics.lastn n (Metrics.lastn n l ++ [x]) = Metrics.lastn n (l ++ [x]).
Proof.
  intros Hn. destruct (le_lt_dec (List.length l) n) as [Hle | Hgt].
  - now rewrite (lastn_all n l Hle).
  - unfold Metrics.lastn. rewrite !length_app, length_skipn. simpl List.length.
    replace (List.length l - (List.length l - n) + 1 - n)%nat with 1%nat by lia.
    rewrite !skipn_app.
    replace (List.length l + 1 - n - List.length l)%nat with 0%nat by lia.
    rewrite length_skipn.
    replace (1 - (List.length l - (List.length l - n)))%nat with 0%nat by lia.
    simpl skipn at 2 4. f_equal. rewrite skipn_skipn. f_equal. lia.
Qed.

Lemma windowOf_push time times pm :
  Metrics.windowOf times pm ->
  Metrics.windowOf (times ++ [time]) (Metrics.recordResponseTime time pm).
Proof.
  intros [Hkept _]. unfold Metrics.windowOf. rewrite recordResponseTime_times, Hkept.
  rewrite lastn_push by lia. split; [reflexivity|]. intros _.
  unfold Metrics.recordResponseTime. cbn [Metrics.metrics Metrics.avgResponseTime].
  rewrite Hkept.
  change (if (1000 <? List.length (Metrics.lastn 1000 times ++ [time]))%nat
          then skipn (List.length (Metrics.lastn 1000 times ++ [time]) - 1000)
                 (Metrics.lastn 1000 times ++ [time])
          else Metrics.lastn 1000 times ++ [time])
    with (Metrics.responseTimes
            (Metrics.recordResponseTime time
               {| Metrics.metrics := Metrics.metrics pm;
                  Metrics.responseTimes := Metrics.lastn 1000 times |})).
  rewrite recordResponseTime_times. cbn [Metrics.responseTimes].
  now rewrite lastn_push by lia.
Qed.

Lemma timesOf_snoc evs ev :
  Metrics.timesOf (evs ++ [ev])
  = match ev with
    | Metrics.Hit t | Metrics.Miss t => Metrics.timesOf evs ++ [t]
    | Metrics.Errored => Metrics.timesOf evs
    | Metrics.ResetAt _ => []
    end.
Proof. unfold Metrics.timesOf. now rewrite fold_left_app. Qed.

Lemma recordAll_snoc cfg evs ev pm :
  Metrics.recordAll cfg (evs ++ [ev]) pm
  = Metrics.record cfg ev (Metrics.recordAll cfg evs pm).
Proof. unfold Metrics.recordAll. now rewrite fold_left_app. Qed.

(** X13: with metrics enabled the collector keeps the last 1000 response
    times reported since the last reset, and [avgResponseTime] is their
    mean. *)
Theorem average_of_last_thousand cfg evs now :
  ENABLE_METRICS cfg = true ->
  Metrics.responseTimes (Metrics.recordAll cfg evs (Metrics.create now))
  = Metrics.lastn 1000 (Metrics.timesOf evs) /\
  (Metrics.timesOf evs <> [] ->
   Metrics.avgResponseTime (Metrics.metrics (Metrics.recordAll cfg evs (Metrics.create now)))
   = (fold_left Z.add (Metrics.lastn 1000 (Metrics.timesOf evs)) 0
      # Pos.of_nat (List.length (Metrics.lastn 1000 (Metrics.timesOf evs))))).
Proof.
  intros Hon.
  change (Metrics.windowOf (Metrics.timesOf evs) (Metrics.recordAll cfg evs (Metrics.create now))).
  induction evs as [|ev evs IH] using rev_ind.
  - split; [reflexivity | intros Hne; now contradiction Hne].
  - rewrite recordAll_snoc, timesOf_snoc.
    destruct ev as [t | t | | t]; cbn [Metrics.record];
      unfold Metrics.recordHit, Metrics.recordMiss, Metrics.recordError;
      rewrite ?Hon; cbn [negb].
    + apply windowOf_push. exact IH.
    + apply windowOf_push. exact IH.
    + exact IH.
    + split; [reflexivity | intros Hne; now contradiction Hne].
Qed.

(** A hit of 10 ms, an error and a miss of 30 ms: the collector keeps
    both times, and the average is 40/2. *)
Lemma average_of_last_thousand_witness :
  Metrics.responseTimes
    (Metrics.recordAll Sample.production
       [Metrics.Hit 10; Metrics.Errored; Metrics.Miss 30] (Metrics.create 1000))
  = [10; 30] /\
  Metrics.avgResponseTime
    (Metrics.metrics
       (Metrics.recordAll Sample.production
          [Metrics.Hit 10; Metrics.Errored; Metrics.Miss 30] (Metrics.create 1000)))
  = (40 # 2).
Proof.
  destruct (average_of_last_thousand Sample.production
              [Metrics.Hit 10; Metrics.Errored; Metrics.Miss 30] 1000 eq_refl)
    as [Hkept Havg].
  split; [exact Hkept | apply Havg; discriminate].
Defined.

End MetricsFacts.

(** ** The remote client: the breaker over a run of commands *)

Module BreakerFacts.
Section BreakerFacts.
Context {Value : Type} `{JsValue Value}.
Implicit Types (s : Redis.Net) (cmd : Redis.Command Value) (remote : Redis.Remote Value)
  (cl : Redis.ResilientRedis).

(** *** The state a command leaves *)

(** Every command is refused, fails or succeeds; the client it leaves
    behind is the one of [afterFailure] or [afterSuccess]. *)
Lemma exec_cases cfg remote cmd s :
  (fst (Redis.isAvailable cfg (Redis.clock s) (Redis.client s)) = false /\
   snd (Redis.exec cfg remote cmd s) = s) \/
  (exists cl0,
     Redis.isAvailable cfg (Redis.clock s) (Redis.client s) = (true, cl0) /\
     snd (Redis.exec cfg remote cmd s)
     = Redis.afterFailure cfg cmd s cl0 (remote (Redis.netCalls s))) \/
  (exists cl0,
     Redis.isAvailable cfg (Redis.clock s) (Redis.client s) = (true, cl0) /\
     snd (Redis.exec cfg remote cmd s)
     = Redis.afterSuccess cmd s cl0 (remote (Redis.netCalls s))).
Proof.
  destruct (Redis.isAvailable cfg (Redis.clock s) (Redis.client s)) as [[] cl0] eqn:Ha.
  - destruct (Redis.attemptFails cfg cmd (remote (Redis.netCalls s))) eqn:Hf.
    + right; left. exists cl0. now rewrite (RedisFacts.exec_failed _ _ _ _ _ Ha Hf).
    + destruct (Redis.settle (remote (Redis.netCalls s))) as [v|e] eqn:Hv.
      * right; right. exists cl0.
        now rewrite (RedisFacts.exec_succeeded _ _ _ _ _ _ Ha Hf Hv).
      * unfold Redis.attemptFails in Hf. rewrite Hv, orb_true_r in Hf. discriminate.
  - left. split; [reflexivity|]. rewrite RedisFacts.exec_refused by now rewrite Ha.
    reflexivity.
Qed.

(** *** The breaker, when it is enabled *)




(** *** The breaker, when it is disabled *)

Lemma exec_keeps_client cfg remote cmd s :
  Redis.redisAvailable (Redis.client (snd (Redis.exec cfg remote cmd s)))
    = Redis.redisAvailable (Redis.client s) /\
  Redis.hasClient (Redis.client (snd (Redis.exec cfg remote cmd s)))
    = Redis.hasClient (Redis.client s).
Proof.
  assert (forall cl0,
             Redis.isAvailable cfg (Redis.clock s) (Redis.client s) = (true, cl0) ->
             Redis.redisAvailable cl0 = Redis.redisAvailable (Redis.client s) /\
             Redis.hasClient cl0 = Redis.hasClient (Redis.client s)) as Hav.
  { intros cl0. unfold Redis.isAvailable.
    repeat match goal with
           | |- context [if ?b then _ else _] => destruct b
           end; intros [= <-]; auto. }
  destruct (exec_cases cfg remote cmd s) as [[_ ->] | [(cl0 & Ha & ->) | (cl0 & Ha & ->)]];
    [auto | |]; destruct (Hav _ Ha) as [<- <-].
  - destruct (RedisFacts.afterFailure_client cfg cmd s cl0 (remote (Redis.netCalls s))
                _ eq_refl) as (_ & _ & _ & Hra & Hhc & _). auto.
  - unfold Redis.afterSuccess. cbn [Redis.client].
    destruct cmd; cbn; auto; unfold Redis.resetCircuit;
      destruct ((Redis.failureCount cl0 >? 0) || Redis.circuitOpen cl0); auto.
Qed.

(** X15: with [ENABLE_CIRCUIT_BREAKER] off no call is ever refused: every
    command of a run goes to the network, however many have failed. *)
Theorem without_breaker_every_command_is_sent cfg remote steps s :
  ENABLE_CIRCUIT_BREAKER cfg = false ->
  Redis.redisAvailable (Redis.client s) = true ->
  Redis.hasClient (Redis.client s) = true ->
  Redis.netCalls (snd (Redis.runCommands cfg remote steps s))
  = (Redis.netCalls s + List.length steps)%nat.
Proof.
  intros Hcb. revert s. induction steps as [|[d cmd] rest IH]; intros s Hav Hcl.
  - simpl. lia.
  - rewrite RedisFacts.runCommands_cons. cbn [snd].
    destruct (exec_keeps_client cfg remote cmd (Redis.idle d s)) as [Hav1 Hcl1].
    rewrite IH by (rewrite ?Hav1, ?Hcl1; assumption).
    rewrite (RedisFacts.exec_attempted cfg remote cmd (Redis.idle d s) (Redis.client s))
      by (now apply RedisFacts.isAvailable_without_breaker).
    simpl. lia.
Qed.

(** *** The operation metrics *)

Lemma exec_operations cfg remote cmd s :
  let m := Redis.operationMetrics (Redis.client s) in
  let m' := Redis.operationMetrics (Redis.client (snd (Redis.exec cfg remote cmd s))) in
  (Redis.totalOperations m' - Redis.totalOperations m
   = (Redis.successfulOperations m' - Redis.successfulOperations m)
     + (Redis.failedOperations m' - Redis.failedOperations m)) /\
  Redis.totalOperations m <= Redis.totalOperations m'
    <= Redis.totalOperations m + match cmd with Redis.CmdGet _ => 1 | _ => 0 end.
Proof.
  cbn zeta.
  destruct (exec_cases cfg remote cmd s) as [[_ ->] | [(cl0 & Ha & ->) | (cl0 & Ha & ->)]];
    [destruct cmd; lia | |];
    pose proof (RedisFacts.isAvailable_metrics cfg (Redis.clock s) (Redis.client s)) as Hm;
    rewrite Ha in Hm; cbn [snd] in Hm;
    unfold Redis.afterFailure, Redis.afterSuccess; cbn [Redis.client];
    destruct cmd; cbn; rewrite ?Hm;
    try (unfold Redis.resetCircuit;
         destruct ((Redis.failureCount cl0 >? 0) || Redis.circuitOpen cl0); cbn; rewrite ?Hm);
    lia.
Qed.

(** X16: of the six commands only [get] is counted in the operation metrics:
    over any run, the operations counted are the successes and the failures
    together, and there are at most as many as the run has [get]s. *)
Theorem operations_add_up cfg remote steps s :
  Redis.totalOperations (Redis.operationMetrics (Redis.client s))
  = Redis.successfulOperations (Redis.operationMetrics (Redis.client s))
    + Redis.failedOperations (Redis.operationMetrics (Redis.client s)) ->
  let m := Redis.operationMetrics (Redis.client s) in
  let m' := Redis.operationMetrics (Redis.client (snd (Redis.runCommands cfg remote steps s))) in
  Redis.totalOperations m'
  = Redis.successfulOperations m' + Redis.failedOperations m' /\
  Redis.totalOperations m <= Redis.totalOperations m'
    <= Redis.totalOperations m + Redis.getsIn steps.
Proof.
  cbn zeta. revert s. induction steps as [|[d cmd] rest IH]; intros s Hsum.
  - unfold Redis.getsIn. simpl. lia.
  - rewrite RedisFacts.runCommands_cons. cbn [snd].
    destruct (exec_operations cfg remote cmd (Redis.idle d s)) as [Hstep Hbound].
    cbn zeta in Hstep, Hbound. change (Redis.client (Redis.idle d s)) with (Redis.client s) in *.
    destruct (IH (snd (Redis.exec cfg remote cmd (Redis.idle d s)))) as [Hsum' Hbound'];
      [lia|].
    split; [exact Hsum'|].
    unfold Redis.getsIn in *. cbn [List.filter snd].
    destruct cmd; cbn [List.length] in *; lia.
Qed.

(** *** The health probe *)

(** X18: [getHealthInfo] always returns. It answers [connected: true]
    exactly when the call is let through and the ping resolves. A ping that
    fails is not told to the breaker: the client is left as [isAvailable]
    left it, which, once the cooldown of an open circuit has passed, is with
    the circuit closed. *)
Theorem health_probe_is_not_counted cfg remote s :
  exists info s',
    Redis.getHealthInfo cfg remote s = (Returned info, s') /\
    Redis.client s' = snd (Redis.isAvailable cfg (Redis.clock s) (Redis.client s)) /\
    Redis.netCalls s'
    = (if fst (Redis.isAvailable cfg (Redis.clock s) (Redis.client s))
       then S (Redis.netCalls s) else Redis.netCalls s) /\
    Redis.connected_ info
    = (fst (Redis.isAvailable cfg (Redis.clock s) (Redis.client s))
       && match Redis.settle (remote (Redis.netCalls s)) with
          | Redis.Resolves _ => true
          | Redis.Rejects _ => false
          end).
Proof.
  unfold Redis.getHealthInfo, Redis.checkAvailable, Redis.now, Redis.send, Redis.setClient,
    bind, tryCatch, ret, gets.
  destruct (Redis.isAvailable cfg (Redis.clock s) (Redis.client s)) as [[] cl0]; cbn.
  - destruct (Redis.settle (remote (Redis.netCalls s))); cbn; eauto 10.
  - eauto 10.
Qed.

End BreakerFacts.


(** With [CACHE_ENABLE_CIRCUIT_BREAKER=false] and a service that rejects
    everything, all five commands of [Sample.fiveCommands] are sent. *)
Lemma without_breaker_every_command_is_sent_witness :
  Redis.netCalls
    (snd (Redis.runCommands Sample.productionNoBreaker Sample.alwaysRejects
            Sample.fiveCommands (Sample.connectedAt 1000))) = 5%nat.
Proof.
  apply (without_breaker_every_command_is_sent Sample.productionNoBreaker
           Sample.alwaysRejects Sample.fiveCommands (Sample.connectedAt 1000));
    reflexivity.
Defined.

(** The three commands of [Sample.threeCommands] all fail; one of them
    is a [get], and it is the one operation counted. *)
Lemma operations_add_up_witness :
  Redis.totalOperations (Redis.operationMetrics (Redis.client Sample.tripped)) = 1 /\
  Redis.failedOperations (Redis.operationMetrics (Redis.client Sample.tripped)) = 1.
Proof.
  destruct (operations_add_up Sample.productionWithRedis Sample.failsThrice
              Sample.threeCommands (Sample.connectedAt 1000) eq_refl) as [Hsum _].
  split; [exact Hsum | reflexivity].
Defined.

(** 30 seconds after the circuit of [Sample.tripped] has opened with
    three failures, a [setex] that succeeds leaves no failure counted, an
    [exists] that succeeds leaves two. *)
Lemma half_open_success_witness :
  Redis.failureCount
    (Redis.client
       (snd (Redis.exec Sample.productionWithRedis Sample.failsThrice
               (Redis.CmdSetex "ez:a" 600 (Sample.JsNum 1))
               (Redis.idle 30000 Sample.tripped)))) = 0 /\
  Redis.failureCount
    (Redis.client
       (snd (Redis.exec Sample.productionWithRedis Sample.failsThrice
               (Redis.CmdExists "ez:a") (Redis.idle 30000 Sample.tripped)))) = 2.
Proof.
  destruct (RedisFacts.half_open_success Sample.productionWithRedis Sample.failsThrice
              (Redis.CmdSetex "ez:a" 600 (Sample.JsNum 1))
              (Redis.idle 30000 Sample.tripped) (Sample.JsNum 7))
    as (_ & _ & Hsetex); try reflexivity.
  destruct (RedisFacts.half_open_success Sample.productionWithRedis Sample.failsThrice
              (Redis.CmdExists "ez:a") (Redis.idle 30000 Sample.tripped) (Sample.JsNum 7))
    as (_ & _ & Hexists); try reflexivity.
  split; [exact Hsetex | exact Hexists].
Defined.

End BreakerFacts.

(** ** The remote client: connecting *)

Module ConnectionFacts.
Section ConnectionFacts.
Context {Value : Type} `{JsValue Value}.
Implicit Types (l : Redis.Link) (remote : Redis.Remote Value).

Ltac unfold_connection :=
  unfold Redis.forceReconnect, Redis.initializeRedis, Redis.connectionFailed,
    Redis.scheduleReconnection, Redis.onNet, Redis.setNet, Redis.failed, Redis.now,
    Redis.setClient, bind, tryCatch, ret, gets, modify.

(** X19: [forceReconnect] less than 5 seconds after the last connection
    attempt makes no attempt: it resets the breaker and answers with the
    [isConnected] flag the reset has just set. After a failed attempt, when
    there is no client object, it therefore answers [true] and the status is
    ['connected'], while every command is still refused. *)
Theorem forceReconnect_too_soon cfg dependency remote l :
  Redis.redisAvailable (Redis.client (Redis.net l)) = true ->
  Redis.hasClient (Redis.client (Redis.net l)) = false ->
  0 < Redis.failureCount (Redis.client (Redis.net l)) ->
  Redis.lastConnectionAttempt l <> 0 ->
  Redis.clock (Redis.net l) - Redis.lastConnectionAttempt l < 5000 ->
  exists l',
    Redis.forceReconnect cfg dependency remote l = (Returned true, l') /\
    Redis.netCalls (Redis.net l') = Redis.netCalls (Redis.net l) /\
    Redis.hasClient (Redis.client (Redis.net l')) = false /\
    Redis.mode (Redis.client (Redis.net l')) = Redis.connected /\
    forall cmd,
      Redis.exec cfg remote cmd (Redis.net l')
      = (Returned (Redis.safeAnswer cmd), Redis.net l').
Proof.
  destruct l as [[t n [hc ic co fc lf ca ra om]] last timer]. cbn.
  intros -> -> Hfc Hlast Hsoon. unfold_connection. cbn.
  unfold Redis.resetCircuit. cbn.
  replace (fc >? 0) with true by (symmetry; lia). cbn.
  replace (last =? 0) with false by (symmetry; now apply Z.eqb_neq).
  replace (t - last <? 5000) with true by (symmetry; lia). cbn.
  eexists. split; [reflexivity|]. cbn. repeat split.
  intros cmd. now apply RedisFacts.exec_refused.
Qed.

Lemma attemptDue_test l :
  Redis.attemptDue l ->
  negb (Redis.lastConnectionAttempt l =? 0)
  && (Redis.clock (Redis.net l) - Redis.lastConnectionAttempt l <? 5000) = false.
Proof.
  intros [-> | Hold]; [reflexivity|].
  apply andb_false_iff. right. apply Z.ltb_ge. exact Hold.
Qed.

(** A connection attempt whose ping is answered in time connects: there
    is a client, it is connected, and the breaker is reset. *)
Theorem connection_success_resets_breaker cfg remote l v :
  Redis.redisAvailable (Redis.client (Redis.net l)) = true ->
  0 <= Redis.failureCount (Redis.client (Redis.net l)) ->
  Redis.attemptDue l ->
  Redis.delay (remote (Redis.netCalls (Redis.net l))) < REDIS_TIMEOUT cfg ->
  Redis.settle (remote (Redis.netCalls (Redis.net l))) = Redis.Resolves v ->
  exists l',
    Redis.initializeRedis cfg Redis.Loaded remote l = (Returned tt, l') /\
    Redis.hasClient (Redis.client (Redis.net l')) = true /\
    Redis.isConnected (Redis.client (Redis.net l')) = true /\
    Redis.circuitOpen (Redis.client (Redis.net l')) = false /\
    Redis.failureCount (Redis.client (Redis.net l')) = 0 /\
    Redis.connectionAttempts (Redis.client (Redis.net l'))
      = Redis.connectionAttempts (Redis.client (Redis.net l)) + 1 /\
    Redis.lastConnectionAttempt l' = Redis.clock (Redis.net l) /\
    Redis.netCalls (Redis.net l') = S (Redis.netCalls (Redis.net l)).
Proof.
  destruct l as [[t n [hc ic co fc lf ca ra om]] last timer]. cbn.
  intros -> Hpos Hdue Hfast Hv. apply attemptDue_test in Hdue. cbn in Hdue.
  unfold_connection. cbn. rewrite Hdue. cbn.
  unfold Redis.sendWithTimeout, Redis.send. cbn.
  replace (Redis.delay (remote n) <? REDIS_TIMEOUT cfg) with true by (symmetry; lia).
  rewrite Hv. cbn. eexists. split; [reflexivity|]. cbn.
  unfold Redis.resetCircuit. cbn.
  destruct ((fc >? 0) || co) eqn:E; cbn; [repeat split|].
  apply orb_false_iff in E as [Hfc ->]. repeat split. lia.
Qed.

(** X20: a connection attempt that fails (the constructor throws, or the
    ping is lost) never throws: it leaves no client, tells the breaker, and,
    for the first four attempts only, sets the reconnection timer, to
    [min(5000 * 2^(n-1), 30000)] milliseconds after the failure of attempt
    [n]: 5, 10, 20 and 30 seconds. *)
Theorem connection_failure_backs_off cfg dependency remote l :
  Redis.redisAvailable (Redis.client (Redis.net l)) = true ->
  0 <= Redis.connectionAttempts (Redis.client (Redis.net l)) ->
  Redis.attemptDue l ->
  dependency = Redis.ConstructorThrows \/
  (dependency = Redis.Loaded /\
   Redis.pingFails cfg (remote (Redis.netCalls (Redis.net l))) = true) ->
  exists l',
    let attempt := Redis.connectionAttempts (Redis.client (Redis.net l)) + 1 in
    Redis.initializeRedis cfg dependency remote l = (Returned tt, l') /\
    Redis.hasClient (Redis.client (Redis.net l')) = false /\
    Redis.isConnected (Redis.client (Redis.net l')) = false /\
    Redis.failureCount (Redis.client (Redis.net l'))
      = Redis.failureCount (Redis.client (Redis.net l)) + 1 /\
    Redis.lastFailure (Redis.client (Redis.net l')) = Redis.clock (Redis.net l') /\
    Redis.connectionAttempts (Redis.client (Redis.net l')) = attempt /\
    Redis.reconnectTimeout l'
      = (if attempt <? 5
         then Some (Redis.clock (Redis.net l') + Redis.reconnectionDelay attempt)
         else Redis.reconnectTimeout l) /\
    (attempt < 5 ->
     Redis.reconnectionDelay attempt
     = match attempt with 1 => 5000 | 2 => 10000 | 3 => 20000 | _ => 30000 end).
Proof.
  destruct l as [[t n [hc ic co fc lf ca ra om]] last timer]. cbn.
  intros -> Hca Hdue Hfail. apply attemptDue_test in Hdue. cbn in Hdue.
  assert (ca + 1 < 5 ->
          Redis.reconnectionDelay (ca + 1)
          = match ca + 1 with 1 => 5000 | 2 => 10000 | 3 => 20000 | _ => 30000 end)
    as Hdelay.
  { intros Hlt.
    assert (ca = 0 \/ ca = 1 \/ ca = 2 \/ ca = 3) as [-> | [-> | [-> | ->]]] by lia;
      reflexivity. }
  destruct Hfail as [-> | [-> Hping]]; unfold_connection; cbn; rewrite Hdue; cbn.
  - unfold Redis.recordFailure. cbn.
    destruct (ca + 1 <? 5) eqn:E; cbn; eexists; (split; [reflexivity|]); cbn;
      rewrite ?E; destruct (fc + 1 >=? CIRCUIT_FAILURE_THRESHOLD cfg); cbn;
      repeat split; auto.
  - unfold Redis.pingFails in Hping. unfold Redis.sendWithTimeout, Redis.send. cbn.
    destruct (Redis.delay (remote n) <? REDIS_TIMEOUT cfg); cbn in *;
      [destruct (Redis.settle (remote n)); [discriminate|] |];
      cbn; unfold Redis.recordFailure; cbn;
      destruct (ca + 1 <? 5) eqn:E; cbn; eexists; (split; [reflexivity|]); cbn;
      rewrite ?E; destruct (fc + 1 >=? CIRCUIT_FAILURE_THRESHOLD cfg); cbn;
      repeat split; auto.
Qed.

End ConnectionFacts.

(** One second after a failed first attempt [forceReconnect] answers
    [true]; a [get] is refused all the same. *)
Lemma forceReconnect_too_soon_witness :
  fst (Redis.forceReconnect Sample.productionWithRedis Redis.Loaded Sample.alwaysRejects
         Sample.failedLink) = Returned true /\
  Redis.exec Sample.productionWithRedis Sample.alwaysRejects (Redis.CmdGet "ez:a")
    (Redis.net
       (snd (Redis.forceReconnect Sample.productionWithRedis Redis.Loaded
               Sample.alwaysRejects Sample.failedLink)))
  = (Returned (Redis.AValue None),
     Redis.net
       (snd (Redis.forceReconnect Sample.productionWithRedis Redis.Loaded
               Sample.alwaysRejects Sample.failedLink))).
Proof.
  destruct (forceReconnect_too_soon Sample.productionWithRedis Redis.Loaded
              Sample.alwaysRejects Sample.failedLink)
    as (l' & Hrun & _ & _ & _ & Hcmd);
    [reflexivity | reflexivity | vm_compute; reflexivity | vm_compute; discriminate
    | vm_compute; reflexivity |].
  rewrite Hrun. cbn [fst snd]. split; [reflexivity | apply Hcmd].
Defined.

(** A first attempt at time 1000 whose ping is rejected after 10 ms: no
    client, one failure counted, and a reconnection set for 5 seconds
    later. *)
Lemma connection_failure_backs_off_witness :
  Redis.hasClient
    (Redis.client
       (Redis.net
          (snd (Redis.initializeRedis Sample.productionWithRedis Redis.Loaded
                  Sample.alwaysRejects (Sample.newLink 1000))))) = false /\
  Redis.failureCount
    (Redis.client
       (Redis.net
          (snd (Redis.initializeRedis Sample.productionWithRedis Redis.Loaded
                  Sample.alwaysRejects (Sample.newLink 1000))))) = 1 /\
  Redis.reconnectTimeout
    (snd (Redis.initializeRedis Sample.productionWithRedis Redis.Loaded
            Sample.alwaysRejects (Sample.newLink 1000))) = Some 6010.
Proof.
  destruct (connection_failure_backs_off Sample.productionWithRedis Redis.Loaded
              Sample.alwaysRejects (Sample.newLink 1000))
    as (l' & Hrun & Hclient & _ & Hcount & _ & _ & Htimer & _);
    [reflexivity | vm_compute; discriminate | left; reflexivity
    | right; split; reflexivity |].
  rewrite Hrun. cbn [snd]. split; [exact Hclient|]. split; [exact Hcount|].
  rewrite Htimer. vm_compute in Hrun. injection Hrun as <-. reflexivity.
Defined.

End ConnectionFacts.

(** ** The orchestrator: hits, refreshes, accounting *)

Module FetchFacts.
Section FetchFacts.
Context {Value : Type} `{JsValue Value}.
Implicit Types (w : EZCache.World Value) (fetcher : EZCache.Fetcher Value)
  (remote : Redis.Remote Value).

#[local] Arguments Traffic.track : simpl never.
#[local] Arguments Memory.get : simpl never.
#[local] Arguments Memory.set : simpl never.
#[local] Arguments Metrics.recordHit : simpl never.
#[local] Arguments Metrics.recordMiss : simpl never.
#[local] Arguments Metrics.recordError : simpl never.
#[local] Arguments Redis.get : simpl never.
#[local] Arguments Redis.setex : simpl never.
#[local] Arguments Redis.del : simpl never.
#[local] Arguments Z.mul : simpl never.
#[local] Arguments Z.add : simpl never.
#[local] Arguments Z.sub : simpl never.
#[local] Arguments Z.div : simpl never.
#[local] Arguments Z.max : simpl never.
#[local] Arguments String.append : simpl never.

(** *** Options *)

(** X30: the smart thresholds follow the TTL (a longer TTL never gets a
    lower threshold) exactly when the global threshold is at least 10. Below
    that (1 with the aggressive strategy, which is the default in
    development, 5 with memory-only) warm data, at threshold 10, is cached
    later than cold data. *)
Theorem smart_threshold_follows_ttl cfg :
  (forall ttl1 ttl2,
      ttl1 <= ttl2 ->
      EZCache.getSmartTrafficThreshold cfg ttl1 <= EZCache.getSmartTrafficThreshold cfg ttl2)
  <-> 10 <= TRAFFIC_THRESHOLD cfg.
Proof.
  unfold EZCache.getSmartTrafficThreshold. split.
  - intros Hmono. specialize (Hmono 600 601 ltac:(lia)). cbn in Hmono.
    pose proof (Z.le_max_l 10 (TRAFFIC_THRESHOLD cfg * 3 / 10)). lia.
  - intros Hthr ttl1 ttl2 Hle.
    assert (TRAFFIC_THRESHOLD cfg / 10 <= TRAFFIC_THRESHOLD cfg * 3 / 10) as H1
      by (apply Z.div_le_mono; lia).
    assert (TRAFFIC_THRESHOLD cfg * 3 / 10 <= TRAFFIC_THRESHOLD cfg) as H2
      by (apply Z.div_le_upper_bound; lia).
    destruct (ttl1 <=? 60) eqn:E1; destruct (ttl2 <=? 60) eqn:E2;
      destruct (ttl1 <=? 600) eqn:E3; destruct (ttl2 <=? 600) eqn:E4; lia.
Qed.

Lemma isHighTraffic_zero cfg key tr w :
  EZCache.isHighTraffic cfg key 0 tr w
  = EZCache.isHighTraffic cfg key (TRAFFIC_THRESHOLD cfg) tr w.
Proof.
  unfold EZCache.isHighTraffic, Traffic.isHighTraffic, Traffic.effectiveThreshold.
  cbn. now destruct (TRAFFIC_THRESHOLD cfg =? 0) eqn:E; [apply Z.eqb_eq in E; rewrite E|].
Qed.

(** X29: [minTrafficCount: 0] does not mean that every request is cached:
    the tracker replaces a threshold of 0 by the global one, so the call
    behaves as with [minTrafficCount: TRAFFIC_THRESHOLD]. *)
Theorem zero_threshold_means_default cfg remote key fetcher t force w :
  EZCache.fetch cfg remote key fetcher
    (EZCache.Options {| EZCache.ttl := t; EZCache.minTrafficCount := Some 0;
                        EZCache.forceCaching := force |}) w
  = EZCache.fetch cfg remote key fetcher
      (EZCache.Options {| EZCache.ttl := t;
                          EZCache.minTrafficCount := Some (TRAFFIC_THRESHOLD cfg);
                          EZCache.forceCaching := force |}) w.
Proof.
  unfold EZCache.fetch, bind, tryCatch, EZCache.now, gets.
  cbn [EZCache.parseOptions EZCache.ttl EZCache.minTrafficCount EZCache.forceCaching
       EZCache.ttl_ EZCache.minTrafficCount_ EZCache.forceCaching_ default from_option].
  destruct (CacheMode_eqb (CACHE_MODE cfg) DISABLED); [reflexivity|].
  destruct (EZCache.traffic w) as [tr|]; [|reflexivity].
  destruct (ENABLE_TRAFFIC_DETECTION cfg && _); [|reflexivity].
  now rewrite isHighTraffic_zero.
Qed.

(** *** Caching disabled *)

(** In [DISABLED] mode [fetch] is the fetcher: no tier, no tracker, no
    network.  When the fetcher returns, nothing but the clock has changed,
    no request is recorded in the metrics, and the fetcher has been
    invoked once. *)
Theorem disabled_mode_is_passthrough cfg remote key fetcher opts w d v :
  CACHE_MODE cfg = DISABLED ->
  fetcher (EZCache.fetcherCalls w) = (d, Returned v) ->
  EZCache.fetch cfg remote key fetcher opts w
  = (Returned v,
     {| EZCache.clock := EZCache.clock w + d;
        EZCache.netCalls := EZCache.netCalls w;
        EZCache.fetcherCalls := S (EZCache.fetcherCalls w);
        EZCache.memory := EZCache.memory w;
        EZCache.traffic := EZCache.traffic w;
        EZCache.redis := EZCache.redis w;
        EZCache.metrics := EZCache.metrics w |}).
Proof.
  intros Hmode Hf. unfold EZCache.fetch, bind, tryCatch, EZCache.now, gets.
  rewrite Hmode. cbn [CacheMode_eqb]. unfold EZCache.callFetcher. now rewrite Hf.
Qed.

(** *** The hit path *)

(** Past the traffic gate [fetch] consults the cache layers, in the state
    the tracker has left. *)
Lemma fetch_high_traffic cfg remote key fetcher opts w tr :
  CACHE_MODE cfg <> DISABLED ->
  ENABLE_TRAFFIC_DETECTION cfg = true ->
  EZCache.traffic w = Some tr ->
  EZCache.forceCaching_ (EZCache.parseOptions cfg opts) = false ->
  Traffic.effectiveThreshold cfg
    (Some (EZCache.minTrafficCount_ (EZCache.parseOptions cfg opts)))
    <= fst (Traffic.track cfg (EZCache.clock w) key tr) ->
  EZCache.fetch cfg remote key fetcher opts w
  = tryCatch
      (EZCache.fetchFromCacheLayers cfg remote ("ez:" ++ key) fetcher
         (EZCache.ttl_ (EZCache.parseOptions cfg opts))
         (if ENABLE_REDIS cfg
          then EZCache.ttl_ (EZCache.parseOptions cfg opts) * 10
          else EZCache.ttl_ (EZCache.parseOptions cfg opts))
         (EZCache.clock w))
      (fun _ => bind (EZCache.recordError cfg) (fun _ => EZCache.callFetcher fetcher))
      (EZCache.setTraffic (Some (snd (Traffic.track cfg (EZCache.clock w) key tr))) w).
Proof.
  intros Hmode Htd Htr Hforce Hhigh.
  unfold EZCache.fetch, bind at 1, EZCache.now, gets.
  unfold tryCatch. rewrite (EZCacheFacts.mode_enabled _ Hmode). unfold bind at 1, gets.
  rewrite Htr, Htd, Hforce. cbn [andb negb]. unfold bind at 1.
  unfold EZCache.isHighTraffic, Traffic.isHighTraffic.
  destruct (Traffic.track cfg (EZCache.clock w) key tr) as [count tr'] eqn:Htrack.
  cbn [fst snd] in *.
  replace (count >=? _) with true by (symmetry; rewrite Z.geb_leb; apply Z.leb_le; lia).
  reflexivity.
Qed.

(** X23: once the traffic of a key has reached its threshold, a live, truthy
    entry in memory is the answer: the fetcher is not invoked, nothing is
    sent to the network, the entry counts one more hit, and the metrics
    record a hit that took no time. *)
Theorem high_traffic_hit_is_local cfg remote key fetcher opts w tr m item :
  ENABLE_MEMORY cfg = true ->
  ENABLE_TRAFFIC_DETECTION cfg = true ->
  EZCache.traffic w = Some tr ->
  EZCache.forceCaching_ (EZCache.parseOptions cfg opts) = false ->
  Traffic.effectiveThreshold cfg
    (Some (EZCache.minTrafficCount_ (EZCache.parseOptions cfg opts)))
    <= fst (Traffic.track cfg (EZCache.clock w) key tr) ->
  EZCache.memory w = Some m ->
  JsMap.get ("ez:" ++ key) (Memory.cache m) = Some item ->
  truthy (Memory.data item) = true ->
  EZCache.clock w <= Memory.expires item ->
  EZCache.fetch cfg remote key fetcher opts w
  = (Returned (Memory.data item),
     {| EZCache.clock := EZCache.clock w;
        EZCache.netCalls := EZCache.netCalls w;
        EZCache.fetcherCalls := EZCache.fetcherCalls w;
        EZCache.memory := Some (snd (Memory.get (EZCache.clock w) ("ez:" ++ key) m));
        EZCache.traffic := Some (snd (Traffic.track cfg (EZCache.clock w) key tr));
        EZCache.redis := EZCache.redis w;
        EZCache.metrics := option_map (Metrics.recordHit cfg 0) (EZCache.metrics w) |}) /\
  option_map Memory.hitCount
    (JsMap.get ("ez:" ++ key)
       (Memory.cache (snd (Memory.get (EZCache.clock w) ("ez:" ++ key) m))))
  = Some (Memory.hitCount item + 1).
Proof.
  intros Hmem Htd Htr Hforce Hhigh Hm Hget Htruthy Hlive.
  rewrite (fetch_high_traffic cfg remote key fetcher opts w tr)
    by (try assumption; now apply EZCacheFacts.mode_with_memory).
  assert (Memory.get (EZCache.clock w) ("ez:" ++ key) m
          = (Some (Memory.data item),
             snd (Memory.get (EZCache.clock w) ("ez:" ++ key) m))) as Hread.
  { unfold Memory.get. rewrite Hget.
    replace (EZCache.clock w >? Memory.expires item) with false by (symmetry; lia).
    reflexivity. }
  split.
  - unfold tryCatch, EZCache.fetchFromCacheLayers, bind at 1. rewrite Hmem.
    unfold EZCache.memoryGet. cbn [EZCache.setTraffic EZCache.memory EZCache.clock].
    rewrite Hm, Hread, Htruthy.
    unfold bind, EZCache.now, gets, EZCache.recordHit, modify, ret. cbn.
    now replace (EZCache.clock w - EZCache.clock w) with 0 by lia.
  - unfold Memory.get. rewrite Hget.
    replace (EZCache.clock w >? Memory.expires item) with false by (symmetry; lia).
    cbn [snd Memory.cache]. now rewrite JsMapFacts.get_set_eq.
Qed.

(** *** One request, one record *)

Lemma silent_bind {A B} (m : M (EZCache.World Value) A) (k : A -> M (EZCache.World Value) B) :
  EZCache.silent m -> (forall a, EZCache.silent (k a)) -> EZCache.silent (bind m k).
Proof.
  intros Hm Hk w out w1. unfold bind. destruct (m w) as [[a|e] w0] eqn:Hrun.
  - intros Hrun2. apply Hk in Hrun2. apply Hm in Hrun. congruence.
  - intros [= <- <-]. now apply Hm in Hrun.
Qed.

Lemma tallies_after {A B} (m : M (EZCache.World Value) A)
  (k : A -> M (EZCache.World Value) B) :
  EZCache.silent m -> (forall a, EZCache.tallies (k a)) -> EZCache.tallies (bind m k).
Proof.
  intros Hm Hk w pm out w1 Hpm. unfold bind. destruct (m w) as [[a|e] w0] eqn:Hrun;
    apply Hm in Hrun.
  - intros Hrun2. eapply Hk; [|exact Hrun2]. congruence.
  - intros [= <- <-]. exists pm. split; [congruence | lia].
Qed.

Lemma silent_ret {A} (a : A) : EZCache.silent (Value:=Value) (ret a).
Proof. intros w out w1 [= <- <-]. reflexivity. Qed.

Lemma silent_gets {A} (f : EZCache.World Value -> A) : EZCache.silent (gets f).
Proof. intros w out w1 [= <- <-]. reflexivity. Qed.

Lemma silent_callFetcher fetcher : EZCache.silent (EZCache.callFetcher fetcher).
Proof.
  intros w out w1. unfold EZCache.callFetcher.
  destruct (fetcher (EZCache.fetcherCalls w)). now intros [= <- <-].
Qed.

Lemma silent_memoryGet key : EZCache.silent (EZCache.memoryGet (Value:=Value) key).
Proof.
  intros w out w1. unfold EZCache.memoryGet. destruct (EZCache.memory w) as [m|].
  - destruct (Memory.get (EZCache.clock w) key m). now intros [= <- <-].
  - now intros [= <- <-].
Qed.

Lemma silent_memorySet cfg key d ttlSeconds :
  EZCache.silent (EZCache.memorySet (Value:=Value) cfg key d ttlSeconds).
Proof.
  intros w out w1. unfold EZCache.memorySet. destruct (EZCache.memory w) as [m|].
  - destruct (Memory.set cfg (EZCache.clock w) key d ttlSeconds m). now intros [= <- <-].
  - now intros [= <- <-].
Qed.

Lemma silent_isHighTraffic cfg key threshold tr :
  EZCache.silent (EZCache.isHighTraffic (Value:=Value) cfg key threshold tr).
Proof.
  intros w out w1. unfold EZCache.isHighTraffic.
  destruct (Traffic.isHighTraffic cfg (EZCache.clock w) key (Some threshold) tr).
  now intros [= <- <-].
Qed.

Lemma silent_onRedis {A} (cmd : M Redis.Net A) : EZCache.silent (EZCache.onRedis (Value:=Value) cmd).
Proof. intros w out w1 Hrun. now apply EZCacheFacts.onRedis_frame in Hrun. Qed.

Lemma silent_remoteLookup cfg remote fullKey :
  EZCache.silent (EZCache.remoteLookup cfg remote fullKey).
Proof. intros w out w1 Hrun. now apply EZCacheFacts.remoteLookup_frame in Hrun. Qed.

Lemma silent_storeInCacheLayers cfg remote fullKey d memoryTtl redisTtl :
  EZCache.silent (EZCache.storeInCacheLayers cfg remote fullKey d memoryTtl redisTtl).
Proof.
  unfold EZCache.storeInCacheLayers.
  apply silent_bind; [destruct (ENABLE_MEMORY cfg); [apply silent_memorySet | apply silent_ret]|].
  intros _. apply silent_bind; [|intros _; apply silent_ret].
  destruct (ENABLE_REDIS cfg); [apply silent_onRedis | apply silent_ret].
Qed.

Lemma recordHit_total cfg t pm :
  ENABLE_METRICS cfg = true ->
  Metrics.totalRequests (Metrics.metrics (Metrics.recordHit cfg t pm))
  = Metrics.totalRequests (Metrics.metrics pm) + 1.
Proof. intros Hon. unfold Metrics.recordHit. now rewrite Hon. Qed.

Lemma recordMiss_total cfg t pm :
  ENABLE_METRICS cfg = true ->
  Metrics.totalRequests (Metrics.metrics (Metrics.recordMiss cfg t pm))
  = Metrics.totalRequests (Metrics.metrics pm) + 1.
Proof. intros Hon. unfold Metrics.recordMiss. now rewrite Hon. Qed.

Lemma recordError_total cfg pm :
  ENABLE_METRICS cfg = true ->
  Metrics.totalRequests (Metrics.metrics (Metrics.recordError cfg pm))
  = Metrics.totalRequests (Metrics.metrics pm) + 1.
Proof. intros Hon. unfold Metrics.recordError. now rewrite Hon. Qed.

Lemma tallies_recordHit cfg t (d : Value) :
  ENABLE_METRICS cfg = true ->
  EZCache.tallies (Value:=Value) (bind (EZCache.recordHit cfg t) (fun _ => ret d)).
Proof.
  intros Hon w pm out w1 Hpm. unfold bind, EZCache.recordHit, modify, ret.
  intros [= <- <-]. cbn. rewrite Hpm. cbn. eexists. split; [reflexivity|].
  now apply recordHit_total.
Qed.

Lemma tallies_recordMiss cfg t (d : Value) :
  ENABLE_METRICS cfg = true ->
  EZCache.tallies (Value:=Value) (bind (EZCache.recordMiss cfg t) (fun _ => ret d)).
Proof.
  intros Hon w pm out w1 Hpm. unfold bind, EZCache.recordMiss, modify, ret.
  intros [= <- <-]. cbn. rewrite Hpm. cbn. eexists. split; [reflexivity|].
  now apply recordMiss_total.
Qed.

Lemma tallies_fetchFromDatabase cfg remote fullKey fetcher memoryTtl redisTtl startTime :
  ENABLE_METRICS cfg = true ->
  EZCache.tallies (EZCache.fetchFromDatabase cfg remote fullKey fetcher memoryTtl redisTtl startTime).
Proof.
  intros Hon. unfold EZCache.fetchFromDatabase.
  apply tallies_after; [apply silent_callFetcher|]. intros d.
  apply tallies_after; [apply silent_storeInCacheLayers|]. intros _.
  apply tallies_after; [apply silent_gets|]. intros t.
  now apply tallies_recordMiss.
Qed.

Lemma tallies_fetchFromRedis cfg remote fullKey fetcher memoryTtl redisTtl startTime :
  ENABLE_METRICS cfg = true ->
  EZCache.tallies (EZCache.fetchFromRedis cfg remote fullKey fetcher memoryTtl redisTtl startTime).
Proof.
  intros Hon. unfold EZCache.fetchFromRedis.
  apply tallies_after; [apply silent_remoteLookup|].
  intros [[d|]|]; try now apply tallies_fetchFromDatabase.
  destruct (truthy d); [|now apply tallies_fetchFromDatabase].
  apply tallies_after; [apply silent_memorySet|]. intros _.
  apply tallies_after; [apply silent_gets|]. intros t.
  now apply tallies_recordHit.
Qed.

Lemma tallies_fetchFromCacheLayers cfg remote fullKey fetcher memoryTtl redisTtl startTime :
  ENABLE_METRICS cfg = true ->
  EZCache.tallies (EZCache.fetchFromCacheLayers cfg remote fullKey fetcher memoryTtl redisTtl startTime).
Proof.
  intros Hon. unfold EZCache.fetchFromCacheLayers.
  apply tallies_after;
    [destruct (ENABLE_MEMORY cfg); [apply silent_memoryGet | apply silent_ret]|].
  intros [d|]; try now apply tallies_fetchFromRedis.
  destruct (truthy d); [|now apply tallies_fetchFromRedis].
  apply tallies_after; [apply silent_gets|]. intros t.
  now apply tallies_recordHit.
Qed.

(** X22: unless caching is disabled as a whole, every call of [fetch] adds
    exactly one request to the metrics, whether it is answered from a tier,
    by the fetcher, or ends in an error. *)
Theorem every_fetch_is_counted_once cfg remote key fetcher opts w pm out w' :
  CACHE_MODE cfg <> DISABLED ->
  ENABLE_METRICS cfg = true ->
  EZCache.metrics w = Some pm ->
  EZCache.fetch cfg remote key fetcher opts w = (out, w') ->
  exists pm',
    EZCache.metrics w' = Some pm' /\
    Metrics.totalRequests (Metrics.metrics pm')
    = Metrics.totalRequests (Metrics.metrics pm) + 1.
Proof.
  intros Hmode Hon Hpm.
  unfold EZCache.fetch, bind at 1, EZCache.now, gets, tryCatch.
  rewrite (EZCacheFacts.mode_enabled _ Hmode).
  match goal with
  | |- context [match ?body w with _ => _ end] => assert (EZCache.tallies body) as Hbody
  end.
  { apply tallies_after; [apply silent_gets|].
    intros [tr|]; [|now apply tallies_fetchFromCacheLayers].
    destruct (ENABLE_TRAFFIC_DETECTION cfg && _); [|now apply tallies_fetchFromCacheLayers].
    apply tallies_after; [apply silent_isHighTraffic|].
    intros [|]; cbn [negb]; [now apply tallies_fetchFromCacheLayers|].
    apply tallies_after; [apply silent_callFetcher|]. intros d.
    apply tallies_after; [apply silent_gets|]. intros t.
    now apply tallies_recordMiss. }
  match goal with
  | |- context [match ?body w with _ => _ end] =>
      destruct (body w) as [[v|e] w1] eqn:Hrun;
        destruct (Hbody w pm _ _ Hpm Hrun) as (pm1 & Hpm1 & Htotal)
  end.
  - intros [= <- <-]. eauto.
  - unfold bind, EZCache.recordError, modify. cbn. rewrite Hpm1. cbn.
    intros Hrun2. apply silent_callFetcher in Hrun2. cbn in Hrun2.
    eexists. split; [exact Hrun2|]. rewrite recordError_total by exact Hon. lia.
Qed.

(** *** Refreshing *)

Lemma once_fetcher fetcher (k : Value -> M (EZCache.World Value) Value) w :
  (forall v, EZCache.keeps v (k v)) ->
  EZCache.once fetcher (bind (EZCache.callFetcher fetcher) k) w.
Proof.
  intros Hk out w1. unfold bind, EZCache.callFetcher.
  destruct (fetcher (EZCache.fetcherCalls w)) as [elapsed [v|e]] eqn:Hf.
  - match goal with
    | |- k v ?w0 = _ -> _ => destruct (Hk v w0) as (w2 & Hrun & Hn)
    end.
    rewrite Hrun. intros [= <- <-]. cbn in Hn. auto.
  - intros [= <- <-]. auto.
Qed.

Lemma once_fetchFromDatabase cfg remote fullKey fetcher memoryTtl redisTtl startTime w :
  EZCache.once fetcher
    (EZCache.fetchFromDatabase cfg remote fullKey fetcher memoryTtl redisTtl startTime) w.
Proof.
  unfold EZCache.fetchFromDatabase. apply once_fetcher. intros v.
  apply EZCacheFacts.keeps_after; [apply EZCacheFacts.quiet_storeInCacheLayers|]. intros _.
  apply EZCacheFacts.keeps_after; [apply EZCacheFacts.quiet_now|]. intros t.
  apply EZCacheFacts.keeps_after; [apply EZCacheFacts.quiet_recordMiss|]. intros _.
  apply EZCacheFacts.keeps_ret.
Qed.

Lemma cold_memoryGet fullKey w :
  EZCache.cold fullKey w -> EZCache.memoryGet fullKey w = (Returned None, w).
Proof.
  intros [_ Hmem]. unfold EZCache.memoryGet.
  destruct (EZCache.memory w) as [m|] eqn:Hm; [|reflexivity].
  unfold Memory.get. rewrite (Hmem m eq_refl).
  destruct w; cbn in *. now subst.
Qed.

Lemma cold_remoteLookup cfg remote fullKey w :
  EZCache.cold fullKey w -> EZCache.remoteLookup cfg remote fullKey w = (Returned None, w).
Proof.
  intros [Hredis _]. unfold EZCache.remoteLookup, EZCache.onRedis.
  destruct (ENABLE_REDIS cfg); [|reflexivity]. now rewrite Hredis.
Qed.

Lemma once_cold_layers cfg remote fullKey fetcher memoryTtl redisTtl startTime w :
  EZCache.cold fullKey w ->
  EZCache.once fetcher
    (EZCache.fetchFromCacheLayers cfg remote fullKey fetcher memoryTtl redisTtl startTime) w.
Proof.
  intros Hcold out w1. unfold EZCache.fetchFromCacheLayers, bind at 1.
  replace ((if ENABLE_MEMORY cfg then EZCache.memoryGet fullKey else ret None) w)
    with (Returned (@None Value), w)
    by (destruct (ENABLE_MEMORY cfg); [now rewrite cold_memoryGet | reflexivity]).
  unfold EZCache.fetchFromRedis, bind at 1. rewrite (cold_remoteLookup _ _ _ _ Hcold).
  apply once_fetchFromDatabase.
Qed.

(** With nothing cached for the key, [fetch] invokes the fetcher, and
    returns its value when it returns one. *)
Lemma fetch_cold cfg remote key fetcher opts w out w' :
  EZCache.cold ("ez:" ++ key) w ->
  EZCache.fetch cfg remote key fetcher opts w = (out, w') ->
  (EZCache.fetcherCalls w < EZCache.fetcherCalls w')%nat /\
  (forall d v,
      fetcher (EZCache.fetcherCalls w) = (d, Returned v) ->
      out = Returned v /\ EZCache.fetcherCalls w' = S (EZCache.fetcherCalls w)).
Proof.
  intros Hcold. unfold EZCache.fetch, bind at 1, EZCache.now, gets, tryCatch.
  match goal with
  | |- context [match ?body w with _ => _ end] => assert (EZCache.once fetcher body w) as Hbody
  end.
  { destruct (CacheMode_eqb (CACHE_MODE cfg) DISABLED).
    { intros out1 w1. unfold EZCache.callFetcher.
      destruct (fetcher (EZCache.fetcherCalls w)). now intros [= <- <-]. }
    intros out1 w1. unfold bind at 1, gets.
    destruct (EZCache.traffic w) as [tr|]; [|now apply once_cold_layers].
    destruct (ENABLE_TRAFFIC_DETECTION cfg && _); [|now apply once_cold_layers].
    unfold bind at 1, EZCache.isHighTraffic.
    destruct (Traffic.isHighTraffic cfg (EZCache.clock w) key _ tr) as [high tr'].
    assert (EZCache.cold ("ez:" ++ key) (EZCache.setTraffic (Some tr') w)) as Hcold' by exact Hcold.
    destruct high; cbn [negb].
    - intros Hrun. apply (once_cold_layers _ _ _ _ _ _ _ _ Hcold') in Hrun. exact Hrun.
    - intros Hrun.
      eapply (once_fetcher fetcher _ (EZCache.setTraffic (Some tr') w)) in Hrun; [exact Hrun|].
      intros v. apply EZCacheFacts.keeps_after; [apply EZCacheFacts.quiet_now|]. intros t.
      apply EZCacheFacts.keeps_after; [apply EZCacheFacts.quiet_recordMiss|]. intros _.
      apply EZCacheFacts.keeps_ret. }
  match goal with
  | |- context [match ?body w with _ => _ end] =>
      destruct (body w) as [[v|e] w1] eqn:Hrun; apply Hbody in Hrun as [Hn Hout]
  end.
  - intros [= <- <-]. split; [lia|]. intros d v' Hf. rewrite Hf in Hout. cbn in Hout.
    split; [exact Hout | exact Hn].
  - unfold bind, EZCache.recordError, modify, EZCache.callFetcher. cbn.
    destruct (fetcher (EZCache.fetcherCalls w1)) as [d2 o2]. intros [= <- <-]. cbn.
    split; [lia|]. intros d v' Hf. rewrite Hf in Hout. discriminate.
Qed.

(** X26: without a remote client [forceRefresh] never answers from the
    cache: whatever the options, the traffic and the state of the memory
    store, it invokes the fetcher, and when the fetcher returns a value that
    value is the answer. *)
Theorem forceRefresh_without_remote_fetches cfg remote key fetcher opts w out w' :
  EZCache.redis w = None ->
  EZCache.forceRefresh cfg remote key fetcher opts w = (out, w') ->
  (EZCache.fetcherCalls w < EZCache.fetcherCalls w')%nat /\
  (forall d v,
      fetcher (EZCache.fetcherCalls w) = (d, Returned v) ->
      out = Returned v /\ EZCache.fetcherCalls w' = S (EZCache.fetcherCalls w)).
Proof.
  intros Hredis. unfold EZCache.forceRefresh, EZCache.clear, bind, modify, ret.
  unfold EZCache.onRedis. cbn [EZCache.setMemory EZCache.redis]. rewrite Hredis.
  match goal with
  | |- EZCache.fetch _ _ _ _ _ ?w0 = _ -> _ =>
      assert (EZCache.cold ("ez:" ++ key) w0) as Hcold;
        [|intros Hrun; exact (fetch_cold _ _ _ _ _ w0 _ _ Hcold Hrun)]
  end.
  split; [exact Hredis|]. cbn [EZCache.setMemory EZCache.memory].
  destruct (EZCache.memory w) as [m|]; [|discriminate]. cbn [option_map].
  intros m' [= <-]. rewrite MemoryFacts.delete_cache. apply JsMapFacts.get_delete_eq.
Qed.

(** *** Values that are not truthy *)

Lemma falsyAt_get now fullKey m :
  EZCache.falsyAt fullKey m ->
  EZCache.falsyAt fullKey (snd (Memory.get now fullKey m)) /\
  match fst (Memory.get now fullKey m) with
  | Some d => truthy d = false
  | None => True
  end.
Proof.
  intros Hf. unfold Memory.get.
  destruct (JsMap.get fullKey (Memory.cache m)) as [item|] eqn:E;
    [|cbn [fst snd]; auto].
  destruct (now >? Memory.expires item); cbn [fst snd].
  - split; [|exact I]. intros it. rewrite MemoryFacts.delete_cache.
    now rewrite JsMapFacts.get_delete_eq.
  - split; [|now apply Hf]. intros it. cbn [Memory.cache].
    rewrite JsMapFacts.get_set_eq. intros [= <-]. cbn. now apply Hf.
Qed.

Lemma falsyAt_set cfg now fullKey v ttlSeconds m :
  truthy v = false -> EZCache.falsyAt fullKey m ->
  EZCache.falsyAt fullKey (snd (Memory.set cfg now fullKey v ttlSeconds m)).
Proof.
  intros Hv Hf. unfold Memory.set.
  destruct (Memory.estimateSize v >? MAX_VALUE_SIZE cfg); [exact Hf|].
  intros it. cbn [snd Memory.cache]. rewrite JsMapFacts.get_set_eq.
  now intros [= <-].
Qed.

(** A forced call, memory only: when what memory holds under the key is
    not truthy, the fetcher is invoked, and what memory holds afterwards
    is the value it returned, if the store took it. *)
Lemma fetch_forced_falsy cfg remote key fetcher o w m d v :
  ENABLE_MEMORY cfg = true -> ENABLE_REDIS cfg = false ->
  EZCache.forceCaching o = Some true ->
  EZCache.memory w = Some m ->
  EZCache.falsyAt ("ez:" ++ key) m ->
  fetcher (EZCache.fetcherCalls w) = (d, Returned v) ->
  exists w1,
    EZCache.fetch cfg remote key fetcher (EZCache.Options o) w = (Returned v, w1) /\
    EZCache.fetcherCalls w1 = S (EZCache.fetcherCalls w) /\
    EZCache.memory w1
    = Some (snd (Memory.set cfg (EZCache.clock w + d) ("ez:" ++ key) v
                   (Z.min (EZCache.ttl_ (EZCache.parseOptions cfg (EZCache.Options o)))
                      (MEMORY_TTL_MAX cfg))
                   (snd (Memory.get (EZCache.clock w) ("ez:" ++ key) m)))).
Proof.
  intros Hmem Hredis Hforce Hm Hfalsy Hf.
  rewrite EZCacheFacts.fetch_forced
    by (try assumption; now apply EZCacheFacts.mode_with_memory).
  destruct (falsyAt_get (EZCache.clock w) _ _ Hfalsy) as [_ Hread].
  unfold tryCatch, EZCache.fetchFromCacheLayers, bind at 1. rewrite Hmem.
  unfold EZCache.memoryGet. rewrite Hm.
  destruct (Memory.get (EZCache.clock w) ("ez:" ++ key) m) as [r m0] eqn:Hget.
  cbn [fst snd] in *.
  set (w0 := EZCache.setMemory (Some m0) w).
  assert (EZCache.fetchFromRedis cfg remote ("ez:" ++ key) fetcher
            (EZCache.ttl_ (EZCache.parseOptions cfg (EZCache.Options o)))
            (if ENABLE_REDIS cfg
             then EZCache.ttl_ (EZCache.parseOptions cfg (EZCache.Options o)) * 10
             else EZCache.ttl_ (EZCache.parseOptions cfg (EZCache.Options o)))
            (EZCache.clock w) w0
          = EZCache.fetchFromDatabase cfg remote ("ez:" ++ key) fetcher
              (EZCache.ttl_ (EZCache.parseOptions cfg (EZCache.Options o)))
              (if ENABLE_REDIS cfg
               then EZCache.ttl_ (EZCache.parseOptions cfg (EZCache.Options o)) * 10
               else EZCache.ttl_ (EZCache.parseOptions cfg (EZCache.Options o)))
              (EZCache.clock w) w0) as Hlayer2.
  { apply EZCacheFacts.fetchFromRedis_miss with (r := None); [|reflexivity].
    unfold EZCache.remoteLookup. now rewrite Hredis. }
  destruct (EZCacheFacts.fetchFromDatabase_run cfg remote ("ez:" ++ key) fetcher
              (EZCache.ttl_ (EZCache.parseOptions cfg (EZCache.Options o)))
              (if ENABLE_REDIS cfg
               then EZCache.ttl_ (EZCache.parseOptions cfg (EZCache.Options o)) * 10
               else EZCache.ttl_ (EZCache.parseOptions cfg (EZCache.Options o)))
              (EZCache.clock w) w0 m0 d v Hmem eq_refl Hf)
    as (w1 & Hrun & Hn & Hm1).
  exists w1. split; [|split; [exact Hn | exact Hm1]].
  destruct r as [x|]; [rewrite Hread|]; fold w0; rewrite Hlayer2, Hrun; reflexivity.
Qed.

(** X25: values that are not truthy (0, the empty string, [false], [null])
    are never served from the cache. Memory only, forced caching, a key not
    cached yet: when the fetcher returns such a value, the next call,
    however soon, invokes the fetcher again and answers what it returns
    then. *)
Theorem falsy_values_are_fetched_again cfg remote key fetcher o w m d1 v1 d2 v2 dt :
  ENABLE_MEMORY cfg = true -> ENABLE_REDIS cfg = false ->
  EZCache.forceCaching o = Some true ->
  EZCache.memory w = Some m ->
  JsMap.get ("ez:" ++ key) (Memory.cache m) = None ->
  fetcher (EZCache.fetcherCalls w) = (d1, Returned v1) ->
  truthy v1 = false ->
  fetcher (S (EZCache.fetcherCalls w)) = (d2, Returned v2) ->
  fst (EZCache.fetch cfg remote key fetcher (EZCache.Options o) w) = Returned v1 /\
  fst (EZCache.fetch cfg remote key fetcher (EZCache.Options o)
         (EZCache.advance dt
            (snd (EZCache.fetch cfg remote key fetcher (EZCache.Options o) w))))
  = Returned v2 /\
  EZCache.fetcherCalls
    (snd (EZCache.fetch cfg remote key fetcher (EZCache.Options o)
            (EZCache.advance dt
               (snd (EZCache.fetch cfg remote key fetcher (EZCache.Options o) w)))))
  = S (S (EZCache.fetcherCalls w)).
Proof.
  intros Hmem Hredis Hforce Hm Hnew Hf1 Hv1 Hf2.
  assert (EZCache.falsyAt ("ez:" ++ key) m) as Hfalsy by (intros it; congruence).
  destruct (fetch_forced_falsy cfg remote key fetcher o w m d1 v1)
    as (w1 & Hrun1 & Hn1 & Hm1); try assumption.
  rewrite Hrun1. cbn [fst snd]. split; [reflexivity|].
  rewrite <- Hn1 in Hf2.
  destruct (fetch_forced_falsy cfg remote key fetcher o (EZCache.advance dt w1) _ d2 v2
              Hmem Hredis Hforce Hm1)
    as (w2 & Hrun2 & Hn2 & _); [|exact Hf2|].
  - apply falsyAt_set; [exact Hv1|]. now apply falsyAt_get.
  - rewrite Hrun2. cbn [fst snd]. split; [reflexivity|].
    rewrite Hn2. cbn. now rewrite Hn1.
Qed.

(** *** A hit in the remote store *)

(** X24: forced caching with both tiers: when memory has nothing for the key
    and the remote store answers a truthy value, that value is the answer;
    the fetcher is not invoked, the value is written to memory with the TTL
    capped at [MEMORY_TTL_MAX], and the metrics record a hit. *)
Theorem remote_hit_is_promoted cfg remote key fetcher o w w0 m0 wr v :
  ENABLE_MEMORY cfg = true ->
  EZCache.forceCaching o = Some true ->
  EZCache.memoryGet ("ez:" ++ key) w = (Returned None, w0) ->
  EZCache.memory w0 = Some m0 ->
  EZCache.remoteLookup cfg remote ("ez:" ++ key) w0 = (Returned (Some (Some v)), wr) ->
  truthy v = true ->
  exists w1,
    EZCache.fetch cfg remote key fetcher (EZCache.Options o) w = (Returned v, w1) /\
    EZCache.fetcherCalls w1 = EZCache.fetcherCalls w /\
    EZCache.memory w1
    = Some (snd (Memory.set cfg (EZCache.clock wr) ("ez:" ++ key) v
                   (Z.min (EZCache.ttl_ (EZCache.parseOptions cfg (EZCache.Options o)))
                      (MEMORY_TTL_MAX cfg)) m0)) /\
    EZCache.metrics w1
    = option_map (Metrics.recordHit cfg (EZCache.clock wr - EZCache.clock w))
        (EZCache.metrics w).
Proof.
  intros Hmem Hforce Hget Hm0 Hlookup Htruthy.
  rewrite EZCacheFacts.fetch_forced
    by (try assumption; now apply EZCacheFacts.mode_with_memory).
  destruct (EZCacheFacts.memoryGet_frame _ _ _ _ Hget) as (Hn0 & _).
  destruct (EZCacheFacts.remoteLookup_frame _ _ _ _ _ _ Hlookup) as (Hm' & Hn' & _ & Hmet').
  assert (EZCache.metrics w0 = EZCache.metrics w) as Hmet0
    by (eapply silent_memoryGet; exact Hget).
  unfold tryCatch, EZCache.fetchFromCacheLayers, bind at 1. rewrite Hmem, Hget.
  unfold EZCache.fetchFromRedis, bind at 1. rewrite Hlookup, Htruthy.
  unfold bind at 1, EZCache.memorySet. rewrite Hm', Hm0.
  destruct (Memory.set cfg (EZCache.clock wr) ("ez:" ++ key) v _ m0) as [ok m1].
  unfold bind, EZCache.now, gets, EZCache.recordHit, modify, ret. cbn.
  eexists. split; [reflexivity|]. cbn.
  split; [congruence|]. split; [reflexivity|]. now rewrite Hmet', Hmet0.
Qed.

(** *** Refreshing, with a remote store *)

Lemma del_rejected cfg remote fullKey (s : Redis.Net) cl0 e :
  Redis.isAvailable cfg (Redis.clock s) (Redis.client s) = (true, cl0) ->
  Redis.settle (remote (Redis.netCalls s)) = Redis.Rejects e ->
  Redis.del cfg remote fullKey s
  = (Returned false,
     Redis.afterFailure cfg (Redis.CmdDel fullKey) s cl0 (remote (Redis.netCalls s))).
Proof.
  intros Ha Hr.
  assert (Redis.attemptFails cfg (Redis.CmdDel fullKey) (remote (Redis.netCalls s)) = true)
    as Hf by (unfold Redis.attemptFails; now rewrite Hr).
  pose proof (RedisFacts.exec_failed cfg remote (Redis.CmdDel fullKey) s cl0 Ha Hf) as Hrun.
  unfold Redis.exec, bind, ret in Hrun.
  destruct (Redis.del cfg remote fullKey s) as [[r|e'] s1]; [|discriminate].
  cbn in Hrun. now injection Hrun as -> ->.
Qed.

Lemma get_resolved cfg remote fullKey (s : Redis.Net) cl0 v :
  Redis.isAvailable cfg (Redis.clock s) (Redis.client s) = (true, cl0) ->
  Redis.delay (remote (Redis.netCalls s)) < REDIS_TIMEOUT cfg ->
  Redis.settle (remote (Redis.netCalls s)) = Redis.Resolves v ->
  Redis.get cfg remote fullKey s
  = (Returned (Some v),
     Redis.afterSuccess (Redis.CmdGet fullKey) s cl0 (remote (Redis.netCalls s))).
Proof.
  intros Ha Hfast Hr.
  assert (Redis.attemptFails cfg (Redis.CmdGet fullKey) (remote (Redis.netCalls s)) = false)
    as Hf.
  { unfold Redis.attemptFails. rewrite Hr. cbn.
    replace (Redis.delay (remote (Redis.netCalls s)) <? REDIS_TIMEOUT cfg) with true
      by (symmetry; lia). reflexivity. }
  pose proof (RedisFacts.exec_succeeded cfg remote (Redis.CmdGet fullKey) s cl0 v Ha Hf Hr)
    as Hrun.
  unfold Redis.exec, bind, ret in Hrun.
  destruct (Redis.get cfg remote fullKey s) as [[r|e'] s1]; [|discriminate].
  cbn in Hrun. now injection Hrun as -> ->.
Qed.

Lemma absent_memoryGet fullKey w :
  (forall m, EZCache.memory w = Some m -> JsMap.get fullKey (Memory.cache m) = None) ->
  EZCache.memoryGet fullKey w = (Returned None, w).
Proof.
  intros Hmem. unfold EZCache.memoryGet.
  destruct (EZCache.memory w) as [m|] eqn:Hm; [|reflexivity].
  unfold Memory.get. rewrite (Hmem m eq_refl).
  destruct w; cbn in *. now subst.
Qed.

(** A truthy answer of the remote store ends the lookup. *)
Lemma fetchFromRedis_hit cfg remote fullKey fetcher memoryTtl redisTtl startTime w wr v :
  EZCache.remoteLookup cfg remote fullKey w = (Returned (Some (Some v)), wr) ->
  truthy v = true ->
  exists w1,
    EZCache.fetchFromRedis cfg remote fullKey fetcher memoryTtl redisTtl startTime w
    = (Returned v, w1) /\
    EZCache.fetcherCalls w1 = EZCache.fetcherCalls wr.
Proof.
  intros Hlookup Htruthy. unfold EZCache.fetchFromRedis, bind at 1.
  rewrite Hlookup, Htruthy.
  match goal with
  | |- context [?m wr = _] =>
      assert (EZCache.keeps v m) as Hkeeps
  end.
  { apply EZCacheFacts.keeps_after; [apply EZCacheFacts.quiet_memorySet|]. intros _.
    apply EZCacheFacts.keeps_after; [apply EZCacheFacts.quiet_now|]. intros t.
    apply EZCacheFacts.keeps_after; [apply EZCacheFacts.quiet_recordHit|]. intros _.
    apply EZCacheFacts.keeps_ret. }
  destruct (Hkeeps wr) as (w1 & Hrun & Hn). eauto.
Qed.

(** [clear] when the service rejects the delete. *)
Lemma clear_rejected cfg remote key w c e :
  EZCache.redis w = Some c ->
  Redis.isAvailable cfg (EZCache.clock w) c = (true, c) ->
  Redis.settle (remote (EZCache.netCalls w)) = Redis.Rejects e ->
  EZCache.clear cfg remote key w
  = (Returned tt,
     {| EZCache.clock := EZCache.clock w + Redis.delay (remote (EZCache.netCalls w));
        EZCache.netCalls := S (EZCache.netCalls w);
        EZCache.fetcherCalls := EZCache.fetcherCalls w;
        EZCache.memory :=
          option_map (fun m => snd (Memory.delete ("ez:" ++ key) m)) (EZCache.memory w);
        EZCache.traffic := EZCache.traffic w;
        EZCache.redis :=
          Some (Redis.recordFailure cfg
                  (EZCache.clock w + Redis.delay (remote (EZCache.netCalls w))) c);
        EZCache.metrics := EZCache.metrics w |}).
Proof.
  intros Hc Ha Hrej. unfold EZCache.clear, bind, modify, ret, EZCache.onRedis.
  cbn [EZCache.setMemory EZCache.redis EZCache.clock EZCache.netCalls EZCache.fetcherCalls
       EZCache.memory EZCache.traffic EZCache.metrics].
  rewrite Hc. rewrite (del_rejected cfg remote ("ez:" ++ key) _ c e) by assumption.
  reflexivity.
Qed.

(** X27: with a remote store [forceRefresh] can answer a stale value: when
    the delete is rejected by the service (without opening the circuit) and
    the service then answers the lookup with the value it still holds, that
    value is returned and the fetcher is not invoked. *)
Theorem forceRefresh_can_answer_stale cfg remote key fetcher o w c e v :
  ENABLE_REDIS cfg = true ->
  EZCache.forceCaching o = Some true ->
  EZCache.redis w = Some c ->
  Redis.redisAvailable c = true ->
  Redis.hasClient c = true ->
  Redis.circuitOpen c = false ->
  Redis.failureCount c + 1 < CIRCUIT_FAILURE_THRESHOLD cfg ->
  Redis.settle (remote (EZCache.netCalls w)) = Redis.Rejects e ->
  Redis.delay (remote (S (EZCache.netCalls w))) < REDIS_TIMEOUT cfg ->
  Redis.settle (remote (S (EZCache.netCalls w))) = Redis.Resolves v ->
  truthy v = true ->
  exists w',
    EZCache.forceRefresh cfg remote key fetcher (EZCache.Options o) w = (Returned v, w') /\
    EZCache.fetcherCalls w' = EZCache.fetcherCalls w.
Proof.
  intros Hredis Hforce Hc Hav Hcl Hopen Hcount Hrej Hfast Hres Htruthy.
  assert (CACHE_MODE cfg <> DISABLED) as Hmode.
  { unfold CACHE_MODE. rewrite Hredis. now destruct (ENABLE_MEMORY cfg). }
  (* the delete *)
  unfold EZCache.forceRefresh, bind.
  rewrite (clear_rejected cfg remote key w c e)
    by (try assumption; now apply RedisFacts.isAvailable_closed).
  set (t1 := EZCache.clock w + Redis.delay (remote (EZCache.netCalls w))).
  set (c1 := Redis.recordFailure cfg t1 c).
  match goal with
  | |- exists w', EZCache.fetch _ _ _ _ _ ?w0 = _ /\ _ => set (wc := w0)
  end.
  assert (Redis.circuitOpen c1 = false /\ Redis.redisAvailable c1 = true /\
          Redis.hasClient c1 = true) as (Hopen1 & Hav1 & Hcl1).
  { unfold c1, Redis.recordFailure. cbn.
    replace (Redis.failureCount c + 1 >=? CIRCUIT_FAILURE_THRESHOLD cfg) with false
      by (symmetry; rewrite Z.geb_leb; apply Z.leb_gt; lia).
    rewrite Hopen. auto. }
  (* the lookup *)
  rewrite EZCacheFacts.fetch_forced by assumption.
  unfold tryCatch, EZCache.fetchFromCacheLayers, bind at 1.
  assert ((if ENABLE_MEMORY cfg then EZCache.memoryGet ("ez:" ++ key) else ret None) wc
          = (Returned None, wc)) as Hmiss.
  { destruct (ENABLE_MEMORY cfg); [|reflexivity]. apply absent_memoryGet.
    unfold wc. cbn [EZCache.memory]. destruct (EZCache.memory w) as [m|]; [|discriminate].
    cbn [option_map]. intros m' [= <-]. rewrite MemoryFacts.delete_cache.
    apply JsMapFacts.get_delete_eq. }
  rewrite Hmiss.
  assert (exists wr,
             EZCache.remoteLookup cfg remote ("ez:" ++ key) wc
             = (Returned (Some (Some v)), wr)) as (wr & Hlookup).
  { unfold EZCache.remoteLookup. rewrite Hredis. unfold EZCache.onRedis, wc.
    cbn [EZCache.redis EZCache.clock EZCache.netCalls].
    rewrite (get_resolved cfg remote ("ez:" ++ key) _ c1 v)
      by (cbn; first [now apply RedisFacts.isAvailable_closed | exact Hfast | exact Hres]).
    eexists. reflexivity. }
  destruct (fetchFromRedis_hit cfg remote ("ez:" ++ key) fetcher
              (EZCache.ttl_ (EZCache.parseOptions cfg (EZCache.Options o)))
              (if ENABLE_REDIS cfg
               then EZCache.ttl_ (EZCache.parseOptions cfg (EZCache.Options o)) * 10
               else EZCache.ttl_ (EZCache.parseOptions cfg (EZCache.Options o)))
              (EZCache.clock wc) wc wr v Hlookup Htruthy) as (w1 & Hrun & Hn).
  rewrite Hrun. exists w1. split; [reflexivity|].
  apply EZCacheFacts.remoteLookup_frame in Hlookup as (_ & Hcalls & _ & _).
  now rewrite Hn, Hcalls.
Qed.

(** *** The capacity bound, through the orchestrator *)

Section Capacity.
Variables (cfg : Config) (remote : Redis.Remote Value) (fetcher : EZCache.Fetcher Value).
Hypothesis capacity : 1 <= MEMORY_SIZE cfg.
Hypothesis maxValue : MAX_VALUE_SIZE cfg <= 2 ^ 53.
Hypothesis timeout : 0 <= REDIS_TIMEOUT cfg.
Hypothesis fetcherTime : forall n, 0 <= fst (fetcher n).
Hypothesis remoteTime : forall n, 0 <= Redis.delay (remote n).

Lemma steady_bind {A B} (m : M (EZCache.World Value) A)
  (k : A -> M (EZCache.World Value) B) :
  EZCache.steady cfg m -> (forall a, EZCache.steady cfg (k a)) -> EZCache.steady cfg (bind m k).
Proof.
  intros Hm Hk w out w1. unfold bind. destruct (m w) as [[a|e] w0] eqn:Hrun.
  - intros Hrun2. destruct (Hm _ _ _ Hrun) as [Hle Hkeep].
    destruct (Hk a _ _ _ Hrun2) as [Hle2 Hkeep2]. split; [lia|].
    intros T HT Hend Hw. apply Hkeep2; try assumption. apply Hkeep; try assumption. lia.
  - intros [= <- <-]. now apply Hm in Hrun.
Qed.

Lemma steady_tryCatch {A} (body : M (EZCache.World Value) A)
  (handler : Error -> M (EZCache.World Value) A) :
  EZCache.steady cfg body -> (forall e, EZCache.steady cfg (handler e)) -> EZCache.steady cfg (tryCatch body handler).
Proof.
  intros Hm Hk w out w1. unfold tryCatch. destruct (body w) as [[a|e] w0] eqn:Hrun.
  - intros [= <- <-]. now apply Hm in Hrun.
  - intros Hrun2. destruct (Hm _ _ _ Hrun) as [Hle Hkeep].
    destruct (Hk e _ _ _ Hrun2) as [Hle2 Hkeep2]. split; [lia|].
    intros T HT Hend Hw. apply Hkeep2; try assumption. apply Hkeep; try assumption. lia.
Qed.

(** Steps that touch neither the clock nor the memory store. *)
Lemma steady_frame {A} (m : M (EZCache.World Value) A) :
  (forall w out w1, m w = (out, w1) ->
                    EZCache.clock w1 = EZCache.clock w /\
                    EZCache.memory w1 = EZCache.memory w) ->
  EZCache.steady cfg m.
Proof.
  intros Hm w out w1 Hrun. destruct (Hm _ _ _ Hrun) as [Hc Hmem].
  split; [lia|]. intros T _ _ [Hclock Hb]. split; [lia|]. now rewrite Hmem.
Qed.

Lemma steady_ret {A} (a : A) : EZCache.steady (Value:=Value) cfg (ret a).
Proof. apply steady_frame. now intros w out w1 [= <- <-]. Qed.

Lemma steady_gets {A} (f : EZCache.World Value -> A) : EZCache.steady cfg (gets f).
Proof. apply steady_frame. now intros w out w1 [= <- <-]. Qed.

Lemma steady_recordHit t : EZCache.steady (Value:=Value) cfg (EZCache.recordHit cfg t).
Proof. apply steady_frame. now intros w out w1 [= <- <-]. Qed.

Lemma steady_recordMiss t : EZCache.steady (Value:=Value) cfg (EZCache.recordMiss cfg t).
Proof. apply steady_frame. now intros w out w1 [= <- <-]. Qed.

Lemma steady_recordError : EZCache.steady (Value:=Value) cfg (EZCache.recordError cfg).
Proof. apply steady_frame. now intros w out w1 [= <- <-]. Qed.

Lemma steady_isHighTraffic key threshold tr :
  EZCache.steady (Value:=Value) cfg (EZCache.isHighTraffic cfg key threshold tr).
Proof.
  apply steady_frame. intros w out w1. unfold EZCache.isHighTraffic.
  destruct (Traffic.isHighTraffic cfg (EZCache.clock w) key (Some threshold) tr).
  now intros [= <- <-].
Qed.

Lemma steady_callFetcher : EZCache.steady cfg (EZCache.callFetcher fetcher).
Proof.
  intros w out w1. unfold EZCache.callFetcher.
  pose proof (fetcherTime (EZCache.fetcherCalls w)) as Hpos.
  destruct (fetcher (EZCache.fetcherCalls w)) as [elapsed o]. cbn in Hpos.
  intros [= <- <-]. cbn. split; [lia|].
  intros T _ Hend [Hclock Hb]. split; [cbn; lia | exact Hb].
Qed.

Lemma steady_memoryGet key : EZCache.steady (Value:=Value) cfg (EZCache.memoryGet key).
Proof.
  intros w out w1. unfold EZCache.memoryGet.
  destruct (EZCache.memory w) as [m|] eqn:Hm.
  - destruct (Memory.get (EZCache.clock w) key m) as [r m'] eqn:Hget.
    intros [= <- <-]. cbn. split; [lia|].
    intros T _ _ [Hclock Hb]. split; [exact Hclock|]. cbn. intros m1 [= <-].
    change m' with (snd (r, m')). rewrite <- Hget.
    apply MemoryFacts.bounded_get; [lia | now apply Hb].
  - intros [= <- <-]. split; [lia | auto].
Qed.

Lemma steady_memorySet key d ttlSeconds :
  key <> EmptyString -> EZCache.steady cfg (EZCache.memorySet cfg key d ttlSeconds).
Proof.
  intros Hkey w out w1. unfold EZCache.memorySet.
  destruct (EZCache.memory w) as [m|] eqn:Hm.
  - destruct (Memory.set cfg (EZCache.clock w) key d ttlSeconds m) as [r m'] eqn:Hset.
    intros [= <- <-]. cbn. split; [lia|].
    intros T HT _ [Hclock Hb]. split; [exact Hclock|]. cbn. intros m1 [= <-].
    change m' with (snd (r, m')). rewrite <- Hset.
    apply MemoryFacts.bounded_set; try assumption; [lia | now apply Hb].
  - intros [= <- <-]. split; [lia | auto].
Qed.

Lemma exec_clock cmd (s : Redis.Net) :
  Redis.clock s <= Redis.clock (snd (Redis.exec cfg remote cmd s)).
Proof.
  pose proof (remoteTime (Redis.netCalls s)) as Hpos.
  destruct (BreakerFacts.exec_cases cfg remote cmd s)
    as [[_ ->] | [(cl0 & _ & ->) | (cl0 & _ & ->)]]; [lia | |].
  - unfold Redis.afterFailure, Redis.elapsed. cbn [Redis.clock].
    destruct (Redis.raced cmd && _); lia.
  - unfold Redis.afterSuccess. cbn [Redis.clock]. lia.
Qed.

Lemma get_clock key (s : Redis.Net) :
  Redis.clock s <= Redis.clock (snd (Redis.get cfg remote key s)).
Proof.
  pose proof (exec_clock (Redis.CmdGet key) s) as Hle.
  unfold Redis.exec, bind, ret in Hle.
  now destruct (Redis.get cfg remote key s) as [[r|e] s1].
Qed.

Lemma setex_clock key ttlSeconds d (s : Redis.Net) :
  Redis.clock s <= Redis.clock (snd (Redis.setex cfg remote key ttlSeconds d s)).
Proof.
  pose proof (exec_clock (Redis.CmdSetex key ttlSeconds d) s) as Hle.
  unfold Redis.exec, bind, ret in Hle.
  now destruct (Redis.setex cfg remote key ttlSeconds d s) as [[r|e] s1].
Qed.

Lemma steady_onRedis {A} (cmd : M Redis.Net A) :
  (forall s, Redis.clock s <= Redis.clock (snd (cmd s))) ->
  EZCache.steady (Value:=Value) cfg (EZCache.onRedis cmd).
Proof.
  intros Hcmd w out w1 Hrun.
  pose proof (EZCacheFacts.onRedis_frame _ _ _ _ Hrun) as (Hmem & _).
  assert (EZCache.clock w <= EZCache.clock w1) as Hle.
  { revert Hrun. unfold EZCache.onRedis. destruct (EZCache.redis w) as [cl|].
    - match goal with
      | |- context [cmd ?s0] => pose proof (Hcmd s0) as Hs; destruct (cmd s0) as [[a|e] s1]
      end; intros [= <- <-]; exact Hs.
    - intros [= <- <-]. lia. }
  split; [exact Hle|]. intros T _ Hend [Hclock Hb]. split; [lia|]. now rewrite Hmem.
Qed.

Lemma steady_storeInCacheLayers key d memoryTtl redisTtl :
  EZCache.steady cfg (EZCache.storeInCacheLayers cfg remote ("ez:" ++ key) d memoryTtl redisTtl).
Proof.
  unfold EZCache.storeInCacheLayers.
  apply steady_bind;
    [destruct (ENABLE_MEMORY cfg); [now apply steady_memorySet | apply steady_ret]|].
  intros _. apply steady_bind; [|intros _; apply steady_ret].
  destruct (ENABLE_REDIS cfg); [|apply steady_ret].
  apply steady_onRedis. apply setex_clock.
Qed.

Lemma steady_fetchFromCacheLayers key memoryTtl redisTtl startTime :
  EZCache.steady cfg (EZCache.fetchFromCacheLayers cfg remote ("ez:" ++ key) fetcher
            memoryTtl redisTtl startTime).
Proof.
  assert (EZCache.steady cfg (EZCache.fetchFromDatabase cfg remote ("ez:" ++ key) fetcher
                    memoryTtl redisTtl startTime)) as Hdb.
  { unfold EZCache.fetchFromDatabase.
    apply steady_bind; [apply steady_callFetcher|]. intros d.
    apply steady_bind; [apply steady_storeInCacheLayers|]. intros _.
    apply steady_bind; [apply steady_gets|]. intros t.
    apply steady_bind; [apply steady_recordMiss|]. intros _. apply steady_ret. }
  assert (EZCache.steady cfg (EZCache.fetchFromRedis cfg remote ("ez:" ++ key) fetcher
                    memoryTtl redisTtl startTime)) as Hredis.
  { unfold EZCache.fetchFromRedis.
    apply steady_bind.
    { unfold EZCache.remoteLookup. destruct (ENABLE_REDIS cfg); [|apply steady_ret].
      apply steady_onRedis. apply get_clock. }
    intros [[d|]|]; try exact Hdb.
    destruct (truthy d); [|exact Hdb].
    apply steady_bind; [now apply steady_memorySet|]. intros _.
    apply steady_bind; [apply steady_gets|]. intros t.
    apply steady_bind; [apply steady_recordHit|]. intros _. apply steady_ret. }
  unfold EZCache.fetchFromCacheLayers.
  apply steady_bind;
    [destruct (ENABLE_MEMORY cfg); [apply steady_memoryGet | apply steady_ret]|].
  intros [d|]; try exact Hredis.
  destruct (truthy d); [|exact Hredis].
  apply steady_bind; [apply steady_gets|]. intros t.
  apply steady_bind; [apply steady_recordHit|]. intros _. apply steady_ret.
Qed.

Lemma steady_fetch key opts : EZCache.steady cfg (EZCache.fetch cfg remote key fetcher opts).
Proof.
  unfold EZCache.fetch.
  apply steady_bind; [apply steady_gets|]. intros startTime.
  apply steady_tryCatch.
  - destruct (CacheMode_eqb (CACHE_MODE cfg) DISABLED); [apply steady_callFetcher|].
    apply steady_bind; [apply steady_gets|].
    intros [tr|]; [|apply steady_fetchFromCacheLayers].
    destruct (ENABLE_TRAFFIC_DETECTION cfg && _); [|apply steady_fetchFromCacheLayers].
    apply steady_bind; [apply steady_isHighTraffic|].
    intros [|]; cbn [negb]; [apply steady_fetchFromCacheLayers|].
    apply steady_bind; [apply steady_callFetcher|]. intros d.
    apply steady_bind; [apply steady_gets|]. intros t.
    apply steady_bind; [apply steady_recordMiss|]. intros _. apply steady_ret.
  - intros _. apply steady_bind; [apply steady_recordError|]. intros _.
    apply steady_callFetcher.
Qed.

End Capacity.

(** X28: through [fetch] the memory store stays within its capacity,
    whatever the key, the options and the answers of the fetcher and of the
    remote service: the orchestrator prefixes every key with ['ez:'], so no
    key is the empty string. (Time does not run backwards, and the clock
    stays below 2^53.) *)
Theorem fetch_keeps_memory_within_capacity cfg remote key fetcher opts w out w' m' :
  1 <= MEMORY_SIZE cfg ->
  MAX_VALUE_SIZE cfg <= 2 ^ 53 ->
  0 <= REDIS_TIMEOUT cfg ->
  (forall n, 0 <= fst (fetcher n)) ->
  (forall n, 0 <= Redis.delay (remote n)) ->
  0 <= EZCache.clock w ->
  (forall m, EZCache.memory w = Some m -> Memory.bounded cfg m) ->
  EZCache.fetch cfg remote key fetcher opts w = (out, w') ->
  EZCache.clock w' < 2 ^ 53 ->
  EZCache.memory w' = Some m' ->
  Memory.bounded cfg m' /\ Memory.size m' <= MEMORY_SIZE cfg.
Proof.
  intros Hcap Hmax Htimeout Hfetcher Hremote Hclock Hb Hrun Hend Hm'.
  destruct (steady_fetch cfg remote fetcher Hcap Hmax Htimeout Hfetcher Hremote key opts
              w out w' Hrun) as [Hle Hkeep].
  destruct (Hkeep (EZCache.clock w') Hend (Z.le_refl _)) as [_ Hb'].
  { split; [lia | exact Hb]. }
  specialize (Hb' m' Hm'). split; [exact Hb' | apply Hb'].
Qed.

End FetchFacts.

(** In production the first request for a key is below the threshold;
    [Sample.flaky] throws on its first invocation, and the call ends after
    a second one. *)
Lemma fetch_invokes_fetcher_witness :
  EZCache.fetcherCalls
    (snd (EZCache.fetch Sample.production Sample.failsThrice "users" Sample.flaky
            EZCache.NoOptions (Sample.freshWorld Sample.production))) = 2%nat /\
  fst (EZCache.fetch Sample.production Sample.failsThrice "users" Sample.flaky
         EZCache.NoOptions (Sample.freshWorld Sample.production))
  = Returned (Sample.JsNum 42).
Proof.
  destruct (EZCacheFacts.fetch_invokes_fetcher Sample.production Sample.failsThrice "users"
              Sample.flaky EZCache.NoOptions (Sample.freshWorld Sample.production)
              (fst (EZCache.fetch Sample.production Sample.failsThrice "users" Sample.flaky
                      EZCache.NoOptions (Sample.freshWorld Sample.production)))
              (snd (EZCache.fetch Sample.production Sample.failsThrice "users" Sample.flaky
                      EZCache.NoOptions (Sample.freshWorld Sample.production))))
    as [[Hn _] | [[Hn _] | [Hn (d & e & _ & Hout)]]].
  - apply surjective_pairing.
  - vm_compute in Hn. discriminate Hn.
  - vm_compute in Hn. discriminate Hn.
  - split; [exact Hn | exact Hout].
Defined.

(** In production the first call of [fetch] leaves one request counted. *)
Lemma every_fetch_is_counted_once_witness :
  option_map (fun pm => Metrics.totalRequests (Metrics.metrics pm))
    (EZCache.metrics
       (snd (EZCache.fetch Sample.production Sample.failsThrice "users" Sample.counting
               EZCache.NoOptions (Sample.freshWorld Sample.production))))
  = Some 1.
Proof.
  destruct (every_fetch_is_counted_once Sample.production Sample.failsThrice "users"
              Sample.counting EZCache.NoOptions (Sample.freshWorld Sample.production)
              (Metrics.create 1000)
              (fst (EZCache.fetch Sample.production Sample.failsThrice "users"
                      Sample.counting EZCache.NoOptions
                      (Sample.freshWorld Sample.production)))
              (snd (EZCache.fetch Sample.production Sample.failsThrice "users"
                      Sample.counting EZCache.NoOptions
                      (Sample.freshWorld Sample.production))))
    as (pm' & Hpm & Hn);
    [vm_compute; discriminate | reflexivity | reflexivity | apply surjective_pairing |].
  rewrite Hpm. cbn [option_map]. rewrite Hn. reflexivity.
Defined.

(** In development the threshold is 1: the second request for ["users"],
    one second after the first, is answered with the 42 in memory; the
    fetcher has been invoked once, by the first request. *)
Lemma high_traffic_hit_is_local_witness :
  fst (EZCache.fetch Sample.development Sample.failsThrice "users" Sample.counting
         EZCache.NoOptions Sample.warmWorld) = Returned (Sample.JsNum 42) /\
  EZCache.fetcherCalls
    (snd (EZCache.fetch Sample.development Sample.failsThrice "users" Sample.counting
            EZCache.NoOptions Sample.warmWorld)) = 1%nat.
Proof.
  destruct (high_traffic_hit_is_local Sample.development Sample.failsThrice "users"
              Sample.counting EZCache.NoOptions Sample.warmWorld
              (default (Traffic.create 0) (EZCache.traffic Sample.warmWorld))
              (default (Memory.create 0) (EZCache.memory Sample.warmWorld))
              {| Memory.data := Sample.JsNum 42; Memory.expires := 121050;
                 Memory.lastAccess := 1050; Memory.hitCount := 1;
                 Memory.sizeBytes := 4; Memory.createdAt := 1050 |})
    as [Hrun _];
    [reflexivity | reflexivity | vm_compute; reflexivity | reflexivity
    | vm_compute; discriminate | vm_compute; reflexivity | vm_compute; reflexivity
    | reflexivity | vm_compute; discriminate |].
  rewrite Hrun. split; reflexivity.
Defined.

(** All layers on, memory empty, the remote store answering 7: the
    forced call returns 7 and does not invoke the fetcher. *)
Lemma remote_hit_is_promoted_witness :
  fst (EZCache.fetch Sample.productionWithRedis Sample.answersSeven "users" Sample.counting
         Sample.forced (Sample.freshWorld Sample.productionWithRedis))
  = Returned (Sample.JsNum 7) /\
  EZCache.fetcherCalls
    (snd (EZCache.fetch Sample.productionWithRedis Sample.answersSeven "users"
            Sample.counting Sample.forced (Sample.freshWorld Sample.productionWithRedis)))
  = 0%nat.
Proof.
  destruct (remote_hit_is_promoted Sample.productionWithRedis Sample.answersSeven "users"
              Sample.counting Sample.forceCachingOnly
              (Sample.freshWorld Sample.productionWithRedis)
              (Sample.freshWorld Sample.productionWithRedis)
              (Memory.create 1000)
              (snd (EZCache.remoteLookup Sample.productionWithRedis Sample.answersSeven
                      "ez:users" (Sample.freshWorld Sample.productionWithRedis)))
              (Sample.JsNum 7))
    as (w1 & Hrun & Hn & _); try reflexivity.
  change Sample.forced with (EZCache.Options Sample.forceCachingOnly).
  rewrite Hrun. split; [reflexivity | exact Hn].
Defined.

(** [Sample.zeros] answers 0: two forced calls one second apart invoke
    it twice. *)
Lemma falsy_values_are_fetched_again_witness :
  EZCache.fetcherCalls
    (snd (EZCache.fetch Sample.production Sample.failsThrice "users" Sample.zeros
            Sample.forced
            (EZCache.advance 1000
               (snd (EZCache.fetch Sample.production Sample.failsThrice "users"
                       Sample.zeros Sample.forced (Sample.freshWorld Sample.production))))))
  = 2%nat.
Proof.
  apply (falsy_values_are_fetched_again Sample.production Sample.failsThrice "users"
           Sample.zeros Sample.forceCachingOnly (Sample.freshWorld Sample.production)
           (Memory.create 1000) 50 (Sample.JsNum 0) 50 (Sample.JsNum 0) 1000);
    reflexivity.
Defined.

(** Production without a remote store, 42 cached for ["users"] by a
    forced call: [forceRefresh] invokes the fetcher and answers 43. *)
Lemma forceRefresh_without_remote_fetches_witness :
  fst (EZCache.forceRefresh Sample.production Sample.failsThrice "users" Sample.counting
         Sample.forced
         (snd (EZCache.fetch Sample.production Sample.failsThrice "users" Sample.counting
                 Sample.forced (Sample.freshWorld Sample.production))))
  = Returned (Sample.JsNum 43).
Proof.
  destruct (forceRefresh_without_remote_fetches Sample.production Sample.failsThrice
              "users" Sample.counting Sample.forced
              (snd (EZCache.fetch Sample.production Sample.failsThrice "users"
                      Sample.counting Sample.forced (Sample.freshWorld Sample.production)))
              (fst (EZCache.forceRefresh Sample.production Sample.failsThrice "users"
                      Sample.counting Sample.forced
                      (snd (EZCache.fetch Sample.production Sample.failsThrice "users"
                              Sample.counting Sample.forced
                              (Sample.freshWorld Sample.production)))))
              (snd (EZCache.forceRefresh Sample.production Sample.failsThrice "users"
                      Sample.counting Sample.forced
                      (snd (EZCache.fetch Sample.production Sample.failsThrice "users"
                              Sample.counting Sample.forced
                              (Sample.freshWorld Sample.production))))))
    as [_ Hret]; [reflexivity | apply surjective_pairing |].
  destruct (Hret 50 (Sample.JsNum 43) eq_refl) as [Hout _]. exact Hout.
Defined.

(** All layers on, the service rejecting the delete and then answering
    7: [forceRefresh] returns 7 and does not invoke the fetcher. *)
Lemma forceRefresh_can_answer_stale_witness :
  fst (EZCache.forceRefresh Sample.productionWithRedis Sample.failsOnce "users"
         Sample.counting Sample.forced (Sample.freshWorld Sample.productionWithRedis))
  = Returned (Sample.JsNum 7) /\
  EZCache.fetcherCalls
    (snd (EZCache.forceRefresh Sample.productionWithRedis Sample.failsOnce "users"
            Sample.counting Sample.forced (Sample.freshWorld Sample.productionWithRedis)))
  = 0%nat.
Proof.
  destruct (forceRefresh_can_answer_stale Sample.productionWithRedis Sample.failsOnce
              "users" Sample.counting Sample.forceCachingOnly
              (Sample.freshWorld Sample.productionWithRedis) Sample.connectedClient
              "ECONNRESET" (Sample.JsNum 7))
    as (w' & Hrun & Hn); try reflexivity.
  change Sample.forced with (EZCache.Options Sample.forceCachingOnly).
  rewrite Hrun. split; [reflexivity | exact Hn].
Defined.

(** In production, after a first call of [fetch], the memory store is
    within its 5000 entries. *)
Lemma fetch_keeps_memory_within_capacity_witness :
  Memory.size
    (default (Memory.create 0)
       (EZCache.memory
          (snd (EZCache.fetch Sample.production Sample.failsThrice "users" Sample.counting
                  Sample.forced (Sample.freshWorld Sample.production)))))
  <= 5000.
Proof.
  apply (fetch_keeps_memory_within_capacity Sample.production Sample.failsThrice "users"
           Sample.counting Sample.forced (Sample.freshWorld Sample.production)
           (fst (EZCache.fetch Sample.production Sample.failsThrice "users" Sample.counting
                   Sample.forced (Sample.freshWorld Sample.production)))
           (snd (EZCache.fetch Sample.production Sample.failsThrice "users" Sample.counting
                   Sample.forced (Sample.freshWorld Sample.production)))).
  - vm_compute. discriminate.
  - vm_compute. discriminate.
  - vm_compute. discriminate.
  - intros n. vm_compute. discriminate.
  - intros n. unfold Sample.failsThrice. destruct (n <? 3)%nat; vm_compute; discriminate.
  - vm_compute. discriminate.
  - intros m [= <-]. split; [vm_compute; discriminate | constructor].
  - apply surjective_pairing.
  - vm_compute. reflexivity.
  - vm_compute. reflexivity.
Defined.

End FetchFacts.
